(** * RedMist sample client: record codec of [session_state.py]

    A shallow embedding of the positional MessagePack codec of the
    Python sample client (session_state.py, main.py, signalr_client.py)
    and the properties of its decoders and encoders.

    Python values that travel on the wire are embedded in [value];
    exceptions are embedded in the [result] monad, and the order of the
    binds follows Python's left-to-right evaluation of call arguments. *)

From Stdlib Require Import ZArith List String Ascii Bool Lia.
From Stdlib Require Import Floats.SpecFloat.
From Stdlib Require Import DecimalString.
Import ListNotations.

Set Implicit Arguments.
Set Warnings "-register-all".

(* ================================================================== *)
(** ** Wire values *)

(** Keys of a decoded MessagePack map: integers or strings. *)
Inductive key : Type :=
| KInt (z : Z)
| KStr (s : string).

(** What [msgpack.unpackb] hands to the decoders: null, booleans,
    integers, floats, strings, arrays and maps.  A [dict] lists its
    items in insertion order. *)
Inductive value : Type :=
| VNone
| VBool (b : bool)
| VInt (z : Z)
| VFloat (f : spec_float)
| VStr (s : string)
| VList (l : list value)
| VDict (d : list (key * value)).

Definition dict : Type := list (key * value).

(* ================================================================== *)
(** ** Exceptions *)

Inductive exn : Type :=
| ValueError
| TypeError
| KeyError
| IndexError
| OverflowError
| OSError.

Inductive result (A : Type) : Type :=
| Ok (a : A)
| Raise (e : exn).

Arguments Ok {A} a.
Arguments Raise {A} e.

Definition bind {A B : Type} (r : result A) (k : A -> result B) : result B :=
  match r with
  | Ok a => k a
  | Raise e => Raise e
  end.

Notation "x <- e ;; k" := (bind e (fun x => k))
  (at level 61, e at next level, right associativity).

(** A list comprehension [[f(x) for x in xs]] whose body may raise. *)
Fixpoint mapM {A B : Type} (f : A -> result B) (xs : list A) : result (list B) :=
  match xs with
  | [] => Ok []
  | x :: xs' => y <- f x ;; ys <- mapM f xs' ;; Ok (y :: ys)
  end.

Definition succeeds {A : Type} (r : result A) : Prop := exists a, r = Ok a.
Definition raises {A : Type} (r : result A) : Prop := exists e, r = Raise e.

(* ================================================================== *)
(** ** The Python operations the decoders use *)

Definition key_eqb (a b : key) : bool :=
  match a, b with
  | KInt x, KInt y => Z.eqb x y
  | KStr x, KStr y => String.eqb x y
  | _, _ => false
  end.

Definition key_value (k : key) : value :=
  match k with
  | KInt z => VInt z
  | KStr s => VStr s
  end.

(** [d[k]] as an option. *)
Fixpoint dict_get (k : key) (d : dict) : option value :=
  match d with
  | [] => None
  | (k', v) :: d' => if key_eqb k k' then Some v else dict_get k d'
  end.

(** [d.get(k, default)]: a key that is present with value [None]
    yields [None], not the default. *)
Definition get (d : dict) (k : Z) (default : value) : value :=
  match dict_get (KInt k) d with
  | Some v => v
  | None => default
  end.

(** [{i: v for i, v in enumerate(l)}], numbering from [start]. *)
Fixpoint enumerate_from (start : nat) (l : list value) : dict :=
  match l with
  | [] => []
  | v :: l' => (KInt (Z.of_nat start), v) :: enumerate_from (S start) l'
  end.

Definition enumerate_dict (l : list value) : dict := enumerate_from 0 l.

(** Truth value of an object in a condition. *)
Definition truthy (v : value) : bool :=
  match v with
  | VNone => false
  | VBool b => b
  | VInt z => negb (Z.eqb z 0)
  | VFloat (S754_zero _) => false
  | VFloat _ => true
  | VStr EmptyString => false
  | VStr _ => true
  | VList [] => false
  | VList _ => true
  | VDict [] => false
  | VDict _ => true
  end.

Definition chars (s : string) : list value :=
  map (fun c => VStr (String c EmptyString)) (list_ascii_of_string s).

(** [len(v)] *)
Definition py_len (v : value) : result nat :=
  match v with
  | VList l => Ok (List.length l)
  | VStr s => Ok (String.length s)
  | VDict d => Ok (List.length d)
  | _ => Raise TypeError
  end.

(** [v[i]] for a literal index [i >= 0]. *)
Definition py_getitem (v : value) (i : nat) : result value :=
  match v with
  | VList l =>
      match nth_error l i with
      | Some x => Ok x
      | None => Raise IndexError
      end
  | VStr s =>
      match String.get i s with
      | Some c => Ok (VStr (String c EmptyString))
      | None => Raise IndexError
      end
  | VDict d =>
      match dict_get (KInt (Z.of_nat i)) d with
      | Some x => Ok x
      | None => Raise KeyError
      end
  | _ => Raise TypeError
  end.

(** The elements [for x in v] runs over. *)
Definition py_iter (v : value) : result (list value) :=
  match v with
  | VList l => Ok l
  | VStr s => Ok (chars s)
  | VDict d => Ok (map (fun kv => key_value (fst kv)) d)
  | _ => Raise TypeError
  end.

(** [conv(data[i]) if len(data) > i else default] *)
Definition item_with {A : Type} (data : value) (i : nat)
    (conv : value -> result A) (default : A) : result A :=
  n <- py_len data ;;
  if i <? n then v <- py_getitem data i ;; conv v else Ok default.

(** [data[i] if len(data) > i else default] *)
Definition item (data : value) (i : nat) (default : value) : result value :=
  item_with data i (fun v => Ok v) default.

(** [conv(data[i]) if len(data) > i and data[i] else default] *)
Definition item_if_truthy {A : Type} (data : value) (i : nat)
    (conv : value -> result A) (default : A) : result A :=
  n <- py_len data ;;
  if i <? n then
    v <- py_getitem data i ;;
    if truthy v then conv v else Ok default
  else Ok default.

(** The integer an object compares (and hashes) equal to, if any:
    this is the key under which an [IntEnum] looks a value up. *)
Definition float_integer (f : spec_float) : option Z :=
  match f with
  | S754_zero _ => Some 0%Z
  | S754_finite s m e =>
      if (0 <=? e)%Z then
        let z := (Z.pos m * 2 ^ e)%Z in
        Some (if s then (- z)%Z else z)
      else if (Z.pos m mod 2 ^ (- e) =? 0)%Z then
        let z := (Z.pos m / 2 ^ (- e))%Z in
        Some (if s then (- z)%Z else z)
      else None
  | _ => None
  end.

Definition enum_key (v : value) : option Z :=
  match v with
  | VInt z => Some z
  | VBool b => Some (Z.b2z b)
  | VFloat f => float_integer f
  | _ => None
  end.

(** Calling an [IntEnum] class on an object: the member with that
    value, or [ValueError]. *)
Definition enum_call {E : Type} (of_Z : Z -> option E) (v : value) : result E :=
  match enum_key v with
  | Some z =>
      match of_Z z with
      | Some e => Ok e
      | None => Raise ValueError
      end
  | None => Raise ValueError
  end.

(* ================================================================== *)
(** ** Enumerations *)

Module Flags.

(** Flag states during a racing session. *)
Inductive t : Type :=
| UNKNOWN | GREEN | YELLOW | RED | WHITE | CHECKERED | BLACK | PURPLE35.

(** [int(flag)] *)
Definition int (f : t) : Z :=
  match f with
  | UNKNOWN => 0 | GREEN => 1 | YELLOW => 2 | RED => 3
  | WHITE => 4 | CHECKERED => 5 | BLACK => 6 | PURPLE35 => 7
  end%Z.

Definition of_Z (z : Z) : option t :=
  match z with
  | 0 => Some UNKNOWN | 1 => Some GREEN | 2 => Some YELLOW | 3 => Some RED
  | 4 => Some WHITE | 5 => Some CHECKERED | 6 => Some BLACK
  | 7 => Some PURPLE35
  | _ => None
  end%Z.

(** [Flags(v)] *)
Definition call : value -> result t := enum_call of_Z.

End Flags.

Module VideoSystemType.

(** Types of source video systems. *)
Inductive t : Type :=
| NONE | GENERIC | SENTINEL | MY_RACES_LIVE | AUTOSPORT_LABS.

Definition int (x : t) : Z :=
  match x with
  | NONE => 0 | GENERIC => 1 | SENTINEL => 2 | MY_RACES_LIVE => 3
  | AUTOSPORT_LABS => 4
  end%Z.

Definition of_Z (z : Z) : option t :=
  match z with
  | 0 => Some NONE | 1 => Some GENERIC | 2 => Some SENTINEL
  | 3 => Some MY_RACES_LIVE | 4 => Some AUTOSPORT_LABS
  | _ => None
  end%Z.

(** [VideoSystemType(v)] *)
Definition call : value -> result t := enum_call of_Z.

End VideoSystemType.

Module VideoDestinationType.

(** Where the video is available for viewing. *)
Inductive t : Type :=
| NONE | YOUTUBE | FACEBOOK | VIMEO | DIRECT_SRT.

Definition int (x : t) : Z :=
  match x with
  | NONE => 0 | YOUTUBE => 1 | FACEBOOK => 2 | VIMEO => 3 | DIRECT_SRT => 4
  end%Z.

Definition of_Z (z : Z) : option t :=
  match z with
  | 0 => Some NONE | 1 => Some YOUTUBE | 2 => Some FACEBOOK
  | 3 => Some VIMEO | 4 => Some DIRECT_SRT
  | _ => None
  end%Z.

(** [VideoDestinationType(v)] *)
Definition call : value -> result t := enum_call of_Z.

End VideoDestinationType.

(* ================================================================== *)
(** ** The date and time library

    [datetime] and [time] come from Python's standard library, not from
    this repository: the codec only parses and prints them, so they are
    taken as an interface. *)

Class DateTimeLib : Type := {
  datetime : Type;
  time : Type;
  (** [datetime.fromisoformat(s)] *)
  datetime_fromisoformat : string -> result datetime;
  (** [datetime.fromtimestamp(x)] for an integer and for a float *)
  datetime_fromtimestamp_int : Z -> result datetime;
  datetime_fromtimestamp_float : spec_float -> result datetime;
  (** [d.isoformat()] *)
  datetime_isoformat : datetime -> string;
  (** [time.fromisoformat(s)] *)
  time_fromisoformat : string -> result time;
  (** [t.isoformat()] *)
  time_isoformat : time -> string
}.

(** [fromisoformat] is documented as the inverse of [isoformat]. *)
Class DateTimeLaws (L : DateTimeLib) : Prop := {
  datetime_iso_roundtrip :
    forall d : datetime, datetime_fromisoformat (datetime_isoformat d) = Ok d;
  time_iso_roundtrip :
    forall t : time, time_fromisoformat (time_isoformat t) = Ok t
}.

Section ParseDateTime.
Context {L : DateTimeLib}.

(** Parse datetime from various formats (string, datetime, int timestamp). *)
Definition _parse_datetime (v : value) : result (option datetime) :=
  match v with
  | VNone => Ok None
  | VStr s => d <- datetime_fromisoformat s ;; Ok (Some d)
  | VBool b => d <- datetime_fromtimestamp_int (Z.b2z b) ;; Ok (Some d)
  | VInt z => d <- datetime_fromtimestamp_int z ;; Ok (Some d)
  | VFloat f => d <- datetime_fromtimestamp_float f ;; Ok (Some d)
  | VList _ | VDict _ => Ok None
  end.

(** Parse time from various formats (string, time object). *)
Definition _parse_time (v : value) : result (option time) :=
  match v with
  | VNone => Ok None
  | VStr s => t <- time_fromisoformat s ;; Ok (Some t)
  | _ => Ok None
  end.

(** [d.isoformat() if d else None] *)
Definition datetime_iso_or_none (o : option datetime) : value :=
  match o with
  | Some d => VStr (datetime_isoformat d)
  | None => VNone
  end.

(** [t.isoformat() if t else None] *)
Definition time_iso_or_none (o : option time) : value :=
  match o with
  | Some t => VStr (time_isoformat t)
  | None => VNone
  end.

End ParseDateTime.

(** [x or default] for an optional argument whose objects are all true. *)
Definition or_default {A : Type} (o : option A) (default : A) : A :=
  match o with
  | Some a => a
  | None => default
  end.

(** [l or []] for an optional list argument. *)
Definition or_empty {A : Type} (o : option (list A)) : list A :=
  match o with
  | Some (x :: l) => x :: l
  | Some [] => []
  | None => []
  end.

(* ================================================================== *)
(** ** Nested value types *)

Module VideoDestination.

(** Location where a car's video is being sent or can be accessed. *)
Record t : Type := mk {
  type : VideoDestinationType.t;  (* Key 0 *)
  url : value;                    (* Key 1 *)
  host_name : value;              (* Key 2 *)
  port : value;                   (* Key 3 *)
  parameters : value              (* Key 4 *)
}.

Definition init (destination_type : VideoDestinationType.t)
    (url host_name port parameters : value) : t :=
  mk destination_type url host_name port parameters.

(** [VideoDestination()] *)
Definition new : t :=
  init VideoDestinationType.NONE (VStr "") (VStr "") (VInt 0) (VStr "").

Definition to_msgpack (self : t) : value :=
  VList [VInt (VideoDestinationType.int (type self)); url self;
         host_name self; port self; parameters self].

Definition from_msgpack (data : value) : result t :=
  destination_type <-
    item_with data 0 VideoDestinationType.call VideoDestinationType.NONE ;;
  url <- item data 1 (VStr "") ;;
  host_name <- item data 2 (VStr "") ;;
  port <- item data 3 (VInt 0) ;;
  parameters <- item data 4 (VStr "") ;;
  Ok (init destination_type url host_name port parameters).

End VideoDestination.

Module VideoStatus.

(** Status of a car's video system. *)
Record t : Type := mk {
  video_system_type : VideoSystemType.t;  (* Key 0 *)
  video_destination : VideoDestination.t  (* Key 1 *)
}.

Definition init (video_system_type : VideoSystemType.t)
    (video_destination : option VideoDestination.t) : t :=
  mk video_system_type (or_default video_destination VideoDestination.new).

(** [VideoStatus()] *)
Definition new : t := init VideoSystemType.NONE None.

Definition to_msgpack (self : t) : value :=
  VList [VInt (VideoSystemType.int (video_system_type self));
         VideoDestination.to_msgpack (video_destination self)].

Definition from_msgpack (data : value) : result t :=
  video_system_type <-
    item_with data 0 VideoSystemType.call VideoSystemType.NONE ;;
  video_destination <-
    item_if_truthy data 1 VideoDestination.from_msgpack VideoDestination.new ;;
  Ok (init video_system_type (Some video_destination)).

End VideoStatus.

Module CompletedSection.

(** A completed section in the timing system for a given competitor. *)
Record t : Type := mk {
  number : value;                (* Key 0 *)
  section_id : value;            (* Key 1 *)
  elapsed_time_ms : value;       (* Key 2 *)
  last_section_time_ms : value;  (* Key 3 *)
  last_lap : value               (* Key 4 *)
}.

Definition init (number section_id elapsed_time_ms last_section_time_ms
    last_lap : value) : t :=
  mk number section_id elapsed_time_ms last_section_time_ms last_lap.

(** [CompletedSection()] *)
Definition new : t := init (VStr "") (VStr "") (VInt 0) (VInt 0) (VInt 0).

Definition to_msgpack (self : t) : value :=
  VList [number self; section_id self; elapsed_time_ms self;
         last_section_time_ms self; last_lap self].

Definition from_msgpack (data : value) : result t :=
  number <- item data 0 (VStr "") ;;
  section_id <- item data 1 (VStr "") ;;
  elapsed_time_ms <- item data 2 (VInt 0) ;;
  last_section_time_ms <- item data 3 (VInt 0) ;;
  last_lap <- item data 4 (VInt 0) ;;
  Ok (init number section_id elapsed_time_ms last_section_time_ms last_lap).

End CompletedSection.

Module EventEntry.

(** Competitor entry information for an event. *)
Record t : Type := mk {
  number : value;     (* Key 0 *)
  name : value;       (* Key 1 *)
  team : value;       (* Key 2 *)
  class_name : value  (* Key 3 *)
}.

Definition init (number name team class_name : value) : t :=
  mk number name team class_name.

(** [EventEntry()] *)
Definition new : t := init (VStr "") (VStr "") (VStr "") (VStr "").

Definition to_msgpack (self : t) : value :=
  VList [number self; name self; team self; class_name self].

Definition from_msgpack (data : value) : result t :=
  number <- item data 0 (VStr "") ;;
  name <- item data 1 (VStr "") ;;
  team <- item data 2 (VStr "") ;;
  class_name <- item data 3 (VStr "") ;;
  Ok (init number name team class_name).

End EventEntry.

Module FlagDuration.
Section WithLib.
Context {L : DateTimeLib}.

(** Instance of a flag state during a session. *)
Record t : Type := mk {
  flag : Flags.t;                 (* Key 0 *)
  start_time : option datetime;   (* Key 1 *)
  end_time : option datetime      (* Key 2 *)
}.

Definition init (flag : Flags.t) (start_time end_time : option datetime) : t :=
  mk flag start_time end_time.

(** [FlagDuration()] *)
Definition new : t := init Flags.UNKNOWN None None.

Definition to_msgpack (self : t) : value :=
  VList [VInt (Flags.int (flag self));
         datetime_iso_or_none (start_time self);
         datetime_iso_or_none (end_time self)].

Definition from_msgpack (data : value) : result t :=
  flag <- item_with data 0 Flags.call Flags.UNKNOWN ;;
  start_time <- item_with data 1 _parse_datetime None ;;
  end_time <- item_with data 2 _parse_datetime None ;;
  Ok (init flag start_time end_time).

End WithLib.
End FlagDuration.

Module Section_.

(** Track segment or section information. *)
Record t : Type := mk {
  name : value;           (* Key 0 *)
  length_inches : value;  (* Key 1 *)
  start_label : value;    (* Key 2 *)
  end_label : value       (* Key 3 *)
}.

Definition init (name length_inches start_label end_label : value) : t :=
  mk name length_inches start_label end_label.

(** [Section()] *)
Definition new : t := init (VStr "") (VInt 0) (VStr "") (VStr "").

Definition to_msgpack (self : t) : value :=
  VList [name self; length_inches self; start_label self; end_label self].

Definition from_msgpack (data : value) : result t :=
  name <- item data 0 (VStr "") ;;
  length_inches <- item data 1 (VInt 0) ;;
  start_label <- item data 2 (VStr "") ;;
  end_label <- item data 3 (VStr "") ;;
  Ok (init name length_inches start_label end_label).

End Section_.

Module Announcement.
Section WithLib.
Context {L : DateTimeLib}.

(** Message to convey to team, drivers, spectators, etc. *)
Record t : Type := mk {
  timestamp : option datetime;  (* Key 0 *)
  priority : value;             (* Key 1 *)
  text : value                  (* Key 2 *)
}.

Definition init (timestamp : option datetime) (priority text : value) : t :=
  mk timestamp priority text.

(** [Announcement()] *)
Definition new : t := init None (VStr "") (VStr "").

Definition to_msgpack (self : t) : value :=
  VList [datetime_iso_or_none (timestamp self); priority self; text self].

Definition from_msgpack (data : value) : result t :=
  timestamp <- item_with data 0 _parse_datetime None ;;
  priority <- item data 1 (VStr "") ;;
  text <- item data 2 (VStr "") ;;
  Ok (init timestamp priority text).

End WithLib.
End Announcement.

(* ================================================================== *)
(** ** CarPosition *)

Module CarPosition.
Section WithLib.
Context {L : DateTimeLib}.

(** Used to indicate position information is not available. *)
Definition INVALID_POSITION : Z := (-999)%Z.

(** Status data for a car. *)
Record t : Type := mk {
  event_id : value;  (* Key 0 *)
  session_id : value;  (* Key 1 *)
  number : value;  (* Key 2 *)
  transponder_id : value;  (* Key 3 *)
  car_class : value;  (* Key 4 *)
  best_time : value;  (* Key 5 *)
  best_lap : value;  (* Key 6 *)
  is_best_time : value;  (* Key 7 *)
  is_best_time_class : value;  (* Key 8 *)
  in_class_gap : value;  (* Key 9 *)
  in_class_difference : value;  (* Key 10 *)
  overall_gap : value;  (* Key 11 *)
  overall_difference : value;  (* Key 12 *)
  total_time : value;  (* Key 13 *)
  last_lap_time : value;  (* Key 14 *)
  last_lap_completed : value;  (* Key 15 *)
  pit_stop_count : value;  (* Key 16 *)
  last_lap_pitted : value;  (* Key 17 *)
  laps_led_overall : value;  (* Key 18 *)
  laps_led_in_class : value;  (* Key 19 *)
  overall_position : value;  (* Key 20 *)
  class_position : value;  (* Key 21 *)
  overall_starting_position : value;  (* Key 22 *)
  overall_positions_gained : value;  (* Key 23 *)
  in_class_starting_position : value;  (* Key 24 *)
  in_class_positions_gained : value;  (* Key 25 *)
  is_overall_most_positions_gained : value;  (* Key 26 *)
  is_class_most_positions_gained : value;  (* Key 27 *)
  penalty_laps : value;  (* Key 28 *)
  penalty_warnings : value;  (* Key 29 *)
  black_flags : value;  (* Key 30 *)
  is_entered_pit : value;  (* Key 31 *)
  is_pit_start_finish : value;  (* Key 32 *)
  is_exited_pit : value;  (* Key 33 *)
  is_in_pit : value;  (* Key 34 *)
  lap_included_pit : value;  (* Key 35 *)
  last_loop_name : value;  (* Key 36 *)
  is_stale : value;  (* Key 37 *)
  track_flag : Flags.t;  (* Key 38 *)
  local_flag : Flags.t;  (* Key 39 *)
  lap_had_local_flag : value;  (* Key 40 *)
  completed_sections : list CompletedSection.t;  (* Key 41 *)
  projected_lap_time_ms : value;  (* Key 42 *)
  lap_start_time : option time;  (* Key 43 *)
  driver_name : value;  (* Key 44 *)
  driver_id : value;  (* Key 45 *)
  in_car_video : option VideoStatus.t;  (* Key 46 *)
  latitude : value;  (* Key 47 *)
  longitude : value;  (* Key 48 *)
  current_status : value;  (* Key 49 *)
  impact_warning : value  (* Key 50 *)
}.

Definition init
    (event_id : value)
    (session_id : value)
    (number : value)
    (transponder_id : value)
    (car_class : value)
    (best_time : value)
    (best_lap : value)
    (is_best_time : value)
    (is_best_time_class : value)
    (in_class_gap : value)
    (in_class_difference : value)
    (overall_gap : value)
    (overall_difference : value)
    (total_time : value)
    (last_lap_time : value)
    (last_lap_completed : value)
    (pit_stop_count : value)
    (last_lap_pitted : value)
    (laps_led_overall : value)
    (laps_led_in_class : value)
    (overall_position : value)
    (class_position : value)
    (overall_starting_position : value)
    (overall_positions_gained : value)
    (in_class_starting_position : value)
    (in_class_positions_gained : value)
    (is_overall_most_positions_gained : value)
    (is_class_most_positions_gained : value)
    (penalty_laps : value)
    (penalty_warnings : value)
    (black_flags : value)
    (is_entered_pit : value)
    (is_pit_start_finish : value)
    (is_exited_pit : value)
    (is_in_pit : value)
    (lap_included_pit : value)
    (last_loop_name : value)
    (is_stale : value)
    (track_flag : Flags.t)
    (local_flag : Flags.t)
    (lap_had_local_flag : value)
    (completed_sections : option (list CompletedSection.t))
    (projected_lap_time_ms : value)
    (lap_start_time : option time)
    (driver_name : value)
    (driver_id : value)
    (in_car_video : option VideoStatus.t)
    (latitude : value)
    (longitude : value)
    (current_status : value)
    (impact_warning : value) : t :=
  mk event_id session_id number transponder_id car_class best_time
     best_lap is_best_time is_best_time_class in_class_gap
     in_class_difference overall_gap overall_difference total_time
     last_lap_time last_lap_completed pit_stop_count last_lap_pitted
     laps_led_overall laps_led_in_class overall_position class_position
     overall_starting_position overall_positions_gained
     in_class_starting_position in_class_positions_gained
     is_overall_most_positions_gained is_class_most_positions_gained
     penalty_laps penalty_warnings black_flags is_entered_pit
     is_pit_start_finish is_exited_pit is_in_pit lap_included_pit
     last_loop_name is_stale track_flag local_flag lap_had_local_flag
     (or_empty completed_sections) projected_lap_time_ms lap_start_time
     driver_name driver_id in_car_video latitude longitude current_status
     impact_warning.

Definition from_msgpack (data : value) : result t :=
  event_id <- item data 0 VNone ;;
  session_id <- item data 1 VNone ;;
  number <- item data 2 VNone ;;
  transponder_id <- item data 3 (VInt 0) ;;
  car_class <- item data 4 VNone ;;
  best_time <- item data 5 VNone ;;
  best_lap <- item data 6 (VInt 0) ;;
  is_best_time <- item data 7 (VBool false) ;;
  is_best_time_class <- item data 8 (VBool false) ;;
  in_class_gap <- item data 9 VNone ;;
  in_class_difference <- item data 10 VNone ;;
  overall_gap <- item data 11 VNone ;;
  overall_difference <- item data 12 VNone ;;
  total_time <- item data 13 VNone ;;
  last_lap_time <- item data 14 VNone ;;
  last_lap_completed <- item data 15 (VInt 0) ;;
  pit_stop_count <- item data 16 VNone ;;
  last_lap_pitted <- item data 17 VNone ;;
  laps_led_overall <- item data 18 VNone ;;
  laps_led_in_class <- item data 19 VNone ;;
  overall_position <- item data 20 (VInt 0) ;;
  class_position <- item data 21 (VInt 0) ;;
  overall_starting_position <- item data 22 (VInt 0) ;;
  overall_positions_gained <- item data 23 (VInt INVALID_POSITION) ;;
  in_class_starting_position <- item data 24 (VInt 0) ;;
  in_class_positions_gained <- item data 25 (VInt INVALID_POSITION) ;;
  is_overall_most_positions_gained <- item data 26 (VBool false) ;;
  is_class_most_positions_gained <- item data 27 (VBool false) ;;
  penalty_laps <- item data 28 (VInt 0) ;;
  penalty_warnings <- item data 29 (VInt 0) ;;
  black_flags <- item data 30 (VInt 0) ;;
  is_entered_pit <- item data 31 (VBool false) ;;
  is_pit_start_finish <- item data 32 (VBool false) ;;
  is_exited_pit <- item data 33 (VBool false) ;;
  is_in_pit <- item data 34 (VBool false) ;;
  lap_included_pit <- item data 35 (VBool false) ;;
  last_loop_name <- item data 36 (VStr "") ;;
  is_stale <- item data 37 (VBool false) ;;
  track_flag <- item_with data 38 Flags.call Flags.UNKNOWN ;;
  local_flag <- item_with data 39 Flags.call Flags.UNKNOWN ;;
  lap_had_local_flag <- item data 40 VNone ;;
  completed_sections <-
    item_if_truthy data 41
      (fun v => cs <- py_iter v ;; mapM CompletedSection.from_msgpack cs) [] ;;
  projected_lap_time_ms <- item data 42 (VInt 0) ;;
  lap_start_time <- item_with data 43 _parse_time None ;;
  driver_name <- item data 44 (VStr "") ;;
  driver_id <- item data 45 (VStr "") ;;
  in_car_video <-
    item_if_truthy data 46
      (fun v => vs <- VideoStatus.from_msgpack v ;; Ok (Some vs)) None ;;
  latitude <- item data 47 VNone ;;
  longitude <- item data 48 VNone ;;
  current_status <- item data 49 (VStr "") ;;
  impact_warning <- item data 50 (VBool false) ;;
  Ok (init event_id session_id number transponder_id car_class best_time
       best_lap is_best_time is_best_time_class in_class_gap
       in_class_difference overall_gap overall_difference total_time
       last_lap_time last_lap_completed pit_stop_count last_lap_pitted
       laps_led_overall laps_led_in_class overall_position class_position
       overall_starting_position overall_positions_gained
       in_class_starting_position in_class_positions_gained
       is_overall_most_positions_gained is_class_most_positions_gained
       penalty_laps penalty_warnings black_flags is_entered_pit
       is_pit_start_finish is_exited_pit is_in_pit lap_included_pit
       last_loop_name is_stale track_flag local_flag lap_had_local_flag
       (Some completed_sections) projected_lap_time_ms lap_start_time
       driver_name driver_id in_car_video latitude longitude
       current_status impact_warning).

(** [v.to_msgpack() if v else None] *)
Definition video_or_none (o : option VideoStatus.t) : value :=
  match o with
  | Some v => VideoStatus.to_msgpack v
  | None => VNone
  end.

Definition to_msgpack (self : t) : value :=
  VList [
    event_id self;  (* 0 *)
    session_id self;  (* 1 *)
    number self;  (* 2 *)
    transponder_id self;  (* 3 *)
    car_class self;  (* 4 *)
    best_time self;  (* 5 *)
    best_lap self;  (* 6 *)
    is_best_time self;  (* 7 *)
    is_best_time_class self;  (* 8 *)
    in_class_gap self;  (* 9 *)
    in_class_difference self;  (* 10 *)
    overall_gap self;  (* 11 *)
    overall_difference self;  (* 12 *)
    total_time self;  (* 13 *)
    last_lap_time self;  (* 14 *)
    last_lap_completed self;  (* 15 *)
    pit_stop_count self;  (* 16 *)
    last_lap_pitted self;  (* 17 *)
    laps_led_overall self;  (* 18 *)
    laps_led_in_class self;  (* 19 *)
    overall_position self;  (* 20 *)
    class_position self;  (* 21 *)
    overall_starting_position self;  (* 22 *)
    overall_positions_gained self;  (* 23 *)
    in_class_starting_position self;  (* 24 *)
    in_class_positions_gained self;  (* 25 *)
    is_overall_most_positions_gained self;  (* 26 *)
    is_class_most_positions_gained self;  (* 27 *)
    penalty_laps self;  (* 28 *)
    penalty_warnings self;  (* 29 *)
    black_flags self;  (* 30 *)
    is_entered_pit self;  (* 31 *)
    is_pit_start_finish self;  (* 32 *)
    is_exited_pit self;  (* 33 *)
    is_in_pit self;  (* 34 *)
    lap_included_pit self;  (* 35 *)
    last_loop_name self;  (* 36 *)
    is_stale self;  (* 37 *)
    VInt (Flags.int (track_flag self));  (* 38 *)
    VInt (Flags.int (local_flag self));  (* 39 *)
    lap_had_local_flag self;  (* 40 *)
    VList (map CompletedSection.to_msgpack (completed_sections self));  (* 41 *)
    projected_lap_time_ms self;  (* 42 *)
    time_iso_or_none (lap_start_time self);  (* 43 *)
    driver_name self;  (* 44 *)
    driver_id self;  (* 45 *)
    video_or_none (in_car_video self);  (* 46 *)
    latitude self;  (* 47 *)
    longitude self;  (* 48 *)
    current_status self;  (* 49 *)
    impact_warning self  (* 50 *)
  ].

(** [CarPosition()]: every argument at its declared default. *)
Definition new : t :=
  init VNone VNone VNone (VInt 0) VNone VNone (VInt 0) (VBool false)
    (VBool false) VNone VNone VNone VNone VNone VNone (VInt 0) VNone VNone
    VNone VNone (VInt 0) (VInt 0) (VInt 0) (VInt INVALID_POSITION) (VInt 0)
    (VInt INVALID_POSITION) (VBool false) (VBool false) (VInt 0) (VInt 0)
    (VInt 0) (VBool false) (VBool false) (VBool false) (VBool false)
    (VBool false) (VStr "") (VBool false) Flags.UNKNOWN Flags.UNKNOWN VNone
    None (VInt 0) None (VStr "") (VStr "") None VNone VNone (VStr "")
    (VBool false).

End WithLib.
End CarPosition.

(* ================================================================== *)
(** ** SessionState *)

Module SessionState.
Section WithLib.
Context {L : DateTimeLib}.

(** The overall state of a race session at any given time. *)
Record t : Type := mk {
  event_id : value;                          (* Key 0 *)
  event_name : value;                        (* Key 1 *)
  session_id : value;                        (* Key 2 *)
  session_name : value;                      (* Key 3 *)
  laps_to_go : value;                        (* Key 4 *)
  time_to_go : value;                        (* Key 5 *)
  local_time_of_day : value;                 (* Key 6 *)
  running_race_time : value;                 (* Key 7 *)
  is_practice_qualifying : value;            (* Key 8 *)
  session_start_time : option datetime;      (* Key 9 *)
  session_end_time : option datetime;        (* Key 10 *)
  local_time_zone_offset : value;            (* Key 11 *)
  is_live : value;                           (* Key 12 *)
  event_entries : list EventEntry.t;         (* Key 13 *)
  car_positions : list CarPosition.t;        (* Key 14 *)
  current_flag : Flags.t;                    (* Key 15 *)
  flag_durations : list FlagDuration.t;      (* Key 16 *)
  green_time_ms : value;                     (* Key 17 *)
  green_laps : value;                        (* Key 18 *)
  yellow_time_ms : value;                    (* Key 19 *)
  yellow_laps : value;                       (* Key 20 *)
  number_of_yellows : value;                 (* Key 21 *)
  red_time_ms : value;                       (* Key 22 *)
  average_race_speed : value;                (* Key 23 *)
  lead_changes : value;                      (* Key 24 *)
  sections : list Section_.t;                (* Key 25 *)
  class_colors : value;                      (* Key 26 *)
  announcements : list Announcement.t;       (* Key 27 *)
  last_updated : option datetime             (* Key 28 *)
}.

(** [class_colors or {}] *)
Definition or_empty_dict (v : value) : value :=
  if truthy v then v else VDict [].

Definition init
    (event_id event_name session_id session_name laps_to_go time_to_go
     local_time_of_day running_race_time is_practice_qualifying : value)
    (session_start_time session_end_time : option datetime)
    (local_time_zone_offset is_live : value)
    (event_entries : option (list EventEntry.t))
    (car_positions : option (list CarPosition.t))
    (current_flag : Flags.t)
    (flag_durations : option (list FlagDuration.t))
    (green_time_ms green_laps yellow_time_ms yellow_laps number_of_yellows
     red_time_ms average_race_speed lead_changes : value)
    (sections : option (list Section_.t))
    (class_colors : value)
    (announcements : option (list Announcement.t))
    (last_updated : option datetime) : t :=
  mk event_id event_name session_id session_name laps_to_go time_to_go
     local_time_of_day running_race_time is_practice_qualifying
     session_start_time session_end_time local_time_zone_offset is_live
     (or_empty event_entries) (or_empty car_positions) current_flag
     (or_empty flag_durations) green_time_ms green_laps yellow_time_ms
     yellow_laps number_of_yellows red_time_ms average_race_speed
     lead_changes (or_empty sections) (or_empty_dict class_colors)
     (or_empty announcements) last_updated.

(** The float [0.0]. *)
Definition float_zero : value := VFloat (S754_zero false).

(** [SessionState()]: every argument at its declared default. *)
Definition new : t :=
  init (VInt 0) (VStr "") (VInt 0) (VStr "") (VInt 0) (VStr "") (VStr "")
    (VStr "") (VBool false) None None float_zero (VBool false) None None
    Flags.UNKNOWN None VNone VNone VNone VNone VNone VNone VNone VNone None
    VNone None None.

(** Convert to MessagePack dictionary format with integer keys. *)
Definition to_msgpack_dict (self : t) : dict :=
  [ (KInt 0, event_id self);
    (KInt 1, event_name self);
    (KInt 2, session_id self);
    (KInt 3, session_name self);
    (KInt 4, laps_to_go self);
    (KInt 5, time_to_go self);
    (KInt 6, local_time_of_day self);
    (KInt 7, running_race_time self);
    (KInt 8, is_practice_qualifying self);
    (KInt 9, datetime_iso_or_none (session_start_time self));
    (KInt 10, datetime_iso_or_none (session_end_time self));
    (KInt 11, local_time_zone_offset self);
    (KInt 12, is_live self);
    (KInt 13, VList (map EventEntry.to_msgpack (event_entries self)));
    (KInt 14, VList (map CarPosition.to_msgpack (car_positions self)));
    (KInt 15, VInt (Flags.int (current_flag self)));
    (KInt 16, VList (map FlagDuration.to_msgpack (flag_durations self)));
    (KInt 17, green_time_ms self);
    (KInt 18, green_laps self);
    (KInt 19, yellow_time_ms self);
    (KInt 20, yellow_laps self);
    (KInt 21, number_of_yellows self);
    (KInt 22, red_time_ms self);
    (KInt 23, average_race_speed self);
    (KInt 24, lead_changes self);
    (KInt 25, VList (map Section_.to_msgpack (sections self)));
    (KInt 26, class_colors self);
    (KInt 27, VList (map Announcement.to_msgpack (announcements self)));
    (KInt 28, datetime_iso_or_none (last_updated self)) ]%Z.

(** [[decode(x) for x in v]] *)
Definition decode_each {A : Type} (decode : value -> result A) (v : value)
    : result (list A) :=
  xs <- py_iter v ;; mapM decode xs.

(** Create SessionState from MessagePack dictionary with integer keys. *)
Definition from_msgpack_dict (data : dict) : result t :=
  let event_id := get data 0 (VInt 0) in
  let event_name := get data 1 (VStr "") in
  let session_id := get data 2 (VInt 0) in
  let session_name := get data 3 (VStr "") in
  let laps_to_go := get data 4 (VInt 0) in
  let time_to_go := get data 5 (VStr "") in
  let local_time_of_day := get data 6 (VStr "") in
  let running_race_time := get data 7 (VStr "") in
  let is_practice_qualifying := get data 8 (VBool false) in
  session_start_time <- _parse_datetime (get data 9 VNone) ;;
  session_end_time <- _parse_datetime (get data 10 VNone) ;;
  let local_time_zone_offset := get data 11 float_zero in
  let is_live := get data 12 (VBool false) in
  event_entries <-
    decode_each EventEntry.from_msgpack (get data 13 (VList [])) ;;
  car_positions <-
    decode_each CarPosition.from_msgpack (get data 14 (VList [])) ;;
  current_flag <- Flags.call (get data 15 (VInt 0)) ;;
  flag_durations <-
    decode_each FlagDuration.from_msgpack (get data 16 (VList [])) ;;
  let green_time_ms := get data 17 VNone in
  let green_laps := get data 18 VNone in
  let yellow_time_ms := get data 19 VNone in
  let yellow_laps := get data 20 VNone in
  let number_of_yellows := get data 21 VNone in
  let red_time_ms := get data 22 VNone in
  let average_race_speed := get data 23 VNone in
  let lead_changes := get data 24 VNone in
  sections <- decode_each Section_.from_msgpack (get data 25 (VList [])) ;;
  let class_colors := get data 26 (VDict []) in
  announcements <-
    decode_each Announcement.from_msgpack (get data 27 (VList [])) ;;
  last_updated <- _parse_datetime (get data 28 VNone) ;;
  Ok (init event_id event_name session_id session_name laps_to_go
        time_to_go local_time_of_day running_race_time
        is_practice_qualifying session_start_time session_end_time
        local_time_zone_offset is_live (Some event_entries)
        (Some car_positions) current_flag (Some flag_durations)
        green_time_ms green_laps yellow_time_ms yellow_laps
        number_of_yellows red_time_ms average_race_speed lead_changes
        (Some sections) class_colors (Some announcements) last_updated).

End WithLib.
End SessionState.

(* ================================================================== *)
(** ** The decode boundary of the callers *)

Module Main.
Section WithLib.
Context {L : DateTimeLib}.

(** The deserialization step of [get_current_session_state] in main.py:
    a dict is decoded as it is, a list is first converted to a dict with
    integer keys, anything else is an unexpected format. *)
Definition decode_session_state (raw_data : value)
    : result SessionState.t :=
  match raw_data with
  | VDict d => SessionState.from_msgpack_dict d
  | VList l =>
      let data_dict := enumerate_dict l in
      SessionState.from_msgpack_dict data_dict
  | _ => Raise ValueError
  end.

End WithLib.
End Main.

(* ================================================================== *)
(** ** Entity schema

    The array-form entity types with, for each, its number of fields, its
    decoder and encoder, the entity its constructor builds from the
    declared defaults, and its fields in wire-index order (the
    [# Key i] of each attribute in session_state.py). *)

Module Schema.
Section WithLib.
Context {L : DateTimeLib}.

(** The content of one field of an entity. *)
Inductive field : Type :=
| FValue (v : value)
| FDestinationType (x : VideoDestinationType.t)
| FSystemType (x : VideoSystemType.t)
| FFlag (f : Flags.t)
| FDestination (d : VideoDestination.t)
| FVideo (o : option VideoStatus.t)
| FSections (l : list CompletedSection.t)
| FTime (o : option time)
| FDateTime (o : option datetime).

Inductive entity : Type :=
| TVideoDestination
| TVideoStatus
| TCompletedSection
| TEventEntry
| TCarPosition
| TFlagDuration
| TSection
| TAnnouncement.

Definition carrier (ty : entity) : Type :=
  match ty with
  | TVideoDestination => VideoDestination.t
  | TVideoStatus => VideoStatus.t
  | TCompletedSection => CompletedSection.t
  | TEventEntry => EventEntry.t
  | TCarPosition => CarPosition.t
  | TFlagDuration => FlagDuration.t
  | TSection => Section_.t
  | TAnnouncement => Announcement.t
  end.

Definition field_count (ty : entity) : nat :=
  match ty with
  | TVideoDestination => 5
  | TVideoStatus => 2
  | TCompletedSection => 5
  | TEventEntry => 4
  | TCarPosition => 51
  | TFlagDuration => 3
  | TSection => 4
  | TAnnouncement => 3
  end.

Definition from_msgpack (ty : entity) : value -> result (carrier ty) :=
  match ty with
  | TVideoDestination => VideoDestination.from_msgpack
  | TVideoStatus => VideoStatus.from_msgpack
  | TCompletedSection => CompletedSection.from_msgpack
  | TEventEntry => EventEntry.from_msgpack
  | TCarPosition => CarPosition.from_msgpack
  | TFlagDuration => FlagDuration.from_msgpack
  | TSection => Section_.from_msgpack
  | TAnnouncement => Announcement.from_msgpack
  end.

Definition to_msgpack (ty : entity) : carrier ty -> value :=
  match ty with
  | TVideoDestination => VideoDestination.to_msgpack
  | TVideoStatus => VideoStatus.to_msgpack
  | TCompletedSection => CompletedSection.to_msgpack
  | TEventEntry => EventEntry.to_msgpack
  | TCarPosition => CarPosition.to_msgpack
  | TFlagDuration => FlagDuration.to_msgpack
  | TSection => Section_.to_msgpack
  | TAnnouncement => Announcement.to_msgpack
  end.

(** The entity built by the constructor called without arguments. *)
Definition new (ty : entity) : carrier ty :=
  match ty with
  | TVideoDestination => VideoDestination.new
  | TVideoStatus => VideoStatus.new
  | TCompletedSection => CompletedSection.new
  | TEventEntry => EventEntry.new
  | TCarPosition => CarPosition.new
  | TFlagDuration => FlagDuration.new
  | TSection => Section_.new
  | TAnnouncement => Announcement.new
  end.

Definition VideoDestination_fields (x : VideoDestination.t) : list field :=
  [ FDestinationType (VideoDestination.type x);
    FValue (VideoDestination.url x);
    FValue (VideoDestination.host_name x);
    FValue (VideoDestination.port x);
    FValue (VideoDestination.parameters x) ].

Definition VideoStatus_fields (x : VideoStatus.t) : list field :=
  [ FSystemType (VideoStatus.video_system_type x);
    FDestination (VideoStatus.video_destination x) ].

Definition CompletedSection_fields (x : CompletedSection.t) : list field :=
  [ FValue (CompletedSection.number x);
    FValue (CompletedSection.section_id x);
    FValue (CompletedSection.elapsed_time_ms x);
    FValue (CompletedSection.last_section_time_ms x);
    FValue (CompletedSection.last_lap x) ].

Definition EventEntry_fields (x : EventEntry.t) : list field :=
  [ FValue (EventEntry.number x);
    FValue (EventEntry.name x);
    FValue (EventEntry.team x);
    FValue (EventEntry.class_name x) ].

Definition CarPosition_fields (x : CarPosition.t) : list field :=
  [
    FValue (CarPosition.event_id x);  (* 0 *)
    FValue (CarPosition.session_id x);  (* 1 *)
    FValue (CarPosition.number x);  (* 2 *)
    FValue (CarPosition.transponder_id x);  (* 3 *)
    FValue (CarPosition.car_class x);  (* 4 *)
    FValue (CarPosition.best_time x);  (* 5 *)
    FValue (CarPosition.best_lap x);  (* 6 *)
    FValue (CarPosition.is_best_time x);  (* 7 *)
    FValue (CarPosition.is_best_time_class x);  (* 8 *)
    FValue (CarPosition.in_class_gap x);  (* 9 *)
    FValue (CarPosition.in_class_difference x);  (* 10 *)
    FValue (CarPosition.overall_gap x);  (* 11 *)
    FValue (CarPosition.overall_difference x);  (* 12 *)
    FValue (CarPosition.total_time x);  (* 13 *)
    FValue (CarPosition.last_lap_time x);  (* 14 *)
    FValue (CarPosition.last_lap_completed x);  (* 15 *)
    FValue (CarPosition.pit_stop_count x);  (* 16 *)
    FValue (CarPosition.last_lap_pitted x);  (* 17 *)
    FValue (CarPosition.laps_led_overall x);  (* 18 *)
    FValue (CarPosition.laps_led_in_class x);  (* 19 *)
    FValue (CarPosition.overall_position x);  (* 20 *)
    FValue (CarPosition.class_position x);  (* 21 *)
    FValue (CarPosition.overall_starting_position x);  (* 22 *)
    FValue (CarPosition.overall_positions_gained x);  (* 23 *)
    FValue (CarPosition.in_class_starting_position x);  (* 24 *)
    FValue (CarPosition.in_class_positions_gained x);  (* 25 *)
    FValue (CarPosition.is_overall_most_positions_gained x);  (* 26 *)
    FValue (CarPosition.is_class_most_positions_gained x);  (* 27 *)
    FValue (CarPosition.penalty_laps x);  (* 28 *)
    FValue (CarPosition.penalty_warnings x);  (* 29 *)
    FValue (CarPosition.black_flags x);  (* 30 *)
    FValue (CarPosition.is_entered_pit x);  (* 31 *)
    FValue (CarPosition.is_pit_start_finish x);  (* 32 *)
    FValue (CarPosition.is_exited_pit x);  (* 33 *)
    FValue (CarPosition.is_in_pit x);  (* 34 *)
    FValue (CarPosition.lap_included_pit x);  (* 35 *)
    FValue (CarPosition.last_loop_name x);  (* 36 *)
    FValue (CarPosition.is_stale x);  (* 37 *)
    FFlag (CarPosition.track_flag x);  (* 38 *)
    FFlag (CarPosition.local_flag x);  (* 39 *)
    FValue (CarPosition.lap_had_local_flag x);  (* 40 *)
    FSections (CarPosition.completed_sections x);  (* 41 *)
    FValue (CarPosition.projected_lap_time_ms x);  (* 42 *)
    FTime (CarPosition.lap_start_time x);  (* 43 *)
    FValue (CarPosition.driver_name x);  (* 44 *)
    FValue (CarPosition.driver_id x);  (* 45 *)
    FVideo (CarPosition.in_car_video x);  (* 46 *)
    FValue (CarPosition.latitude x);  (* 47 *)
    FValue (CarPosition.longitude x);  (* 48 *)
    FValue (CarPosition.current_status x);  (* 49 *)
    FValue (CarPosition.impact_warning x)  (* 50 *)
  ].

Definition FlagDuration_fields (x : FlagDuration.t) : list field :=
  [ FFlag (FlagDuration.flag x);
    FDateTime (FlagDuration.start_time x);
    FDateTime (FlagDuration.end_time x) ].

Definition Section_fields (x : Section_.t) : list field :=
  [ FValue (Section_.name x);
    FValue (Section_.length_inches x);
    FValue (Section_.start_label x);
    FValue (Section_.end_label x) ].

Definition Announcement_fields (x : Announcement.t) : list field :=
  [ FDateTime (Announcement.timestamp x);
    FValue (Announcement.priority x);
    FValue (Announcement.text x) ].

Definition fields (ty : entity) : carrier ty -> list field :=
  match ty with
  | TVideoDestination => VideoDestination_fields
  | TVideoStatus => VideoStatus_fields
  | TCompletedSection => CompletedSection_fields
  | TEventEntry => EventEntry_fields
  | TCarPosition => CarPosition_fields
  | TFlagDuration => FlagDuration_fields
  | TSection => Section_fields
  | TAnnouncement => Announcement_fields
  end.

(** *** Well-typed supplied positions

    The positions a decoder converts must hold what the schema
    declares: an in-range integer for an enum, an ISO text or null for
    a date or time, an array (or null) for a nested record, an array of
    arrays (or null) for a sequence of records.  The positions a
    decoder stores as they are need nothing. *)

Definition supplied (check : value -> bool) (data : list value) (i : nat)
    : bool :=
  match nth_error data i with
  | Some v => check v
  | None => true
  end.

Definition is_enum {E : Type} (of_Z : Z -> option E) (v : value) : bool :=
  match v with
  | VInt z => match of_Z z with Some _ => true | None => false end
  | _ => false
  end.

Definition is_datetime (v : value) : bool :=
  match v with
  | VNone => true
  | VStr s =>
      match datetime_fromisoformat s with Ok _ => true | Raise _ => false end
  | _ => false
  end.

Definition is_time (v : value) : bool :=
  match v with
  | VNone => true
  | VStr s =>
      match time_fromisoformat s with Ok _ => true | Raise _ => false end
  | _ => false
  end.

Definition is_list (v : value) : bool :=
  match v with
  | VList _ => true
  | _ => false
  end.

Definition well_typed_VideoDestination (data : list value) : bool :=
  supplied (is_enum VideoDestinationType.of_Z) data 0.

Definition is_VideoDestination (v : value) : bool :=
  match v with
  | VNone => true
  | VList d => well_typed_VideoDestination d
  | _ => false
  end.

Definition well_typed_VideoStatus (data : list value) : bool :=
  supplied (is_enum VideoSystemType.of_Z) data 0
  && supplied is_VideoDestination data 1.

Definition is_VideoStatus (v : value) : bool :=
  match v with
  | VNone => true
  | VList s => well_typed_VideoStatus s
  | _ => false
  end.

Definition is_CompletedSections (v : value) : bool :=
  match v with
  | VNone => true
  | VList cs => forallb is_list cs
  | _ => false
  end.

Definition well_typed_CarPosition (data : list value) : bool :=
  supplied (is_enum Flags.of_Z) data 38
  && supplied (is_enum Flags.of_Z) data 39
  && supplied is_CompletedSections data 41
  && supplied is_time data 43
  && supplied is_VideoStatus data 46.

Definition well_typed_FlagDuration (data : list value) : bool :=
  supplied (is_enum Flags.of_Z) data 0
  && supplied is_datetime data 1
  && supplied is_datetime data 2.

Definition well_typed_Announcement (data : list value) : bool :=
  supplied is_datetime data 0.

Definition well_typed (ty : entity) (data : list value) : bool :=
  match ty with
  | TVideoDestination => well_typed_VideoDestination data
  | TVideoStatus => well_typed_VideoStatus data
  | TCompletedSection => true
  | TEventEntry => true
  | TCarPosition => well_typed_CarPosition data
  | TFlagDuration => well_typed_FlagDuration data
  | TSection => true
  | TAnnouncement => well_typed_Announcement data
  end.

(** The [CarPosition] the decoder builds from the array [l]: the
    positions that are stored as they are, read from [l] or taken from
    their defaults, and the five converted positions as given. *)
Definition CarPosition_of_array (l : list value)
    (track_flag local_flag : Flags.t)
    (completed_sections : list CompletedSection.t)
    (lap_start_time : option time)
    (in_car_video : option VideoStatus.t) : CarPosition.t :=
  CarPosition.init (nth 0 l VNone) (nth 1 l VNone) (nth 2 l VNone)
    (nth 3 l (VInt 0)) (nth 4 l VNone) (nth 5 l VNone) (nth 6 l (VInt 0))
    (nth 7 l (VBool false)) (nth 8 l (VBool false)) (nth 9 l VNone)
    (nth 10 l VNone) (nth 11 l VNone) (nth 12 l VNone) (nth 13 l VNone)
    (nth 14 l VNone) (nth 15 l (VInt 0)) (nth 16 l VNone) (nth 17 l VNone)
    (nth 18 l VNone) (nth 19 l VNone) (nth 20 l (VInt 0))
    (nth 21 l (VInt 0)) (nth 22 l (VInt 0))
    (nth 23 l (VInt CarPosition.INVALID_POSITION)) (nth 24 l (VInt 0))
    (nth 25 l (VInt CarPosition.INVALID_POSITION))
    (nth 26 l (VBool false)) (nth 27 l (VBool false)) (nth 28 l (VInt 0))
    (nth 29 l (VInt 0)) (nth 30 l (VInt 0)) (nth 31 l (VBool false))
    (nth 32 l (VBool false)) (nth 33 l (VBool false))
    (nth 34 l (VBool false)) (nth 35 l (VBool false)) (nth 36 l (VStr ""))
    (nth 37 l (VBool false)) track_flag local_flag (nth 40 l VNone)
    (Some completed_sections) (nth 42 l (VInt 0)) lap_start_time
    (nth 44 l (VStr "")) (nth 45 l (VStr "")) in_car_video
    (nth 47 l VNone) (nth 48 l VNone) (nth 49 l (VStr ""))
    (nth 50 l (VBool false)).

Definition is_dict (v : value) : bool :=
  match v with
  | VDict _ => true
  | _ => false
  end.

(** Decoding the array [data] as a [ty] succeeds, and every field whose
    index is not supplied by [data] has the value it has in the entity
    built from the declared defaults. *)
Definition default_filled (ty : entity) (data : list value) : Prop :=
  exists e : carrier ty,
    from_msgpack ty (VList data) = Ok e /\
    List.length (fields ty e) = field_count ty /\
    forall i : nat,
      List.length data <= i ->
      nth_error (fields ty e) i = nth_error (fields ty (new ty)) i.

(** The positions a decoder stores as they are, without conversion. *)
Definition stored_as_is (ty : entity) (i : nat) : bool :=
  match ty with
  | TVideoDestination => (1 <=? i) && (i <? 5)
  | TVideoStatus => false
  | TCompletedSection => i <? 5
  | TEventEntry => i <? 4
  | TCarPosition =>
      (i <? 51) && negb (existsb (Nat.eqb i) [38; 39; 41; 43; 46])
  | TFlagDuration => false
  | TSection => i <? 4
  | TAnnouncement => (1 <=? i) && (i <? 3)
  end.

End WithLib.
End Schema.

(* ================================================================== *)
(** ** The car-patch handler of signalr_client.py *)

Module Hub.

(** [car_dict] of [_handle_car_patches]: a list is converted to a dict
    with integer keys, a dict is taken as it is, anything else is
    reported and skipped. *)
Definition car_dict_of (car_data : value) : option dict :=
  match car_data with
  | VList l => Some (enumerate_dict l)
  | VDict d => Some d
  | _ => None
  end.

Definition is_not_none (v : value) : bool :=
  match v with
  | VNone => false
  | _ => true
  end.

(** The entries the handler shows as changes:
    [for key, value in car_dict.items(): if value is not None]. *)
Definition changes (car_dict : dict) : dict :=
  filter (fun kv => is_not_none (snd kv)) car_dict.

(** Recursively filter out None values from dictionaries and lists. *)
Fixpoint _filter_none_values (obj : value) : value :=
  match obj with
  | VDict d =>
      VDict
        ((fix items (d : list (key * value)) : list (key * value) :=
            match d with
            | [] => []
            | (k, v) :: d' =>
                if is_not_none v
                then (k, _filter_none_values v) :: items d'
                else items d'
            end) d)
  | VList l =>
      VList
        ((fix elements (l : list value) : list value :=
            match l with
            | [] => []
            | item :: l' =>
                if is_not_none item
                then _filter_none_values item :: elements l'
                else elements l'
            end) l)
  | _ => obj
  end.

(** No list item and no dict value of [v] is None, at any depth. *)
Fixpoint none_free (v : value) : bool :=
  match v with
  | VDict d =>
      forallb (fun kv => is_not_none (snd kv) && none_free (snd kv)) d
  | VList l => forallb (fun x => is_not_none x && none_free x) l
  | _ => true
  end.

(** *** Field names for display *)

(** [A-Z] *)
Definition is_upper (c : ascii) : bool :=
  (65 <=? nat_of_ascii c) && (nat_of_ascii c <=? 90).

(** The characters of the model are those of ASCII; on them [lower]
    below is [str.lower]. *)
Definition ascii_only (s : string) : bool :=
  forallb (fun c => nat_of_ascii c <? 128) (list_ascii_of_string s).

(** No character of [s] is a capital. *)
Definition no_capital (s : string) : bool :=
  forallb (fun c => negb (is_upper c)) (list_ascii_of_string s).

Definition lower_char (c : ascii) : ascii :=
  if is_upper c then ascii_of_nat (nat_of_ascii c + 32) else c.

(** [s.lower()] *)
Fixpoint lower (s : string) : string :=
  match s with
  | EmptyString => EmptyString
  | String c s' => String (lower_char c) (lower s')
  end.

(** An underscore before every capital of [s]. *)
Fixpoint underscore_capitals (s : string) : string :=
  match s with
  | EmptyString => EmptyString
  | String c s' =>
      if is_upper c
      then String "_" (String c (underscore_capitals s'))
      else String c (underscore_capitals s')
  end.

(** [re.sub(r'(?<!^)(?=[A-Z])', '_', key)]: an underscore before every
    capital that is not the first character. *)
Definition underscore_inner_capitals (key : string) : string :=
  match key with
  | EmptyString => EmptyString
  | String c s' => String c (underscore_capitals s')
  end.

(** Convert camelCase to snake_case for display. *)
Definition snake_case (key : string) : string :=
  lower (underscore_inner_capitals key).

(** [str(z)] for an integer. *)
Definition str_int (z : Z) : string := NilZero.string_of_int (Z.to_int z).

(** [field_name] of the handlers: the snake_case of a string key,
    [f'field_{key}'] for any other. *)
Definition field_name (k : key) : string :=
  match k with
  | KStr s => snake_case s
  | KInt z => ("field_" ++ str_int z)%string
  end.

(** [key in names] for a list of strings. *)
Definition key_in (k : key) (names : list string) : bool :=
  match k with
  | KStr s => existsb (String.eqb s) names
  | KInt _ => false
  end.

(** *** Counting the changes of a patch *)

(** One turn of the loop of [_handle_car_patches] over the items of
    [car_dict], as the new value of [change_count]: an entry that is
    None counts nothing, a dict counts when something is left of it
    after [_filter_none_values], anything else counts. *)
Definition car_count_step (change_count : nat) (kv : key * value) : nat :=
  let (key, value) := kv in
  if is_not_none value then
    if key_in key ["completedSections"; "inCarVideo"]%string
       && Schema.is_list value
    then change_count + 1
    else if Schema.is_dict value then
      let filtered_value := _filter_none_values value in
      if truthy filtered_value then change_count + 1 else change_count
    else change_count + 1
  else change_count.

(** [change_count] of [_handle_car_patches] after the loop; the handler
    prints "(No changes)" when it is 0. *)
Definition car_change_count (car_dict : dict) : nat :=
  fold_left car_count_step car_dict 0.

(** One turn of the loop of [_handle_session_patch]. *)
Definition session_count_step (change_count : nat) (kv : key * value)
    : nat :=
  let (key, value) := kv in
  if is_not_none value then
    if String.eqb (field_name key) "current_flag"
       || key_in key ["currentFlag"]%string
    then change_count + 1
    else if key_in key ["carPositions"; "eventEntries"; "announcements";
                        "sections"; "flagDurations"]%string
    then change_count + 1
    else if key_in key ["classColors"]%string then change_count + 1
    else if Schema.is_dict value then
      let filtered_value := _filter_none_values value in
      if truthy filtered_value then change_count + 1 else change_count
    else change_count + 1
  else change_count.

(** [change_count] of [_handle_session_patch] after the loop. *)
Definition session_change_count (data : dict) : nat :=
  fold_left session_count_step data 0.

(** *** Identifying the car of a patch *)

(** The identifier found at the top level of a patch: under the field
    name if the patch has that key, else under the wire index; None and
    dicts are not taken. *)
Definition top_level (car_dict : dict) (name : string) (index : Z)
    : value :=
  match dict_get (KStr name) car_dict with
  | Some v =>
      if is_not_none v && negb (Schema.is_dict v) then v else VNone
  | None =>
      match dict_get (KInt index) car_dict with
      | Some v =>
          if is_not_none v && negb (Schema.is_dict v) then v else VNone
      | None => VNone
      end
  end.

(** [[k for k in car_dict.keys() if isinstance(k, int)]] *)
Definition int_keys (car_dict : dict) : list Z :=
  flat_map (fun kv => match fst kv with KInt z => [z] | KStr _ => [] end)
    car_dict.

Fixpoint insert_sorted (z : Z) (l : list Z) : list Z :=
  match l with
  | [] => [z]
  | y :: l' => if (z <=? y)%Z then z :: y :: l' else y :: insert_sorted z l'
  end.

(** [sorted(keys)] *)
Definition sorted (keys : list Z) : list Z :=
  fold_right insert_sorted [] keys.

(** The loop over the nested dicts of a patch, in key order: the first
    dict with a non-None ["number"] sets [car_number], or else with a
    non-None ["driverName"] sets [driver_name], and ends the loop. *)
Fixpoint nested_search (car_dict : dict) (keys : list Z)
    (car_number driver_name : value) : value * value :=
  match keys with
  | [] => (car_number, driver_name)
  | key :: rest =>
      match dict_get (KInt key) car_dict with
      | Some (VDict value) =>
          match dict_get (KStr "number") value with
          | Some (VNone) | None =>
              match dict_get (KStr "driverName") value with
              | Some (VNone) | None =>
                  nested_search car_dict rest car_number driver_name
              | Some name => (car_number, name)
              end
          | Some number => (number, driver_name)
          end
      | _ => nested_search car_dict rest car_number driver_name
      end
  end.

(** [car_number] and [driver_name] of [_handle_car_patches] when the
    search is over. *)
Definition identity (car_dict : dict) : value * value :=
  let car_number := top_level car_dict "number" 2 in
  let driver_name := top_level car_dict "driverName" 44 in
  if negb (truthy car_number) && negb (truthy driver_name)
  then nested_search car_dict (sorted (int_keys car_dict))
         car_number driver_name
  else (car_number, driver_name).

Section CarId.

(** The builtin [str], which the handler applies to whatever value it
    found. *)
Variable py_str : value -> string.

(** [car_id] of [_handle_car_patches]. *)
Definition car_id (car_dict : dict) : string :=
  let (car_number, driver_name) := identity car_dict in
  let car_id :=
    if truthy car_number then py_str car_number
    else if truthy driver_name
    then ("Driver: " ++ py_str driver_name)%string
    else "Unknown"%string in
  if 50 <? String.length car_id then "Unknown"%string else car_id.

End CarId.

End Hub.

(* ================================================================== *)
(** ** Patch reconciliation *)

Module Reconciler.
Section WithLib.
Context {L : DateTimeLib}.

(** Modelled from the spec: the value a patch supplies for wire index
    [i].  Section 6 gives the patch as a map with the integer indices of
    the full form in which unchanged fields are omitted or null; both
    count as absent.  The reconciler itself is not part of the sample
    client, whose handler only displays [Hub.changes]. *)
Definition patch_field (patch : dict) (i : nat) : option value :=
  dict_get (KInt (Z.of_nat i)) (Hub.changes patch).

(** Modelled from the spec: the sub-field [i] of a nested record that a
    patch delivers in array form, absent when null or beyond the
    array (section 4.4: nested-absent and top-level-absent use the same
    marker).  The reconciler is missing from the sources. *)
Definition nested_field (p : value) (i : nat) : result (option value) :=
  v <- item p i VNone ;;
  Ok (if Hub.is_not_none v then Some v else None).

(** Modelled from the spec: the merge rule of section 4.4 applied one
    level deep to a nested [VideoStatus]: an absent sub-field keeps the
    target's value, a present one replaces it.  The reconciler is
    missing from the sources. *)
Definition merge_VideoStatus (target : VideoStatus.t) (p : value)
    : result VideoStatus.t :=
  f0 <- nested_field p 0 ;;
  f1 <- nested_field p 1 ;;
  video_system_type <-
    match f0 with
    | Some v => VideoSystemType.call v
    | None => Ok (VideoStatus.video_system_type target)
    end ;;
  video_destination <-
    match f1 with
    | Some v => VideoDestination.from_msgpack v
    | None => Ok (VideoStatus.video_destination target)
    end ;;
  Ok (VideoStatus.mk video_system_type video_destination).

(** Modelled from the spec: the merge of a present nested record into
    the optional [in_car_video] of the target; a nested record whose
    sub-fields are all absent replaces nothing.  The reconciler is
    missing from the sources. *)
Definition merge_video (target : option VideoStatus.t) (p : value)
    : result (option VideoStatus.t) :=
  match target with
  | Some v => v' <- merge_VideoStatus v p ;; Ok (Some v')
  | None =>
      f0 <- nested_field p 0 ;;
      f1 <- nested_field p 1 ;;
      match f0, f1 with
      | None, None => Ok None
      | _, _ => v' <- merge_VideoStatus VideoStatus.new p ;; Ok (Some v')
      end
  end.

(** Modelled from the spec: the new content of field [i] of a
    [CarPosition] for the value [v] a patch supplies: a scalar is taken
    as it is (an enum or a time through the decoder's conversion), the
    sequence [completed_sections] is replaced as a whole, the nested
    record [in_car_video] is merged one level deep.  The reconciler is
    missing from the sources. *)
Definition present_field (i : nat) (v : value) (target : CarPosition.t)
    : result Schema.field :=
  match i with
  | 38 | 39 => f <- Flags.call v ;; Ok (Schema.FFlag f)
  | 41 =>
      l <- SessionState.decode_each CompletedSection.from_msgpack v ;;
      Ok (Schema.FSections l)
  | 43 => t <- _parse_time v ;; Ok (Schema.FTime t)
  | 46 =>
      o <- merge_video (CarPosition.in_car_video target) v ;;
      Ok (Schema.FVideo o)
  | _ => Ok (Schema.FValue v)
  end.

(** Modelled from the spec: the content of position [j] after field [i]
    is overwritten with [f]; every other position keeps [old].  The
    reconciler is missing from the sources. *)
Definition upd_value (i j : nat) (f : Schema.field) (old : value) : value :=
  if i =? j then match f with Schema.FValue v => v | _ => old end else old.

(** Modelled from the spec: as [upd_value], for a flag field. *)
Definition upd_flag (i j : nat) (f : Schema.field) (old : Flags.t)
    : Flags.t :=
  if i =? j then match f with Schema.FFlag x => x | _ => old end else old.

(** Modelled from the spec: as [upd_value], for [completed_sections]. *)
Definition upd_sections (i j : nat) (f : Schema.field)
    (old : list CompletedSection.t) : list CompletedSection.t :=
  if i =? j then match f with Schema.FSections l => l | _ => old end
  else old.

(** Modelled from the spec: as [upd_value], for [lap_start_time]. *)
Definition upd_time (i j : nat) (f : Schema.field) (old : option time)
    : option time :=
  if i =? j then match f with Schema.FTime o => o | _ => old end else old.

(** Modelled from the spec: as [upd_value], for [in_car_video]. *)
Definition upd_video (i j : nat) (f : Schema.field)
    (old : option VideoStatus.t) : option VideoStatus.t :=
  if i =? j then match f with Schema.FVideo o => o | _ => old end else old.

(** Modelled from the spec: the target with field [i] overwritten by
    [f] and every other field unchanged.  The reconciler is missing
    from the sources. *)
Definition set_field (i : nat) (f : Schema.field) (target : CarPosition.t)
    : CarPosition.t :=
  CarPosition.mk
    (upd_value i 0 f (CarPosition.event_id target))
    (upd_value i 1 f (CarPosition.session_id target))
    (upd_value i 2 f (CarPosition.number target))
    (upd_value i 3 f (CarPosition.transponder_id target))
    (upd_value i 4 f (CarPosition.car_class target))
    (upd_value i 5 f (CarPosition.best_time target))
    (upd_value i 6 f (CarPosition.best_lap target))
    (upd_value i 7 f (CarPosition.is_best_time target))
    (upd_value i 8 f (CarPosition.is_best_time_class target))
    (upd_value i 9 f (CarPosition.in_class_gap target))
    (upd_value i 10 f (CarPosition.in_class_difference target))
    (upd_value i 11 f (CarPosition.overall_gap target))
    (upd_value i 12 f (CarPosition.overall_difference target))
    (upd_value i 13 f (CarPosition.total_time target))
    (upd_value i 14 f (CarPosition.last_lap_time target))
    (upd_value i 15 f (CarPosition.last_lap_completed target))
    (upd_value i 16 f (CarPosition.pit_stop_count target))
    (upd_value i 17 f (CarPosition.last_lap_pitted target))
    (upd_value i 18 f (CarPosition.laps_led_overall target))
    (upd_value i 19 f (CarPosition.laps_led_in_class target))
    (upd_value i 20 f (CarPosition.overall_position target))
    (upd_value i 21 f (CarPosition.class_position target))
    (upd_value i 22 f (CarPosition.overall_starting_position target))
    (upd_value i 23 f (CarPosition.overall_positions_gained target))
    (upd_value i 24 f (CarPosition.in_class_starting_position target))
    (upd_value i 25 f (CarPosition.in_class_positions_gained target))
    (upd_value i 26 f (CarPosition.is_overall_most_positions_gained target))
    (upd_value i 27 f (CarPosition.is_class_most_positions_gained target))
    (upd_value i 28 f (CarPosition.penalty_laps target))
    (upd_value i 29 f (CarPosition.penalty_warnings target))
    (upd_value i 30 f (CarPosition.black_flags target))
    (upd_value i 31 f (CarPosition.is_entered_pit target))
    (upd_value i 32 f (CarPosition.is_pit_start_finish target))
    (upd_value i 33 f (CarPosition.is_exited_pit target))
    (upd_value i 34 f (CarPosition.is_in_pit target))
    (upd_value i 35 f (CarPosition.lap_included_pit target))
    (upd_value i 36 f (CarPosition.last_loop_name target))
    (upd_value i 37 f (CarPosition.is_stale target))
    (upd_flag i 38 f (CarPosition.track_flag target))
    (upd_flag i 39 f (CarPosition.local_flag target))
    (upd_value i 40 f (CarPosition.lap_had_local_flag target))
    (upd_sections i 41 f (CarPosition.completed_sections target))
    (upd_value i 42 f (CarPosition.projected_lap_time_ms target))
    (upd_time i 43 f (CarPosition.lap_start_time target))
    (upd_value i 44 f (CarPosition.driver_name target))
    (upd_value i 45 f (CarPosition.driver_id target))
    (upd_video i 46 f (CarPosition.in_car_video target))
    (upd_value i 47 f (CarPosition.latitude target))
    (upd_value i 48 f (CarPosition.longitude target))
    (upd_value i 49 f (CarPosition.current_status target))
    (upd_value i 50 f (CarPosition.impact_warning target)).

(** Modelled from the spec: the merge rule of section 4.4 for one field
    index: absent in the patch, the target is left unchanged; present,
    the field is overwritten.  The reconciler is missing from the
    sources. *)
Definition merge_index (patch : dict) (target : CarPosition.t) (i : nat)
    : result CarPosition.t :=
  match patch_field patch i with
  | None => Ok target
  | Some v => f <- present_field i v target ;; Ok (set_field i f target)
  end.

(** Modelled from the spec: [merge_index] over a list of field indices,
    in order; a failure aborts the merge of the record.  The reconciler
    is missing from the sources. *)
Fixpoint merge_indices (patch : dict) (target : CarPosition.t)
    (indices : list nat) : result CarPosition.t :=
  match indices with
  | [] => Ok target
  | i :: rest =>
      target' <- merge_index patch target i ;;
      merge_indices patch target' rest
  end.

(** Modelled from the spec: [merge(target, patch)] of section 4.4 for
    a [CarPosition], per field index in schema order.  The reconciler
    is missing from the sources: signalr_client.py displays the patch
    and does not apply it. *)
Definition merge (target : CarPosition.t) (patch : dict)
    : result CarPosition.t :=
  merge_indices patch target (seq 0 (Schema.field_count Schema.TCarPosition)).

End WithLib.
End Reconciler.

(* ================================================================== *)
(** ** A date and time library for concrete runs

    A date or a time is identified with its ISO text, a non-empty
    string given by its first character and the rest; the empty string
    is not a valid text, and timestamps are not supported. *)

Definition text : Type := (ascii * string)%type.

Definition text_fromisoformat (s : string) : result text :=
  match s with
  | EmptyString => Raise ValueError
  | String c s' => Ok (c, s')
  end.

Definition text_isoformat (t : text) : string := String (fst t) (snd t).

Definition TextClock : DateTimeLib := {|
  datetime := text;
  time := text;
  datetime_fromisoformat := text_fromisoformat;
  datetime_fromtimestamp_int := fun _ => Raise OSError;
  datetime_fromtimestamp_float := fun _ => Raise OSError;
  datetime_isoformat := text_isoformat;
  time_fromisoformat := text_fromisoformat;
  time_isoformat := text_isoformat
|}.

(* ================================================================== *)
(** ** Scenarios *)

(** The session map [{0: 2, 1: "Test Race", 15: 1}]. *)
Definition scenario_session : dict :=
  [ (KInt 0, VInt 2); (KInt 1, VStr "Test Race"); (KInt 15, VInt 1) ]%Z.

(** The car patch [{20: 5}]: [overall_position] only. *)
Definition scenario_patch : dict := [ (KInt 20, VInt 5) ]%Z.


(** A video status array whose destination (index 1) is null. *)
Definition video_status_null_destination : list value :=
  [VInt 1; VNone].

(** A video status array that stops before the destination. *)
Definition video_status_no_destination : list value := [VInt 1].

(** A fully populated car, number 60, running third overall. *)
Definition scenario_car : @CarPosition.t TextClock :=
  CarPosition.init (L := TextClock)
    (VStr "2") (VStr "7") (VStr "60") (VInt 4471) (VStr "GT3")
    (VStr "00:01:32.417") (VInt 12) (VBool true) (VBool true)
    (VStr "00:00:01.100") (VStr "00:00:04.250") (VStr "00:00:01.100")
    (VStr "00:00:04.250") (VStr "00:31:05.000") (VStr "00:01:33.020")
    (VInt 20) (VInt 1) (VInt 9) (VInt 3) (VInt 5)
    (VInt 3) (VInt 2) (VInt 6) (VInt 3) (VInt 4) (VInt 2)
    (VBool false) (VBool true) (VInt 0) (VInt 1) (VInt 0)
    (VBool false) (VBool false) (VBool false) (VBool false) (VBool false)
    (VStr "SF") (VBool false) Flags.GREEN Flags.YELLOW (VBool true)
    (Some [CompletedSection.init (VStr "60") (VStr "S1") (VInt 31000)
             (VInt 30950) (VInt 20)])
    (VInt 92800) (Some ("1"%char, "4:03:38"%string))
    (VStr "A. Driver") (VStr "d-17")
    (Some (VideoStatus.init VideoSystemType.SENTINEL
             (Some (VideoDestination.init VideoDestinationType.YOUTUBE
                      (VStr "https://video.test/live") (VStr "video.test")
                      (VInt 443) (VStr "q=hd")))))
    (VFloat (S754_finite false 71 (-1))) (VFloat (S754_finite true 163 (-1)))
    (VStr "Active") (VBool false).

(** A fully populated session holding that car. *)
Definition scenario_full_session : @SessionState.t TextClock :=
  SessionState.init (L := TextClock)
    (VInt 2) (VStr "Test Race") (VInt 7) (VStr "Race 1") (VInt 0)
    (VStr "00:28:55") (VStr "14:05:11") (VStr "00:31:05") (VBool false)
    (Some ("2"%char, "025-06-01T13:34:06"%string))
    (Some ("2"%char, "025-06-01T14:34:06"%string))
    (VFloat (S754_finite true 5 0)) (VBool true)
    (Some [EventEntry.init (VStr "60") (VStr "A. Driver") (VStr "Team A")
             (VStr "GT3")])
    (Some [scenario_car]) Flags.GREEN
    (Some [FlagDuration.init (L := TextClock) Flags.GREEN
             (Some ("2"%char, "025-06-01T13:34:06"%string)) None])
    (VInt 1865000) (VInt 20) (VInt 0) (VInt 0) (VInt 0) (VInt 0)
    (VStr "98.412 mph") (VInt 2)
    (Some [Section_.init (VStr "S1") (VInt 63360) (VStr "SF") (VStr "I1")])
    (VDict [(KStr "GT3", VStr "#FF0000")])
    (Some [Announcement.init (L := TextClock)
             (Some ("2"%char, "025-06-01T13:40:00"%string))
             (VStr "Normal") (VStr "Track is green")])
    (Some ("2"%char, "025-06-01T14:05:11"%string)).

(** A car array truncated after the car number. *)
Definition truncated_car : list value :=
  [VStr "2"; VStr "7"; VStr "60"].

(** A car array of 24 positions with the explicit value 0 at index 23. *)
Definition car_with_zero_gained : list value :=
  repeat VNone 23 ++ [VInt 0].

(** A car array of 26 positions with the explicit value 0 at index 25. *)
Definition car_with_zero_class_gained : list value :=
  repeat VNone 25 ++ [VInt 0].

(** A session map whose key 15 is null. *)
Definition session_with_null_flag : dict := [ (KInt 15, VNone) ]%Z.

(** [d] maps key [k] to null. *)
Definition null_at (d : dict) (k : Z) : Prop :=
  dict_get (KInt k) d = Some VNone.

(** [d] has no key [k]. *)
Definition absent_at (d : dict) (k : Z) : Prop :=
  dict_get (KInt k) d = None.

(** Every key of [d] is a string. *)
Definition only_string_keys (d : dict) : bool :=
  forallb (fun kv => match fst kv with KStr _ => true | KInt _ => false end)
    d.

(** The session map [{26: 5}]: a number where the class colours go. *)
Definition session_with_numeric_class_colors : dict :=
  [ (KInt 26, VInt 5) ]%Z.

(** The session map [{"eventId": 2, "currentFlag": 1}], keyed by name. *)
Definition session_keyed_by_name : dict :=
  [ (KStr "eventId", VInt 2); (KStr "currentFlag", VInt 1) ].

(* ================================================================== *)
(** ** Induction on wire values *)

Section ValueInduction.

Variable P : value -> Prop.
Hypothesis P_None : P VNone.
Hypothesis P_Bool : forall b, P (VBool b).
Hypothesis P_Int : forall z, P (VInt z).
Hypothesis P_Float : forall f, P (VFloat f).
Hypothesis P_Str : forall s, P (VStr s).
Hypothesis P_List : forall l, Forall P l -> P (VList l).
Hypothesis P_Dict :
  forall d, Forall (fun kv => P (snd kv)) d -> P (VDict d).

(** Structural induction that reaches the items of lists and the values
    of dicts. *)
Fixpoint value_nested_ind (v : value) : P v :=
  match v with
  | VNone => P_None
  | VBool b => P_Bool b
  | VInt z => P_Int z
  | VFloat f => P_Float f
  | VStr s => P_Str s
  | VList l =>
      P_List
        ((fix items (l : list value) : Forall P l :=
            match l with
            | [] => Forall_nil P
            | x :: l' => Forall_cons x (value_nested_ind x) (items l')
            end) l)
  | VDict d =>
      P_Dict
        ((fix items (d : list (key * value))
            : Forall (fun kv => P (snd kv)) d :=
            match d with
            | [] => Forall_nil _
            | kv :: d' =>
                Forall_cons kv (value_nested_ind (snd kv)) (items d')
            end) d)
  end.

End ValueInduction.

(** A car array whose guarded positions hold false values: an empty
    array at index 41 and the integer 0 at index 46. *)
Definition car_with_falsy_guarded : list value :=
  repeat VNone 38 ++ [VInt 1; VInt 2; VNone; VList []] ++
  repeat VNone 4 ++ [VInt 0].

(** A car array with no number and a driver name at index 44. *)
Definition car_with_driver_only : list value :=
  repeat VNone 38 ++ [VInt 1; VInt 1] ++ repeat VNone 4 ++
  [VStr "A. Driver"].

(** A session map whose key 14 holds a null car. *)
Definition session_with_null_car : dict :=
  [ (KInt 14, VList [VNone]) ]%Z.

(** A car patch with a null, a dict of nulls and two changes. *)
Definition patch_with_nulls : dict :=
  [ (KStr "number", VStr "60");
    (KStr "bestTime", VNone);
    (KStr "inCarVideo", VDict [(KStr "videoSystemType", VNone)]);
    (KStr "overallPosition", VInt 5) ].

(** A value with None at two depths. *)
Definition nested_with_nulls : value :=
  VDict [ (KStr "a", VNone);
          (KInt 1, VList [VNone; VInt 3; VDict [(KStr "b", VNone)]]) ]%Z.

(** [str] on the values whose text is plain: a string is itself, an
    integer is its decimal text; the text of any other value is not
    modelled. *)
Definition plain_str (v : value) : string :=
  match v with
  | VStr s => s
  | VInt z => Hub.str_int z
  | _ => "?"%string
  end.

(* ================================================================== *)
(** * Properties *)

Section Properties.
Context {L : DateTimeLib}.

(** ** The result monad *)

Lemma bind_ok {A B : Type} (r : result A) (k : A -> result B) (b : B) :
  bind r k = Ok b -> exists a, r = Ok a /\ k a = Ok b.
Proof.
  destruct r as [a|e]; cbn [bind]; intros H.
  - exists a. split; [reflexivity | exact H].
  - discriminate H.
Qed.

Lemma bind_raises {A B : Type} (r : result A) (k : A -> result B) :
  raises r -> raises (bind r k).
Proof.
  intros [e He]. rewrite He. exists e. reflexivity.
Qed.

Lemma mapM_map {A B C : Type} (f : B -> result C) (g : A -> B)
    (xs : list A) (h : A -> C) :
  (forall x, In x xs -> f (g x) = Ok (h x)) ->
  mapM f (map g xs) = Ok (map h xs).
Proof.
  induction xs as [|x xs IH]; intros H; cbn [map mapM].
  - reflexivity.
  - rewrite (H x (or_introl eq_refl)). cbn [bind].
    rewrite IH by (intros y Hy; apply H; right; exact Hy).
    reflexivity.
Qed.

(** ** Reading positions of an array *)

Lemma item_with_list {A : Type} (l : list value) (i : nat)
    (conv : value -> result A) (d : A) :
  item_with (VList l) i conv d =
  match nth_error l i with
  | Some v => conv v
  | None => Ok d
  end.
Proof.
  unfold item_with. cbn [py_len bind py_getitem].
  destruct (Nat.ltb_spec i (List.length l)) as [Hlt|Hge].
  - destruct (nth_error l i) as [v|] eqn:Hn; [reflexivity|].
    apply nth_error_None in Hn. lia.
  - apply nth_error_None in Hge. rewrite Hge. reflexivity.
Qed.

Lemma item_list (l : list value) (i : nat) (d : value) :
  item (VList l) i d = Ok (nth i l d).
Proof.
  unfold item. rewrite item_with_list.
  destruct (nth_error l i) as [v|] eqn:Hn.
  - rewrite (nth_error_nth _ _ d Hn). reflexivity.
  - apply nth_error_None in Hn. rewrite nth_overflow by exact Hn.
    reflexivity.
Qed.

Lemma item_if_truthy_list {A : Type} (l : list value) (i : nat)
    (conv : value -> result A) (d : A) :
  item_if_truthy (VList l) i conv d =
  match nth_error l i with
  | Some v => if truthy v then conv v else Ok d
  | None => Ok d
  end.
Proof.
  unfold item_if_truthy. cbn [py_len bind py_getitem].
  destruct (Nat.ltb_spec i (List.length l)) as [Hlt|Hge].
  - destruct (nth_error l i) as [v|] eqn:Hn; [reflexivity|].
    apply nth_error_None in Hn. lia.
  - apply nth_error_None in Hge. rewrite Hge. reflexivity.
Qed.

Lemma item_with_beyond {A : Type} (l : list value) (i : nat)
    (conv : value -> result A) (d : A) :
  List.length l <= i -> item_with (VList l) i conv d = Ok d.
Proof.
  intros H. rewrite item_with_list.
  apply nth_error_None in H. rewrite H. reflexivity.
Qed.

Lemma item_if_truthy_beyond {A : Type} (l : list value) (i : nat)
    (conv : value -> result A) (d : A) :
  List.length l <= i -> item_if_truthy (VList l) i conv d = Ok d.
Proof.
  intros H. rewrite item_if_truthy_list.
  apply nth_error_None in H. rewrite H. reflexivity.
Qed.

(** ** Enumerations *)

Lemma Flags_of_Z_int (f : Flags.t) : Flags.of_Z (Flags.int f) = Some f.
Proof. destruct f; reflexivity. Qed.

Lemma VideoSystemType_of_Z_int (x : VideoSystemType.t) :
  VideoSystemType.of_Z (VideoSystemType.int x) = Some x.
Proof. destruct x; reflexivity. Qed.

Lemma VideoDestinationType_of_Z_int (x : VideoDestinationType.t) :
  VideoDestinationType.of_Z (VideoDestinationType.int x) = Some x.
Proof. destruct x; reflexivity. Qed.




Lemma enum_call_int {E : Type} (of_Z : Z -> option E) (z : Z) :
  enum_call of_Z (VInt z) =
  match of_Z z with
  | Some e => Ok e
  | None => Raise ValueError
  end.
Proof. reflexivity. Qed.

Lemma enum_call_is_enum {E : Type} (of_Z : Z -> option E) (v : value) :
  Schema.is_enum of_Z v = true -> succeeds (enum_call of_Z v).
Proof.
  destruct v; cbn [Schema.is_enum]; try discriminate.
  intros H. rewrite enum_call_int.
  destruct (of_Z z) as [e|]; [exists e; reflexivity | discriminate H].
Qed.

(** ** The map built from an array *)

Lemma dict_get_enumerate_from (l : list value) (start i : nat) :
  dict_get (KInt (Z.of_nat (start + i))) (enumerate_from start l) =
  nth_error l i.
Proof.
  revert start i. induction l as [|v l IH]; intros start i.
  - destruct i; reflexivity.
  - cbn [enumerate_from dict_get key_eqb].
    destruct i as [|i].
    + rewrite Nat.add_0_r, Z.eqb_refl. reflexivity.
    + destruct (Z.eqb_spec (Z.of_nat (start + S i)) (Z.of_nat start)) as [E|_];
        [lia|].
      replace (start + S i) with (S start + i) by lia.
      apply IH.
Qed.

Lemma dict_get_enumerate_dict (l : list value) (i : nat) :
  dict_get (KInt (Z.of_nat i)) (enumerate_dict l) = nth_error l i.
Proof. exact (dict_get_enumerate_from l 0 i). Qed.

Lemma get_enumerate_dict (l : list value) (i : nat) (d : value) :
  get (enumerate_dict l) (Z.of_nat i) d = nth i l d.
Proof.
  unfold get. rewrite dict_get_enumerate_dict.
  destruct (nth_error l i) as [v|] eqn:Hn.
  - rewrite (nth_error_nth _ _ d Hn). reflexivity.
  - apply nth_error_None in Hn. rewrite nth_overflow by exact Hn.
    reflexivity.
Qed.


Lemma bind_Ok_l {A B : Type} (a : A) (k : A -> result B) :
  bind (Ok a) k = k a.
Proof. reflexivity. Qed.

Lemma bind_Raise_l {A B : Type} (e : exn) (k : A -> result B) :
  bind (Raise e) k = Raise e.
Proof. reflexivity. Qed.

(** ** CarPosition decoded from an array *)

(** On an array, the positions that are stored as they are cannot fail:
    only the five converted positions decide the outcome. *)
Lemma CarPosition_from_list (l : list value) :
  CarPosition.from_msgpack (VList l) =
  (track_flag <- item_with (VList l) 38 Flags.call Flags.UNKNOWN ;;
   local_flag <- item_with (VList l) 39 Flags.call Flags.UNKNOWN ;;
   completed_sections <-
     item_if_truthy (VList l) 41
       (fun v => cs <- py_iter v ;; mapM CompletedSection.from_msgpack cs)
       [] ;;
   lap_start_time <- item_with (VList l) 43 _parse_time None ;;
   in_car_video <-
     item_if_truthy (VList l) 46
       (fun v => vs <- VideoStatus.from_msgpack v ;; Ok (Some vs)) None ;;
   Ok (Schema.CarPosition_of_array l track_flag local_flag
         completed_sections lap_start_time in_car_video)).
Proof.
  unfold CarPosition.from_msgpack, Schema.CarPosition_of_array.
  repeat first
    [ rewrite item_list; rewrite bind_Ok_l; cbv beta
    | match goal with
      | |- bind ?r _ = bind ?r _ =>
          destruct r;
          [ rewrite !bind_Ok_l; cbv beta
          | rewrite !bind_Raise_l; reflexivity ]
      end ].
  reflexivity.
Qed.


(** ** Default fill *)

Lemma CarPosition_fields_init
    (a0 : value) (a1 : value) (a2 : value) (a3 : value) (a4 : value)
    (a5 : value) (a6 : value) (a7 : value) (a8 : value) (a9 : value)
    (a10 : value) (a11 : value) (a12 : value) (a13 : value) (a14 : value)
    (a15 : value) (a16 : value) (a17 : value) (a18 : value) (a19 : value)
    (a20 : value) (a21 : value) (a22 : value) (a23 : value) (a24 : value)
    (a25 : value) (a26 : value) (a27 : value) (a28 : value) (a29 : value)
    (a30 : value) (a31 : value) (a32 : value) (a33 : value) (a34 : value)
    (a35 : value) (a36 : value) (a37 : value) (a38 : Flags.t)
    (a39 : Flags.t) (a40 : value) (a41 : option (list CompletedSection.t))
    (a42 : value) (a43 : option time) (a44 : value) (a45 : value)
    (a46 : option VideoStatus.t) (a47 : value) (a48 : value) (a49 : value)
    (a50 : value) :
  Schema.CarPosition_fields
    (CarPosition.init a0 a1 a2 a3 a4 a5 a6 a7 a8 a9 a10 a11 a12 a13 a14
       a15 a16 a17 a18 a19 a20 a21 a22 a23 a24 a25 a26 a27 a28 a29 a30 a31
       a32 a33 a34 a35 a36 a37 a38 a39 a40 a41 a42 a43 a44 a45 a46 a47 a48
       a49 a50) =
  [ Schema.FValue a0; Schema.FValue a1; Schema.FValue a2;
    Schema.FValue a3; Schema.FValue a4; Schema.FValue a5;
    Schema.FValue a6; Schema.FValue a7; Schema.FValue a8;
    Schema.FValue a9; Schema.FValue a10; Schema.FValue a11;
    Schema.FValue a12; Schema.FValue a13; Schema.FValue a14;
    Schema.FValue a15; Schema.FValue a16; Schema.FValue a17;
    Schema.FValue a18; Schema.FValue a19; Schema.FValue a20;
    Schema.FValue a21; Schema.FValue a22; Schema.FValue a23;
    Schema.FValue a24; Schema.FValue a25; Schema.FValue a26;
    Schema.FValue a27; Schema.FValue a28; Schema.FValue a29;
    Schema.FValue a30; Schema.FValue a31; Schema.FValue a32;
    Schema.FValue a33; Schema.FValue a34; Schema.FValue a35;
    Schema.FValue a36; Schema.FValue a37; Schema.FFlag a38;
    Schema.FFlag a39; Schema.FValue a40; Schema.FSections (or_empty a41);
    Schema.FValue a42; Schema.FTime a43; Schema.FValue a44;
    Schema.FValue a45; Schema.FVideo a46; Schema.FValue a47;
    Schema.FValue a48; Schema.FValue a49; Schema.FValue a50 ].
Proof. reflexivity. Qed.


Lemma parse_time_is_time (v : value) :
  Schema.is_time v = true -> succeeds (_parse_time v).
Proof.
  destruct v; cbn [Schema.is_time _parse_time]; try discriminate.
  - intros _. exists None. reflexivity.
  - destruct (time_fromisoformat s) as [t|e]; [|discriminate].
    intros _. exists (Some t). reflexivity.
Qed.

Lemma parse_datetime_is_datetime (v : value) :
  Schema.is_datetime v = true -> succeeds (_parse_datetime v).
Proof.
  destruct v; cbn [Schema.is_datetime _parse_datetime]; try discriminate.
  - intros _. exists None. reflexivity.
  - destruct (datetime_fromisoformat s) as [t|e]; [|discriminate].
    intros _. exists (Some t). reflexivity.
Qed.

Lemma item_with_supplied {A : Type} (check : value -> bool)
    (l : list value) (i : nat) (conv : value -> result A) (d : A) :
  (forall v, check v = true -> succeeds (conv v)) ->
  Schema.supplied check l i = true ->
  succeeds (item_with (VList l) i conv d).
Proof.
  intros Hconv. unfold Schema.supplied. rewrite item_with_list.
  destruct (nth_error l i) as [v|].
  - apply Hconv.
  - intros _. exists d. reflexivity.
Qed.

Lemma item_if_truthy_supplied {A : Type} (check : value -> bool)
    (l : list value) (i : nat) (conv : value -> result A) (d : A) :
  (forall v, check v = true -> truthy v = true -> succeeds (conv v)) ->
  Schema.supplied check l i = true ->
  succeeds (item_if_truthy (VList l) i conv d).
Proof.
  intros Hconv. unfold Schema.supplied. rewrite item_if_truthy_list.
  destruct (nth_error l i) as [v|].
  - intros Hc. destruct (truthy v) eqn:Ht.
    + apply Hconv; assumption.
    + exists d. reflexivity.
  - intros _. exists d. reflexivity.
Qed.

Lemma VideoDestination_from_list (l : list value) :
  VideoDestination.from_msgpack (VList l) =
  (destination_type <-
     item_with (VList l) 0 VideoDestinationType.call
       VideoDestinationType.NONE ;;
   Ok (VideoDestination.init destination_type (nth 1 l (VStr ""))
         (nth 2 l (VStr "")) (nth 3 l (VInt 0)) (nth 4 l (VStr "")))).
Proof.
  unfold VideoDestination.from_msgpack.
  destruct (item_with (VList l) 0 _ _); [|reflexivity].
  rewrite !bind_Ok_l. rewrite !item_list, !bind_Ok_l. reflexivity.
Qed.

Lemma CompletedSection_from_list (l : list value) :
  CompletedSection.from_msgpack (VList l) =
  Ok (CompletedSection.init (nth 0 l (VStr "")) (nth 1 l (VStr ""))
        (nth 2 l (VInt 0)) (nth 3 l (VInt 0)) (nth 4 l (VInt 0))).
Proof.
  unfold CompletedSection.from_msgpack.
  rewrite !item_list, !bind_Ok_l. reflexivity.
Qed.

Lemma EventEntry_from_list (l : list value) :
  EventEntry.from_msgpack (VList l) =
  Ok (EventEntry.init (nth 0 l (VStr "")) (nth 1 l (VStr ""))
        (nth 2 l (VStr "")) (nth 3 l (VStr ""))).
Proof.
  unfold EventEntry.from_msgpack.
  rewrite !item_list, !bind_Ok_l. reflexivity.
Qed.

Lemma Section_from_list (l : list value) :
  Section_.from_msgpack (VList l) =
  Ok (Section_.init (nth 0 l (VStr "")) (nth 1 l (VInt 0))
        (nth 2 l (VStr "")) (nth 3 l (VStr ""))).
Proof.
  unfold Section_.from_msgpack.
  rewrite !item_list, !bind_Ok_l. reflexivity.
Qed.

Lemma Announcement_from_list (l : list value) :
  Announcement.from_msgpack (VList l) =
  (timestamp <- item_with (VList l) 0 _parse_datetime None ;;
   Ok (Announcement.init timestamp (nth 1 l (VStr "")) (nth 2 l (VStr "")))).
Proof.
  unfold Announcement.from_msgpack.
  destruct (item_with (VList l) 0 _ _); [|reflexivity].
  rewrite !bind_Ok_l. rewrite !item_list, !bind_Ok_l. reflexivity.
Qed.

(** A well-typed array decodes. *)

Lemma VideoDestination_succeeds (l : list value) :
  Schema.well_typed_VideoDestination l = true ->
  succeeds (VideoDestination.from_msgpack (VList l)).
Proof.
  intros H. rewrite VideoDestination_from_list.
  destruct (@item_with_supplied _ (Schema.is_enum VideoDestinationType.of_Z)
              l 0 VideoDestinationType.call VideoDestinationType.NONE
              (@enum_call_is_enum _ _) H) as [x Hx].
  rewrite Hx, bind_Ok_l. eexists. reflexivity.
Qed.

Lemma VideoDestination_value_succeeds (v : value) :
  Schema.is_VideoDestination v = true -> truthy v = true ->
  succeeds (VideoDestination.from_msgpack v).
Proof.
  destruct v; cbn [Schema.is_VideoDestination truthy]; try discriminate.
  intros H _. apply VideoDestination_succeeds. exact H.
Qed.

Lemma VideoStatus_succeeds (l : list value) :
  Schema.well_typed_VideoStatus l = true ->
  succeeds (VideoStatus.from_msgpack (VList l)).
Proof.
  unfold Schema.well_typed_VideoStatus. intros H.
  apply andb_true_iff in H as [H0 H1].
  unfold VideoStatus.from_msgpack.
  destruct (@item_with_supplied _ (Schema.is_enum VideoSystemType.of_Z)
              l 0 VideoSystemType.call VideoSystemType.NONE
              (@enum_call_is_enum _ _) H0) as [x Hx].
  destruct (@item_if_truthy_supplied _ Schema.is_VideoDestination
              l 1 VideoDestination.from_msgpack VideoDestination.new
              VideoDestination_value_succeeds H1) as [y Hy].
  rewrite Hx, bind_Ok_l, Hy, bind_Ok_l. eexists. reflexivity.
Qed.

Lemma VideoStatus_value_succeeds (v : value) :
  Schema.is_VideoStatus v = true -> truthy v = true ->
  succeeds (vs <- VideoStatus.from_msgpack v ;; Ok (Some vs)).
Proof.
  destruct v; cbn [Schema.is_VideoStatus truthy]; try discriminate.
  intros H _. destruct (VideoStatus_succeeds l H) as [x Hx].
  rewrite Hx, bind_Ok_l. eexists. reflexivity.
Qed.

Lemma CompletedSections_succeeds (cs : list value) :
  forallb Schema.is_list cs = true ->
  succeeds (mapM CompletedSection.from_msgpack cs).
Proof.
  induction cs as [|c cs IH]; cbn [forallb mapM]; intros H.
  - eexists. reflexivity.
  - apply andb_true_iff in H as [Hc Hcs].
    destruct c; try discriminate Hc.
    rewrite CompletedSection_from_list, bind_Ok_l.
    destruct (IH Hcs) as [ys Hys]. rewrite Hys, bind_Ok_l.
    eexists. reflexivity.
Qed.

Lemma CompletedSections_value_succeeds (v : value) :
  Schema.is_CompletedSections v = true -> truthy v = true ->
  succeeds (cs <- py_iter v ;; mapM CompletedSection.from_msgpack cs).
Proof.
  destruct v; cbn [Schema.is_CompletedSections truthy]; try discriminate.
  intros H _. cbn [py_iter]. rewrite bind_Ok_l.
  apply CompletedSections_succeeds. exact H.
Qed.

Lemma FlagDuration_succeeds (l : list value) :
  Schema.well_typed_FlagDuration l = true ->
  succeeds (FlagDuration.from_msgpack (VList l)).
Proof.
  unfold Schema.well_typed_FlagDuration. intros H.
  apply andb_true_iff in H as [H H2].
  apply andb_true_iff in H as [H0 H1].
  unfold FlagDuration.from_msgpack.
  destruct (@item_with_supplied _ (Schema.is_enum Flags.of_Z)
              l 0 Flags.call Flags.UNKNOWN
              (@enum_call_is_enum _ _) H0) as [x Hx].
  destruct (@item_with_supplied _ Schema.is_datetime
              l 1 _parse_datetime None parse_datetime_is_datetime H1)
    as [y Hy].
  destruct (@item_with_supplied _ Schema.is_datetime
              l 2 _parse_datetime None parse_datetime_is_datetime H2)
    as [z Hz].
  rewrite Hx, bind_Ok_l, Hy, bind_Ok_l, Hz, bind_Ok_l.
  eexists. reflexivity.
Qed.

Lemma Announcement_succeeds (l : list value) :
  Schema.well_typed_Announcement l = true ->
  succeeds (Announcement.from_msgpack (VList l)).
Proof.
  unfold Schema.well_typed_Announcement. intros H.
  rewrite Announcement_from_list.
  destruct (@item_with_supplied _ Schema.is_datetime
              l 0 _parse_datetime None parse_datetime_is_datetime H)
    as [x Hx].
  rewrite Hx, bind_Ok_l. eexists. reflexivity.
Qed.

Lemma CarPosition_succeeds (l : list value) :
  Schema.well_typed_CarPosition l = true ->
  succeeds (CarPosition.from_msgpack (VList l)).
Proof.
  unfold Schema.well_typed_CarPosition. intros H.
  apply andb_true_iff in H as [H H46].
  apply andb_true_iff in H as [H H43].
  apply andb_true_iff in H as [H H41].
  apply andb_true_iff in H as [H38 H39].
  rewrite CarPosition_from_list.
  destruct (@item_with_supplied _ (Schema.is_enum Flags.of_Z)
              l 38 Flags.call Flags.UNKNOWN
              (@enum_call_is_enum _ _) H38) as [x38 E38].
  destruct (@item_with_supplied _ (Schema.is_enum Flags.of_Z)
              l 39 Flags.call Flags.UNKNOWN
              (@enum_call_is_enum _ _) H39) as [x39 E39].
  destruct (@item_if_truthy_supplied _ Schema.is_CompletedSections
              l 41 _ [] CompletedSections_value_succeeds H41)
    as [x41 E41].
  destruct (@item_with_supplied _ Schema.is_time
              l 43 _parse_time None parse_time_is_time H43) as [x43 E43].
  destruct (@item_if_truthy_supplied _ Schema.is_VideoStatus
              l 46 _ None VideoStatus_value_succeeds H46) as [x46 E46].
  rewrite E38, bind_Ok_l, E39, bind_Ok_l, E41, bind_Ok_l, E43, bind_Ok_l,
    E46, bind_Ok_l.
  eexists. reflexivity.
Qed.


Lemma CarPosition_decoded (l : list value) (e : CarPosition.t) :
  CarPosition.from_msgpack (VList l) = Ok e ->
  exists track_flag local_flag completed_sections lap_start_time
         in_car_video,
    item_with (VList l) 38 Flags.call Flags.UNKNOWN = Ok track_flag /\
    item_with (VList l) 39 Flags.call Flags.UNKNOWN = Ok local_flag /\
    item_if_truthy (VList l) 41
      (fun v => cs <- py_iter v ;; mapM CompletedSection.from_msgpack cs)
      [] = Ok completed_sections /\
    item_with (VList l) 43 _parse_time None = Ok lap_start_time /\
    item_if_truthy (VList l) 46
      (fun v => vs <- VideoStatus.from_msgpack v ;; Ok (Some vs)) None
      = Ok in_car_video /\
    e = Schema.CarPosition_of_array l track_flag local_flag
          completed_sections lap_start_time in_car_video.
Proof.
  rewrite CarPosition_from_list. intros H.
  apply bind_ok in H as (tf & E38 & H).
  apply bind_ok in H as (lf & E39 & H).
  apply bind_ok in H as (cs & E41 & H).
  apply bind_ok in H as (lt & E43 & H).
  apply bind_ok in H as (icv & E46 & H).
  injection H as <-.
  exists tf, lf, cs, lt, icv. repeat split; assumption.
Qed.

(** A converted position that the array does not supply is at its
    default. *)
Ltac beyond H :=
  first [ rewrite item_with_beyond in H by lia
        | rewrite item_if_truthy_beyond in H by lia ];
  injection H as <-.

Lemma VideoDestination_default_filled (l : list value) :
  Schema.well_typed_VideoDestination l = true ->
  Schema.default_filled Schema.TVideoDestination l.
Proof.
  intros H. destruct (VideoDestination_succeeds l H) as [e He].
  exists e. split; [exact He|]. split; [reflexivity|].
  cbn [Schema.from_msgpack Schema.fields Schema.new].
  rewrite VideoDestination_from_list in He.
  apply bind_ok in He as (ty & E0 & He). injection He as <-.
  intros i Hi.
  do 5 (destruct i as [|i];
        [ cbn; f_equal;
          first [ f_equal; apply nth_overflow; lia
                | beyond E0; reflexivity ] |]).
  reflexivity.
Qed.

Lemma VideoStatus_default_filled (l : list value) :
  Schema.well_typed_VideoStatus l = true ->
  Schema.default_filled Schema.TVideoStatus l.
Proof.
  intros H. destruct (VideoStatus_succeeds l H) as [e He].
  exists e. split; [exact He|]. split; [reflexivity|].
  cbn [Schema.from_msgpack Schema.fields Schema.new].
  unfold VideoStatus.from_msgpack in He.
  apply bind_ok in He as (st & E0 & He).
  apply bind_ok in He as (vd & E1 & He). injection He as <-.
  intros i Hi.
  do 2 (destruct i as [|i];
        [ cbn; f_equal;
          first [ beyond E0; reflexivity | beyond E1; reflexivity ] |]).
  reflexivity.
Qed.

Lemma CompletedSection_default_filled (l : list value) :
  Schema.default_filled Schema.TCompletedSection l.
Proof.
  exists (CompletedSection.init (nth 0 l (VStr "")) (nth 1 l (VStr ""))
            (nth 2 l (VInt 0)) (nth 3 l (VInt 0)) (nth 4 l (VInt 0))).
  split; [apply CompletedSection_from_list|]. split; [reflexivity|].
  intros i Hi.
  do 5 (destruct i as [|i];
        [ cbn; do 2 f_equal; apply nth_overflow; lia |]).
  reflexivity.
Qed.

Lemma EventEntry_default_filled (l : list value) :
  Schema.default_filled Schema.TEventEntry l.
Proof.
  exists (EventEntry.init (nth 0 l (VStr "")) (nth 1 l (VStr ""))
            (nth 2 l (VStr "")) (nth 3 l (VStr ""))).
  split; [apply EventEntry_from_list|]. split; [reflexivity|].
  intros i Hi.
  do 4 (destruct i as [|i];
        [ cbn; do 2 f_equal; apply nth_overflow; lia |]).
  reflexivity.
Qed.

Lemma Section_default_filled (l : list value) :
  Schema.default_filled Schema.TSection l.
Proof.
  exists (Section_.init (nth 0 l (VStr "")) (nth 1 l (VInt 0))
            (nth 2 l (VStr "")) (nth 3 l (VStr ""))).
  split; [apply Section_from_list|]. split; [reflexivity|].
  intros i Hi.
  do 4 (destruct i as [|i];
        [ cbn; do 2 f_equal; apply nth_overflow; lia |]).
  reflexivity.
Qed.

Lemma FlagDuration_default_filled (l : list value) :
  Schema.well_typed_FlagDuration l = true ->
  Schema.default_filled Schema.TFlagDuration l.
Proof.
  intros H. destruct (FlagDuration_succeeds l H) as [e He].
  exists e. split; [exact He|]. split; [reflexivity|].
  cbn [Schema.from_msgpack Schema.fields Schema.new].
  unfold FlagDuration.from_msgpack in He.
  apply bind_ok in He as (f & E0 & He).
  apply bind_ok in He as (s & E1 & He).
  apply bind_ok in He as (t & E2 & He). injection He as <-.
  intros i Hi.
  do 3 (destruct i as [|i];
        [ cbn; f_equal;
          first [ beyond E0; reflexivity | beyond E1; reflexivity
                | beyond E2; reflexivity ] |]).
  reflexivity.
Qed.

Lemma Announcement_default_filled (l : list value) :
  Schema.well_typed_Announcement l = true ->
  Schema.default_filled Schema.TAnnouncement l.
Proof.
  intros H. destruct (Announcement_succeeds l H) as [e He].
  exists e. split; [exact He|]. split; [reflexivity|].
  cbn [Schema.from_msgpack Schema.fields Schema.new].
  rewrite Announcement_from_list in He.
  apply bind_ok in He as (ts & E0 & He). injection He as <-.
  intros i Hi.
  do 3 (destruct i as [|i];
        [ cbn; f_equal;
          first [ f_equal; apply nth_overflow; lia
                | beyond E0; reflexivity ] |]).
  reflexivity.
Qed.

Lemma CarPosition_default_filled (l : list value) :
  Schema.well_typed_CarPosition l = true ->
  Schema.default_filled Schema.TCarPosition l.
Proof.
  intros H. destruct (CarPosition_succeeds l H) as [e He].
  exists e. split; [exact He|]. split; [reflexivity|].
  cbn [Schema.from_msgpack Schema.fields Schema.new].
  apply CarPosition_decoded in He
    as (tf & lf & cs & lt & icv & E38 & E39 & E41 & E43 & E46 & ->).
  unfold Schema.CarPosition_of_array, CarPosition.new.
  rewrite !CarPosition_fields_init.
  intros i Hi.
  do 51 (destruct i as [|i];
         [ cbn [nth_error]; f_equal;
           first [ f_equal; apply nth_overflow; lia
                 | beyond E38; reflexivity | beyond E39; reflexivity
                 | beyond E41; reflexivity | beyond E43; reflexivity
                 | beyond E46; reflexivity ] |]).
  reflexivity.
Qed.

(** C3: for every array-form entity type and every input array whose
    supplied positions are well typed, [from_msgpack] succeeds and
    returns an entity whose fields at the indices the array does not
    supply (from its length on) are exactly the fields of the entity
    built from the declared defaults; this holds for every length, in
    particular for the truncated arrays of length 0 to N-1.  For a
    [CarPosition] the defaults are None for the nullable scalars, 0 for
    the counters, False for the booleans, "" for the names,
    [Flags.UNKNOWN] for the flags, [] for [completed_sections] and -999
    for the two positions-gained fields. *)
Theorem default_fill_on_truncation :
  (forall (ty : Schema.entity) (data : list value),
     Schema.well_typed ty data = true ->
     Schema.default_filled ty data) /\
  Schema.CarPosition_fields CarPosition.new =
    map Schema.FValue
      [VNone; VNone; VNone; VInt 0; VNone; VNone; VInt 0; VBool false;
       VBool false; VNone; VNone; VNone; VNone; VNone; VNone; VInt 0;
       VNone; VNone; VNone; VNone; VInt 0; VInt 0; VInt 0; VInt (-999);
       VInt 0; VInt (-999); VBool false; VBool false; VInt 0; VInt 0;
       VInt 0; VBool false; VBool false; VBool false; VBool false;
       VBool false; VStr ""; VBool false]
    ++ [Schema.FFlag Flags.UNKNOWN; Schema.FFlag Flags.UNKNOWN;
        Schema.FValue VNone; Schema.FSections []; Schema.FValue (VInt 0);
        Schema.FTime None; Schema.FValue (VStr ""); Schema.FValue (VStr "");
        Schema.FVideo None; Schema.FValue VNone; Schema.FValue VNone;
        Schema.FValue (VStr ""); Schema.FValue (VBool false)].
Proof.
  split; [|reflexivity].
  intros ty data.
  destruct ty; cbn [Schema.well_typed]; intros H.
  - apply VideoDestination_default_filled, H.
  - apply VideoStatus_default_filled, H.
  - apply CompletedSection_default_filled.
  - apply EventEntry_default_filled.
  - apply CarPosition_default_filled, H.
  - apply FlagDuration_default_filled, H.
  - apply Section_default_filled.
  - apply Announcement_default_filled, H.
Qed.


(** ** Round trip *)

Lemma or_empty_Some {A : Type} (l : list A) : or_empty (Some l) = l.
Proof. destruct l; reflexivity. Qed.

Lemma VideoDestination_roundtrip (x : VideoDestination.t) :
  VideoDestination.from_msgpack (VideoDestination.to_msgpack x) = Ok x.
Proof.
  destruct x as [ty u h p q]. unfold VideoDestination.to_msgpack.
  rewrite VideoDestination_from_list, item_with_list.
  cbn [nth_error nth VideoDestination.type VideoDestination.url
       VideoDestination.host_name VideoDestination.port
       VideoDestination.parameters].
  unfold VideoDestinationType.call. rewrite enum_call_int.
  rewrite VideoDestinationType_of_Z_int, bind_Ok_l. reflexivity.
Qed.

Lemma VideoStatus_roundtrip (x : VideoStatus.t) :
  VideoStatus.from_msgpack (VideoStatus.to_msgpack x) = Ok x.
Proof.
  destruct x as [st vd].
  unfold VideoStatus.to_msgpack, VideoStatus.from_msgpack.
  rewrite item_with_list, item_if_truthy_list.
  cbn [nth_error VideoStatus.video_system_type
       VideoStatus.video_destination].
  unfold VideoSystemType.call. rewrite enum_call_int.
  rewrite VideoSystemType_of_Z_int, bind_Ok_l.
  replace (truthy (VideoDestination.to_msgpack vd)) with true
    by reflexivity.
  rewrite VideoDestination_roundtrip, bind_Ok_l. reflexivity.
Qed.

Lemma CompletedSection_roundtrip (x : CompletedSection.t) :
  CompletedSection.from_msgpack (CompletedSection.to_msgpack x) = Ok x.
Proof.
  destruct x. unfold CompletedSection.to_msgpack.
  rewrite CompletedSection_from_list. reflexivity.
Qed.

Lemma EventEntry_roundtrip (x : EventEntry.t) :
  EventEntry.from_msgpack (EventEntry.to_msgpack x) = Ok x.
Proof.
  destruct x. unfold EventEntry.to_msgpack.
  rewrite EventEntry_from_list. reflexivity.
Qed.

Lemma Section_roundtrip (x : Section_.t) :
  Section_.from_msgpack (Section_.to_msgpack x) = Ok x.
Proof.
  destruct x. unfold Section_.to_msgpack.
  rewrite Section_from_list. reflexivity.
Qed.

Lemma parse_datetime_iso (Laws : DateTimeLaws L) (o : option datetime) :
  _parse_datetime (datetime_iso_or_none o) = Ok o.
Proof.
  destruct o as [d|]; cbn [datetime_iso_or_none _parse_datetime].
  - rewrite datetime_iso_roundtrip, bind_Ok_l. reflexivity.
  - reflexivity.
Qed.

Lemma parse_time_iso (Laws : DateTimeLaws L) (o : option time) :
  _parse_time (time_iso_or_none o) = Ok o.
Proof.
  destruct o as [t|]; cbn [time_iso_or_none _parse_time].
  - rewrite time_iso_roundtrip, bind_Ok_l. reflexivity.
  - reflexivity.
Qed.

Lemma FlagDuration_roundtrip (Laws : DateTimeLaws L) (x : FlagDuration.t) :
  FlagDuration.from_msgpack (FlagDuration.to_msgpack x) = Ok x.
Proof.
  destruct x as [f s e].
  unfold FlagDuration.to_msgpack, FlagDuration.from_msgpack.
  rewrite !item_with_list.
  cbn [nth_error FlagDuration.flag FlagDuration.start_time
       FlagDuration.end_time].
  unfold Flags.call. rewrite enum_call_int, Flags_of_Z_int, bind_Ok_l.
  rewrite !(parse_datetime_iso Laws), !bind_Ok_l. reflexivity.
Qed.

Lemma Announcement_roundtrip (Laws : DateTimeLaws L) (x : Announcement.t) :
  Announcement.from_msgpack (Announcement.to_msgpack x) = Ok x.
Proof.
  destruct x as [ts p t]. unfold Announcement.to_msgpack.
  rewrite Announcement_from_list, item_with_list.
  cbn [nth_error nth Announcement.timestamp Announcement.priority
       Announcement.text].
  rewrite (parse_datetime_iso Laws), bind_Ok_l. reflexivity.
Qed.

Lemma decode_each_map {A : Type} (decode : value -> result A)
    (encode : A -> value) (xs : list A) :
  (forall x, decode (encode x) = Ok x) ->
  SessionState.decode_each decode (VList (map encode xs)) = Ok xs.
Proof.
  intros H. unfold SessionState.decode_each. cbn [py_iter].
  rewrite bind_Ok_l.
  rewrite (mapM_map decode encode xs (fun x => x)) by (intros; apply H).
  rewrite map_id. reflexivity.
Qed.

Lemma CompletedSections_roundtrip (cs : list CompletedSection.t) :
  (if truthy (VList (map CompletedSection.to_msgpack cs))
   then ys <- py_iter (VList (map CompletedSection.to_msgpack cs)) ;;
        mapM CompletedSection.from_msgpack ys
   else Ok []) = Ok cs.
Proof.
  destruct cs as [|c cs]; [reflexivity|].
  replace (truthy (VList (map CompletedSection.to_msgpack (c :: cs))))
    with true by reflexivity.
  apply (decode_each_map CompletedSection.from_msgpack
           CompletedSection.to_msgpack (c :: cs)).
  apply CompletedSection_roundtrip.
Qed.

Lemma in_car_video_roundtrip (o : option VideoStatus.t) :
  (if truthy (CarPosition.video_or_none o)
   then vs <- VideoStatus.from_msgpack (CarPosition.video_or_none o) ;;
        Ok (Some vs)
   else Ok None) = Ok o.
Proof.
  destruct o as [v|]; [|reflexivity].
  replace (truthy (CarPosition.video_or_none (Some v))) with true
    by reflexivity.
  cbn [CarPosition.video_or_none].
  rewrite VideoStatus_roundtrip, bind_Ok_l. reflexivity.
Qed.

Lemma CarPosition_roundtrip (Laws : DateTimeLaws L) (x : CarPosition.t) :
  CarPosition.from_msgpack (CarPosition.to_msgpack x) = Ok x.
Proof.
  unfold CarPosition.to_msgpack. rewrite CarPosition_from_list.
  rewrite !item_with_list, !item_if_truthy_list.
  cbn [nth_error].
  unfold Flags.call. rewrite !enum_call_int, !Flags_of_Z_int, !bind_Ok_l.
  rewrite CompletedSections_roundtrip, bind_Ok_l.
  rewrite (parse_time_iso Laws), bind_Ok_l.
  rewrite in_car_video_roundtrip, bind_Ok_l.
  unfold Schema.CarPosition_of_array, CarPosition.init.
  rewrite or_empty_Some. destruct x. reflexivity.
Qed.


Lemma or_empty_dict_dict (v : value) :
  Schema.is_dict v = true -> SessionState.or_empty_dict v = v.
Proof.
  destruct v; try discriminate. intros _.
  destruct d; reflexivity.
Qed.

Lemma SessionState_roundtrip (Laws : DateTimeLaws L) (s : SessionState.t) :
  Schema.is_dict (SessionState.class_colors s) = true ->
  SessionState.from_msgpack_dict (SessionState.to_msgpack_dict s) = Ok s.
Proof.
  intros Hcc. unfold SessionState.from_msgpack_dict.
  cbv [get SessionState.to_msgpack_dict dict_get key_eqb Z.eqb Pos.eqb].
  rewrite !(parse_datetime_iso Laws), !bind_Ok_l.
  rewrite (decode_each_map _ _ _ EventEntry_roundtrip), bind_Ok_l.
  rewrite (decode_each_map _ _ _ (CarPosition_roundtrip Laws)), bind_Ok_l.
  unfold Flags.call. rewrite enum_call_int, Flags_of_Z_int, bind_Ok_l.
  rewrite (decode_each_map _ _ _ (FlagDuration_roundtrip Laws)), bind_Ok_l.
  rewrite (decode_each_map _ _ _ Section_roundtrip), bind_Ok_l.
  rewrite (decode_each_map _ _ _ (Announcement_roundtrip Laws)), bind_Ok_l.
  unfold SessionState.init. rewrite !or_empty_Some.
  rewrite (or_empty_dict_dict _ Hcc). destruct s. reflexivity.
Qed.

(** C2: decoding the encoding of an entity yields the entity, field for
    field: through [to_msgpack]/[from_msgpack] for every array-form
    entity type, and through [to_msgpack_dict]/[from_msgpack_dict] for a
    [SessionState] whose [class_colors] is populated with a dict.  The
    date and time library is assumed to parse the ISO text it prints. *)
Theorem encode_decode_roundtrip (Laws : DateTimeLaws L) :
  (forall (ty : Schema.entity) (e : Schema.carrier ty),
     Schema.from_msgpack ty (Schema.to_msgpack ty e) = Ok e) /\
  (forall s : SessionState.t,
     Schema.is_dict (SessionState.class_colors s) = true ->
     SessionState.from_msgpack_dict (SessionState.to_msgpack_dict s) = Ok s).
Proof.
  split.
  - intros ty e.
    destruct ty; cbn [Schema.from_msgpack Schema.to_msgpack Schema.carrier] in *.
    + apply VideoDestination_roundtrip.
    + apply VideoStatus_roundtrip.
    + apply CompletedSection_roundtrip.
    + apply EventEntry_roundtrip.
    + apply (CarPosition_roundtrip Laws).
    + apply (FlagDuration_roundtrip Laws).
    + apply Section_roundtrip.
    + apply (Announcement_roundtrip Laws).
  - intros s. apply (SessionState_roundtrip Laws).
Qed.


(** ** The positions-gained sentinel *)

Lemma supplied_beyond (check : value -> bool) (l : list value) (i : nat) :
  List.length l <= i -> Schema.supplied check l i = true.
Proof.
  intros H. unfold Schema.supplied.
  apply nth_error_None in H. rewrite H. reflexivity.
Qed.

Lemma well_typed_CarPosition_short (l : list value) :
  List.length l <= 38 -> Schema.well_typed_CarPosition l = true.
Proof.
  intros H. unfold Schema.well_typed_CarPosition.
  rewrite !supplied_beyond by lia. reflexivity.
Qed.

Lemma CarPosition_decodes_to (l : list value) :
  Schema.well_typed_CarPosition l = true ->
  exists c track_flag local_flag completed_sections lap_start_time
         in_car_video,
    CarPosition.from_msgpack (VList l) = Ok c /\
    c = Schema.CarPosition_of_array l track_flag local_flag
          completed_sections lap_start_time in_car_video.
Proof.
  intros H. destruct (CarPosition_succeeds l H) as [c Hc].
  destruct (CarPosition_decoded l Hc)
    as (tf & lf & cs & lt & icv & _ & _ & _ & _ & _ & E).
  exists c, tf, lf, cs, lt, icv. split; assumption.
Qed.

(** C6: a [CarPosition] array of length at most 23 decodes, with
    [overall_positions_gained] equal to -999; an array that supplies the
    explicit value 0 at index 23 decodes to 0, which is not -999; and
    likewise for [in_class_positions_gained] at index 25. *)
Theorem positions_gained_sentinel :
  (forall l : list value,
     List.length l <= 23 ->
     exists c, CarPosition.from_msgpack (VList l) = Ok c /\
               CarPosition.overall_positions_gained c = VInt (-999)) /\
  (forall l : list value,
     Schema.well_typed_CarPosition l = true ->
     nth_error l 23 = Some (VInt 0) ->
     exists c, CarPosition.from_msgpack (VList l) = Ok c /\
               CarPosition.overall_positions_gained c = VInt 0) /\
  (forall l : list value,
     List.length l <= 25 ->
     exists c, CarPosition.from_msgpack (VList l) = Ok c /\
               CarPosition.in_class_positions_gained c = VInt (-999)) /\
  (forall l : list value,
     Schema.well_typed_CarPosition l = true ->
     nth_error l 25 = Some (VInt 0) ->
     exists c, CarPosition.from_msgpack (VList l) = Ok c /\
               CarPosition.in_class_positions_gained c = VInt 0) /\
  VInt 0 <> VInt (-999) /\
  CarPosition.INVALID_POSITION = (-999)%Z.
Proof.
  repeat split.
  - intros l Hl.
    destruct (CarPosition_decodes_to l (well_typed_CarPosition_short l
                ltac:(lia))) as (c & tf & lf & cs & lt & icv & Hc & ->).
    eexists. split; [exact Hc|].
    cbn [Schema.CarPosition_of_array CarPosition.init
         CarPosition.overall_positions_gained].
    apply nth_overflow. exact Hl.
  - intros l Hwt H23.
    destruct (CarPosition_decodes_to l Hwt)
      as (c & tf & lf & cs & lt & icv & Hc & ->).
    eexists. split; [exact Hc|].
    cbn [Schema.CarPosition_of_array CarPosition.init
         CarPosition.overall_positions_gained].
    apply nth_error_nth. exact H23.
  - intros l Hl.
    destruct (CarPosition_decodes_to l (well_typed_CarPosition_short l
                ltac:(lia))) as (c & tf & lf & cs & lt & icv & Hc & ->).
    eexists. split; [exact Hc|].
    cbn [Schema.CarPosition_of_array CarPosition.init
         CarPosition.in_class_positions_gained].
    apply nth_overflow. exact Hl.
  - intros l Hwt H25.
    destruct (CarPosition_decodes_to l Hwt)
      as (c & tf & lf & cs & lt & icv & Hc & ->).
    eexists. split; [exact Hc|].
    cbn [Schema.CarPosition_of_array CarPosition.init
         CarPosition.in_class_positions_gained].
    apply nth_error_nth. exact H25.
  - discriminate.
Qed.

(** ** The session scenario *)

(** C7: decoding [{0: 2, 1: "Test Race", 15: 1}] succeeds and yields a
    [SessionState] with [laps_to_go == 0], [event_entries == []] and
    [current_flag == Flags.GREEN] (value 1); the result is the entity the
    constructor builds from the three supplied values and the declared
    defaults of every other parameter. *)
Theorem decode_scenario_session :
  exists s : SessionState.t,
    SessionState.from_msgpack_dict scenario_session = Ok s /\
    SessionState.laps_to_go s = VInt 0 /\
    SessionState.event_entries s = [] /\
    SessionState.current_flag s = Flags.GREEN /\
    Flags.int Flags.GREEN = 1%Z /\
    s = SessionState.init (VInt 2) (VStr "Test Race") (VInt 0) (VStr "")
          (VInt 0) (VStr "") (VStr "") (VStr "") (VBool false) None None
          SessionState.float_zero (VBool false) None None Flags.GREEN None
          VNone VNone VNone VNone VNone VNone VNone VNone None VNone None
          None.
Proof.
  eexists. split; [reflexivity|]. repeat split.
Qed.

(** ** Array form and map form *)

(** C8: at the decode boundary of the callers an array is converted to
    the map [{i: l[i]}] and decoded by [from_msgpack_dict]; the array and
    that map therefore decode to the same result, both are passed to the
    decoder, and the map holds at every position what the array holds
    there (the default beyond its length). *)
Theorem array_and_map_forms_agree (l : list value) :
  Main.decode_session_state (VList l) =
    SessionState.from_msgpack_dict (enumerate_dict l) /\
  Main.decode_session_state (VDict (enumerate_dict l)) =
    Main.decode_session_state (VList l) /\
  Hub.car_dict_of (VList l) = Some (enumerate_dict l) /\
  (forall (i : nat) (default : value),
     get (enumerate_dict l) (Z.of_nat i) default = nth i l default).
Proof.
  repeat split. intros i d. apply get_enumerate_dict.
Qed.


(** ** Null and absent keys of a session map *)

Lemma get_null (d : dict) (k : Z) (default : value) :
  null_at d k -> get d k default = VNone.
Proof. unfold null_at, get. intros ->. reflexivity. Qed.

Lemma get_absent (d : dict) (k : Z) (default : value) :
  absent_at d k -> get d k default = default.
Proof. unfold absent_at, get. intros ->. reflexivity. Qed.

Lemma raises_bind_cases {A B : Type} (r : result A) (k : A -> result B) :
  (forall a, r = Ok a -> raises (k a)) -> raises (bind r k).
Proof.
  intros H. destruct r as [a|e].
  - rewrite bind_Ok_l. apply (H a eq_refl).
  - exists e. reflexivity.
Qed.

Lemma decode_each_None {A : Type} (decode : value -> result A) :
  SessionState.decode_each decode VNone = Raise TypeError.
Proof. reflexivity. Qed.

Lemma decode_each_nil {A : Type} (decode : value -> result A) :
  SessionState.decode_each decode (VList []) = Ok [].
Proof. reflexivity. Qed.

Lemma Flags_call_None : Flags.call VNone = Raise ValueError.
Proof. reflexivity. Qed.

Lemma Flags_call_zero : Flags.call (VInt 0) = Ok Flags.UNKNOWN.
Proof. reflexivity. Qed.

(** Walk down the binds of a decoder: an argument that raises ends the
    walk, an argument that returns is stepped over. *)
Ltac raise_walk :=
  repeat first
    [ solve [ apply bind_raises; eexists; reflexivity ]
    | apply raises_bind_cases; intros ? _ ].

Lemma null_key_raises (d : dict) (k : Z) :
  In k [13; 14; 15; 16; 25; 27]%Z -> null_at d k ->
  raises (SessionState.from_msgpack_dict d).
Proof.
  intros Hk Hnull. unfold SessionState.from_msgpack_dict. cbv zeta.
  cbn [In] in Hk.
  destruct Hk as [<-|[<-|[<-|[<-|[<-|[<-|[]]]]]]];
    match goal with
    | H : null_at d ?k |- _ =>
        match goal with
        | |- context [get d k ?default] =>
            rewrite (get_null default H)
        end
    end;
    rewrite ?decode_each_None, ?Flags_call_None; raise_walk.
Qed.

Lemma absent_keys_default (d : dict)
    (t9 t10 t28 : option datetime) :
  absent_at d 13 -> absent_at d 14 -> absent_at d 15 ->
  absent_at d 16 -> absent_at d 25 -> absent_at d 27 ->
  _parse_datetime (get d 9 VNone) = Ok t9 ->
  _parse_datetime (get d 10 VNone) = Ok t10 ->
  _parse_datetime (get d 28 VNone) = Ok t28 ->
  exists s : SessionState.t,
    SessionState.from_msgpack_dict d = Ok s /\
    SessionState.current_flag s = Flags.UNKNOWN /\
    SessionState.event_entries s = [] /\
    SessionState.car_positions s = [] /\
    SessionState.flag_durations s = [] /\
    SessionState.sections s = [] /\
    SessionState.announcements s = [].
Proof.
  intros A13 A14 A15 A16 A25 A27 H9 H10 H28.
  unfold SessionState.from_msgpack_dict. cbv zeta.
  rewrite (get_absent _ A13), (get_absent _ A14), (get_absent _ A15),
    (get_absent _ A16), (get_absent _ A25), (get_absent _ A27).
  rewrite H9, H10, H28, !decode_each_nil, Flags_call_zero, !bind_Ok_l.
  eexists. split; [reflexivity|]. repeat split.
Qed.

(** C10: in the map form a key that is present with value null is not
    the same as an absent key.  If key 15 or one of the sequence keys
    13, 14, 16, 25, 27 maps to null, [from_msgpack_dict] raises an
    exception; if those keys are absent (and the date-time keys 9, 10
    and 28 parse), it returns a [SessionState] with [Flags.UNKNOWN] and
    empty lists. *)
Theorem null_key_is_not_absent_key (d : dict) :
  (null_at d 15 \/ null_at d 13 \/ null_at d 14 \/ null_at d 16 \/
   null_at d 25 \/ null_at d 27 ->
   raises (SessionState.from_msgpack_dict d)) /\
  (absent_at d 15 -> absent_at d 13 -> absent_at d 14 ->
   absent_at d 16 -> absent_at d 25 -> absent_at d 27 ->
   succeeds (_parse_datetime (get d 9 VNone)) ->
   succeeds (_parse_datetime (get d 10 VNone)) ->
   succeeds (_parse_datetime (get d 28 VNone)) ->
   exists s : SessionState.t,
     SessionState.from_msgpack_dict d = Ok s /\
     SessionState.current_flag s = Flags.UNKNOWN /\
     SessionState.event_entries s = [] /\
     SessionState.car_positions s = [] /\
     SessionState.flag_durations s = [] /\
     SessionState.sections s = [] /\
     SessionState.announcements s = []).
Proof.
  split.
  - intros [H|[H|[H|[H|[H|H]]]]];
      (eapply null_key_raises; [|exact H]); cbn [In]; tauto.
  - intros A15 A13 A14 A16 A25 A27 [t9 H9] [t10 H10] [t28 H28].
    exact (absent_keys_default A13 A14 A15 A16 A25 A27 H9 H10 H28).
Qed.


(** ** Unknown enum values *)







Lemma mapM_raises {A B : Type} (f : A -> result B) (xs : list A) (x : A) :
  In x xs -> raises (f x) -> raises (mapM f xs).
Proof.
  induction xs as [|y xs IH]; intros Hin Hx; [destruct Hin|].
  cbn [mapM]. destruct Hin as [->|Hin].
  - apply bind_raises, Hx.
  - apply raises_bind_cases. intros b _.
    apply bind_raises, IH; assumption.
Qed.




(** ** Nested records that are null or absent *)

Lemma nth_error_absent_or_null (l : list value) (i : nat) :
  nth_error l i = None \/ nth_error l i = Some VNone ->
  forall (A : Type) (conv : value -> result A) (d : A),
    item_if_truthy (VList l) i conv d = Ok d.
Proof.
  intros H A conv d. rewrite item_if_truthy_list.
  destruct H as [->| ->]; reflexivity.
Qed.

(** C5, amended: a null or absent [in_car_video] (index 46 of a
    [CarPosition]) decodes to no value, [None]; a null or absent
    [VideoDestination] (index 1 of a [VideoStatus]) decodes to the
    [VideoDestination] built from the declared defaults. *)
Theorem null_nested_record_decoding :
  (forall l : list value,
     Schema.well_typed_CarPosition l = true ->
     nth_error l 46 = None \/ nth_error l 46 = Some VNone ->
     exists c, CarPosition.from_msgpack (VList l) = Ok c /\
               CarPosition.in_car_video c = None) /\
  (forall l : list value,
     Schema.well_typed_VideoStatus l = true ->
     nth_error l 1 = None \/ nth_error l 1 = Some VNone ->
     exists s, VideoStatus.from_msgpack (VList l) = Ok s /\
               VideoStatus.video_destination s = VideoDestination.new) /\
  VideoDestination.new =
    VideoDestination.mk VideoDestinationType.NONE (VStr "") (VStr "")
      (VInt 0) (VStr "").
Proof.
  repeat split.
  - intros l Hwt H46. destruct (CarPosition_succeeds l Hwt) as [c Hc].
    exists c. split; [exact Hc|].
    apply CarPosition_decoded in Hc
      as (tf & lf & cs & lt & icv & _ & _ & _ & _ & E46 & ->).
    rewrite (@nth_error_absent_or_null l 46 H46) in E46.
    injection E46 as <-. reflexivity.
  - intros l Hwt H1. destruct (VideoStatus_succeeds l Hwt) as [s Hs].
    exists s. split; [exact Hs|].
    unfold VideoStatus.from_msgpack in Hs.
    apply bind_ok in Hs as (st & _ & Hs).
    apply bind_ok in Hs as (vd & E1 & Hs).
    rewrite (@nth_error_absent_or_null l 1 H1) in E1.
    injection E1 as <-. injection Hs as <-. reflexivity.
Qed.


(** ** Collections are never None *)

Lemma or_empty_or_default {A : Type} (o : option (list A)) :
  or_empty o = or_default o [].
Proof. destruct o as [[|x l]|]; reflexivity. Qed.

Lemma or_empty_dict_not_None (v : value) :
  SessionState.or_empty_dict v <> VNone.
Proof.
  unfold SessionState.or_empty_dict.
  destruct (truthy v) eqn:Ht; [|discriminate].
  intros ->. discriminate Ht.
Qed.

Lemma or_empty_dict_is_dict (v : value) :
  v = VNone \/ Schema.is_dict v = true ->
  Schema.is_dict (SessionState.or_empty_dict v) = true.
Proof.
  intros [->|H]; [reflexivity|].
  rewrite (or_empty_dict_dict v H). exact H.
Qed.

Lemma or_empty_dict_is_dict_iff (v : value) :
  Schema.is_dict (SessionState.or_empty_dict v) = true <->
  truthy v = false \/ Schema.is_dict v = true.
Proof.
  unfold SessionState.or_empty_dict.
  destruct (truthy v) eqn:Ht.
  - split; [intros H; right; exact H | intros [H|H]; [discriminate H|exact H]].
  - split; [intros _; left; reflexivity | intros _; reflexivity].
Qed.

Lemma SessionState_decoded_class_colors (d : dict) (s : SessionState.t) :
  SessionState.from_msgpack_dict d = Ok s ->
  SessionState.class_colors s =
  SessionState.or_empty_dict (get d 26 (VDict [])).
Proof.
  unfold SessionState.from_msgpack_dict. cbv zeta. intros H.
  repeat (apply bind_ok in H as (? & _ & H)).
  injection H as <-. reflexivity.
Qed.

(** C9, amended: the collection fields are never None.  The
    constructors store the list they are given and the empty list when
    they are given None, so [event_entries], [car_positions],
    [flag_durations], [sections], [announcements] and
    [CarPosition.completed_sections] are lists.  [class_colors] is never
    None, but it is a dict only when the argument is a dict or is false
    in a condition (None among them): any other argument is stored as it
    is.  The same holds of a decoded [SessionState], whose
    [class_colors] is a dict exactly when the value read at key 26 is a
    dict or false in a condition, which covers an absent and a null key,
    and of a decoded [CarPosition], whose [completed_sections] is the
    empty list when index 41 is absent or null. *)
Theorem collections_are_never_none :
  (forall
     (event_id event_name session_id session_name laps_to_go time_to_go
      local_time_of_day running_race_time is_practice_qualifying : value)
     (session_start_time session_end_time : option datetime)
     (local_time_zone_offset is_live : value)
     (event_entries : option (list EventEntry.t))
     (car_positions : option (list CarPosition.t))
     (current_flag : Flags.t)
     (flag_durations : option (list FlagDuration.t))
     (green_time_ms green_laps yellow_time_ms yellow_laps number_of_yellows
      red_time_ms average_race_speed lead_changes : value)
     (sections : option (list Section_.t))
     (class_colors : value)
     (announcements : option (list Announcement.t))
     (last_updated : option datetime),
     let s :=
       SessionState.init
          event_id event_name session_id session_name laps_to_go
          time_to_go local_time_of_day running_race_time
          is_practice_qualifying session_start_time session_end_time
          local_time_zone_offset is_live event_entries car_positions
          current_flag flag_durations green_time_ms green_laps
          yellow_time_ms yellow_laps number_of_yellows red_time_ms
          average_race_speed lead_changes sections class_colors
          announcements last_updated in
     SessionState.event_entries s = or_default event_entries [] /\
     SessionState.car_positions s = or_default car_positions [] /\
     SessionState.flag_durations s = or_default flag_durations [] /\
     SessionState.sections s = or_default sections [] /\
     SessionState.announcements s = or_default announcements [] /\
     SessionState.class_colors s <> VNone /\
     (class_colors = VNone \/ Schema.is_dict class_colors = true ->
      Schema.is_dict (SessionState.class_colors s) = true) /\
     (Schema.is_dict (SessionState.class_colors s) = true <->
      truthy class_colors = false \/ Schema.is_dict class_colors = true)) /\
  (forall
     (event_id : value) (session_id : value) (number : value)
     (transponder_id : value) (car_class : value) (best_time : value)
     (best_lap : value) (is_best_time : value)
     (is_best_time_class : value) (in_class_gap : value)
     (in_class_difference : value) (overall_gap : value)
     (overall_difference : value) (total_time : value)
     (last_lap_time : value) (last_lap_completed : value)
     (pit_stop_count : value) (last_lap_pitted : value)
     (laps_led_overall : value) (laps_led_in_class : value)
     (overall_position : value) (class_position : value)
     (overall_starting_position : value)
     (overall_positions_gained : value)
     (in_class_starting_position : value)
     (in_class_positions_gained : value)
     (is_overall_most_positions_gained : value)
     (is_class_most_positions_gained : value) (penalty_laps : value)
     (penalty_warnings : value) (black_flags : value)
     (is_entered_pit : value) (is_pit_start_finish : value)
     (is_exited_pit : value) (is_in_pit : value)
     (lap_included_pit : value) (last_loop_name : value)
     (is_stale : value) (track_flag : Flags.t) (local_flag : Flags.t)
     (lap_had_local_flag : value)
     (completed_sections : option (list CompletedSection.t))
     (projected_lap_time_ms : value) (lap_start_time : option time)
     (driver_name : value) (driver_id : value)
     (in_car_video : option VideoStatus.t) (latitude : value)
     (longitude : value) (current_status : value) (impact_warning : value),
     CarPosition.completed_sections
       (CarPosition.init event_id session_id number transponder_id
          car_class best_time best_lap is_best_time is_best_time_class
          in_class_gap in_class_difference overall_gap overall_difference
          total_time last_lap_time last_lap_completed pit_stop_count
          last_lap_pitted laps_led_overall laps_led_in_class
          overall_position class_position overall_starting_position
          overall_positions_gained in_class_starting_position
          in_class_positions_gained is_overall_most_positions_gained
          is_class_most_positions_gained penalty_laps penalty_warnings
          black_flags is_entered_pit is_pit_start_finish is_exited_pit
          is_in_pit lap_included_pit last_loop_name is_stale track_flag
          local_flag lap_had_local_flag completed_sections
          projected_lap_time_ms lap_start_time driver_name driver_id
          in_car_video latitude longitude current_status impact_warning)
     = or_default completed_sections []) /\
  (forall (d : dict) (s : SessionState.t),
     SessionState.from_msgpack_dict d = Ok s ->
     SessionState.class_colors s <> VNone /\
     (absent_at d 26 \/ null_at d 26 \/
      Schema.is_dict (get d 26 (VDict [])) = true ->
      Schema.is_dict (SessionState.class_colors s) = true) /\
     (Schema.is_dict (SessionState.class_colors s) = true <->
      truthy (get d 26 (VDict [])) = false \/
      Schema.is_dict (get d 26 (VDict [])) = true)) /\
  (forall (l : list value) (c : CarPosition.t),
     CarPosition.from_msgpack (VList l) = Ok c ->
     nth_error l 41 = None \/ nth_error l 41 = Some VNone ->
     CarPosition.completed_sections c = []).
Proof.
  split; [|split; [|split]].
  - intros. subst s. unfold SessionState.init.
    cbn [SessionState.event_entries SessionState.car_positions
         SessionState.flag_durations SessionState.sections
         SessionState.announcements SessionState.class_colors].
    rewrite !or_empty_or_default.
    do 5 (split; [reflexivity|]).
    split; [apply or_empty_dict_not_None|].
    split; [apply or_empty_dict_is_dict | apply or_empty_dict_is_dict_iff].
  - intros. unfold CarPosition.init.
    cbn [CarPosition.completed_sections].
    apply or_empty_or_default.
  - intros d s H.
    rewrite (SessionState_decoded_class_colors d H). split; [|split].
    + apply or_empty_dict_not_None.
    + intros [Ha|[Hn|Hd]]; apply or_empty_dict_is_dict.
      * right. rewrite (get_absent _ Ha). reflexivity.
      * left. apply (get_null _ Hn).
      * right. exact Hd.
    + apply or_empty_dict_is_dict_iff.
  - intros l c Hc H41.
    apply CarPosition_decoded in Hc
      as (tf & lf & cs & lt & icv & _ & _ & E41 & _ & _ & ->).
    rewrite (@nth_error_absent_or_null l 41 H41) in E41.
    injection E41 as <-. reflexivity.
Qed.

(** ** Patch reconciliation *)

Lemma CarPosition_fields_set_field (i : nat) (f : Schema.field)
    (target : CarPosition.t) :
  Schema.CarPosition_fields (Reconciler.set_field i f target) =
  [
    Schema.FValue (Reconciler.upd_value i 0 f (CarPosition.event_id target));
    Schema.FValue (Reconciler.upd_value i 1 f (CarPosition.session_id target));
    Schema.FValue (Reconciler.upd_value i 2 f (CarPosition.number target));
    Schema.FValue (Reconciler.upd_value i 3 f (CarPosition.transponder_id target));
    Schema.FValue (Reconciler.upd_value i 4 f (CarPosition.car_class target));
    Schema.FValue (Reconciler.upd_value i 5 f (CarPosition.best_time target));
    Schema.FValue (Reconciler.upd_value i 6 f (CarPosition.best_lap target));
    Schema.FValue (Reconciler.upd_value i 7 f (CarPosition.is_best_time target));
    Schema.FValue (Reconciler.upd_value i 8 f (CarPosition.is_best_time_class target));
    Schema.FValue (Reconciler.upd_value i 9 f (CarPosition.in_class_gap target));
    Schema.FValue (Reconciler.upd_value i 10 f (CarPosition.in_class_difference target));
    Schema.FValue (Reconciler.upd_value i 11 f (CarPosition.overall_gap target));
    Schema.FValue (Reconciler.upd_value i 12 f (CarPosition.overall_difference target));
    Schema.FValue (Reconciler.upd_value i 13 f (CarPosition.total_time target));
    Schema.FValue (Reconciler.upd_value i 14 f (CarPosition.last_lap_time target));
    Schema.FValue (Reconciler.upd_value i 15 f (CarPosition.last_lap_completed target));
    Schema.FValue (Reconciler.upd_value i 16 f (CarPosition.pit_stop_count target));
    Schema.FValue (Reconciler.upd_value i 17 f (CarPosition.last_lap_pitted target));
    Schema.FValue (Reconciler.upd_value i 18 f (CarPosition.laps_led_overall target));
    Schema.FValue (Reconciler.upd_value i 19 f (CarPosition.laps_led_in_class target));
    Schema.FValue (Reconciler.upd_value i 20 f (CarPosition.overall_position target));
    Schema.FValue (Reconciler.upd_value i 21 f (CarPosition.class_position target));
    Schema.FValue (Reconciler.upd_value i 22 f (CarPosition.overall_starting_position target));
    Schema.FValue (Reconciler.upd_value i 23 f (CarPosition.overall_positions_gained target));
    Schema.FValue (Reconciler.upd_value i 24 f (CarPosition.in_class_starting_position target));
    Schema.FValue (Reconciler.upd_value i 25 f (CarPosition.in_class_positions_gained target));
    Schema.FValue (Reconciler.upd_value i 26 f (CarPosition.is_overall_most_positions_gained target));
    Schema.FValue (Reconciler.upd_value i 27 f (CarPosition.is_class_most_positions_gained target));
    Schema.FValue (Reconciler.upd_value i 28 f (CarPosition.penalty_laps target));
    Schema.FValue (Reconciler.upd_value i 29 f (CarPosition.penalty_warnings target));
    Schema.FValue (Reconciler.upd_value i 30 f (CarPosition.black_flags target));
    Schema.FValue (Reconciler.upd_value i 31 f (CarPosition.is_entered_pit target));
    Schema.FValue (Reconciler.upd_value i 32 f (CarPosition.is_pit_start_finish target));
    Schema.FValue (Reconciler.upd_value i 33 f (CarPosition.is_exited_pit target));
    Schema.FValue (Reconciler.upd_value i 34 f (CarPosition.is_in_pit target));
    Schema.FValue (Reconciler.upd_value i 35 f (CarPosition.lap_included_pit target));
    Schema.FValue (Reconciler.upd_value i 36 f (CarPosition.last_loop_name target));
    Schema.FValue (Reconciler.upd_value i 37 f (CarPosition.is_stale target));
    Schema.FFlag (Reconciler.upd_flag i 38 f (CarPosition.track_flag target));
    Schema.FFlag (Reconciler.upd_flag i 39 f (CarPosition.local_flag target));
    Schema.FValue (Reconciler.upd_value i 40 f (CarPosition.lap_had_local_flag target));
    Schema.FSections (Reconciler.upd_sections i 41 f (CarPosition.completed_sections target));
    Schema.FValue (Reconciler.upd_value i 42 f (CarPosition.projected_lap_time_ms target));
    Schema.FTime (Reconciler.upd_time i 43 f (CarPosition.lap_start_time target));
    Schema.FValue (Reconciler.upd_value i 44 f (CarPosition.driver_name target));
    Schema.FValue (Reconciler.upd_value i 45 f (CarPosition.driver_id target));
    Schema.FVideo (Reconciler.upd_video i 46 f (CarPosition.in_car_video target));
    Schema.FValue (Reconciler.upd_value i 47 f (CarPosition.latitude target));
    Schema.FValue (Reconciler.upd_value i 48 f (CarPosition.longitude target));
    Schema.FValue (Reconciler.upd_value i 49 f (CarPosition.current_status target));
    Schema.FValue (Reconciler.upd_value i 50 f (CarPosition.impact_warning target)) ].
Proof. reflexivity. Qed.


Ltac unfold_upd :=
  unfold Reconciler.upd_value, Reconciler.upd_flag,
    Reconciler.upd_sections, Reconciler.upd_time, Reconciler.upd_video.

Lemma set_field_frame (i j : nat) (f : Schema.field)
    (target : CarPosition.t) :
  i <> j ->
  nth_error (Schema.CarPosition_fields (Reconciler.set_field i f target)) j =
  nth_error (Schema.CarPosition_fields target) j.
Proof.
  intros Hij. rewrite CarPosition_fields_set_field.
  unfold Schema.CarPosition_fields.
  do 51 (destruct j as [|j];
         [ cbn [nth_error]; unfold_upd;
           match goal with
           | |- context [Nat.eqb i ?k] =>
               destruct (Nat.eqb_spec i k); [lia | reflexivity]
           end |]).
  reflexivity.
Qed.

Lemma set_field_present (i : nat) (v : value) (f : Schema.field)
    (t0 target : CarPosition.t) :
  i < 51 ->
  Reconciler.present_field i v t0 = Ok f ->
  nth_error (Schema.CarPosition_fields (Reconciler.set_field i f target)) i =
  Some f.
Proof.
  intros Hi Hp. rewrite CarPosition_fields_set_field.
  do 51 (destruct i as [|i];
         [ cbn [nth_error]; unfold Reconciler.present_field in Hp;
           first [ injection Hp as <-; reflexivity
                 | apply bind_ok in Hp as (? & _ & Hp);
                   injection Hp as <-; reflexivity ] |]).
  lia.
Qed.

Lemma present_field_scalar (i : nat) (v : value) (target : CarPosition.t) :
  ~ In i [38; 39; 41; 43; 46] ->
  Reconciler.present_field i v target = Ok (Schema.FValue v).
Proof.
  intros Hi. cbn [In] in Hi.
  do 47 (destruct i as [|i]; [first [reflexivity | exfalso; tauto]|]).
  reflexivity.
Qed.

Lemma present_field_ext (i : nat) (v : value) (t1 t2 : CarPosition.t) :
  (i = 46 -> CarPosition.in_car_video t1 = CarPosition.in_car_video t2) ->
  Reconciler.present_field i v t1 = Reconciler.present_field i v t2.
Proof.
  intros H.
  do 47 (destruct i as [|i];
         [first [reflexivity
                | unfold Reconciler.present_field;
                  rewrite (H eq_refl); reflexivity]|]).
  reflexivity.
Qed.

Lemma fields_in_car_video (t1 t2 : CarPosition.t) :
  nth_error (Schema.CarPosition_fields t1) 46 =
  nth_error (Schema.CarPosition_fields t2) 46 ->
  CarPosition.in_car_video t1 = CarPosition.in_car_video t2.
Proof.
  unfold Schema.CarPosition_fields. cbn [nth_error].
  intros H. injection H as H. exact H.
Qed.

Lemma merge_index_frame (patch : dict) (target target' : CarPosition.t)
    (i j : nat) :
  Reconciler.merge_index patch target i = Ok target' ->
  i <> j \/ Reconciler.patch_field patch i = None ->
  nth_error (Schema.CarPosition_fields target') j =
  nth_error (Schema.CarPosition_fields target) j.
Proof.
  unfold Reconciler.merge_index. intros H Hij.
  destruct (Reconciler.patch_field patch i) as [v|].
  - destruct Hij as [Hij|Hij]; [|discriminate Hij].
    apply bind_ok in H as (f & _ & H). injection H as <-.
    apply set_field_frame, Hij.
  - injection H as <-. reflexivity.
Qed.

Lemma merge_indices_frame (patch : dict) (indices : list nat) (j : nat) :
  forall target target' : CarPosition.t,
    Reconciler.merge_indices patch target indices = Ok target' ->
    (forall i, In i indices ->
               i <> j \/ Reconciler.patch_field patch i = None) ->
    nth_error (Schema.CarPosition_fields target') j =
    nth_error (Schema.CarPosition_fields target) j.
Proof.
  induction indices as [|i rest IH]; intros target target' H Hall.
  - injection H as <-. reflexivity.
  - cbn [Reconciler.merge_indices] in H.
    apply bind_ok in H as (t1 & H1 & H).
    rewrite (IH t1 target' H (fun k Hk => Hall k (or_intror Hk))).
    eapply merge_index_frame; [exact H1|].
    apply Hall. left. reflexivity.
Qed.

Lemma merge_indices_present (patch : dict) (indices : list nat) (i : nat)
    (v : value) :
  i < 51 -> Reconciler.patch_field patch i = Some v ->
  forall target target' : CarPosition.t,
    NoDup indices -> In i indices ->
    Reconciler.merge_indices patch target indices = Ok target' ->
    exists (t0 : CarPosition.t) (f : Schema.field),
      Reconciler.present_field i v t0 = Ok f /\
      nth_error (Schema.CarPosition_fields target') i = Some f /\
      (i = 46 ->
       CarPosition.in_car_video t0 = CarPosition.in_car_video target).
Proof.
  intros Hi Hv.
  induction indices as [|k rest IH]; intros target target' Hnd Hin H;
    [destruct Hin|].
  cbn [Reconciler.merge_indices] in H.
  apply bind_ok in H as (t1 & H1 & H).
  apply NoDup_cons_iff in Hnd as [Hk Hnd].
  destruct (Nat.eq_dec k i) as [->|Hki].
  - unfold Reconciler.merge_index in H1. rewrite Hv in H1.
    apply bind_ok in H1 as (f & Hf & H1). injection H1 as <-.
    exists target, f. split; [exact Hf|]. split; [|reflexivity].
    erewrite merge_indices_frame; [|exact H|].
    + eapply set_field_present; [exact Hi|exact Hf].
    + intros j Hj. left. intros ->. exact (Hk Hj).
  - destruct Hin as [Hin|Hin]; [contradiction|].
    destruct (IH t1 target' Hnd Hin H) as (t0 & f & Hf & Hn & Hvid).
    exists t0, f. split; [exact Hf|]. split; [exact Hn|].
    intros ->. rewrite (Hvid eq_refl).
    apply fields_in_car_video.
    eapply merge_index_frame; [exact H1|]. left. exact Hki.
Qed.

Lemma changes_not_none (car_dict : dict) (k : key) (v : value) :
  In (k, v) (Hub.changes car_dict) <-> In (k, v) car_dict /\ v <> VNone.
Proof.
  unfold Hub.changes. rewrite filter_In. cbn [snd].
  split; intros [Hin Hv]; (split; [exact Hin|]).
  - intros ->. discriminate Hv.
  - destruct v; try reflexivity. contradiction Hv. reflexivity.
Qed.

Lemma scenario_patch_merge (target : CarPosition.t) :
  Reconciler.merge target scenario_patch =
  Ok (Reconciler.set_field 20 (Schema.FValue (VInt 5)) target).
Proof. reflexivity. Qed.

(** C1: merging a patch into a [CarPosition] leaves every field the
    patch does not supply (omitted or null) as it was, and overwrites
    every field it does supply: a field stored as it is takes the
    supplied value, a converted field the value the decoder's conversion
    gives.  Merging [{20: 5}] into a car with [overall_position = 3] and
    [number = "60"] yields [overall_position = 5] with [number] still
    ["60"].  The entries the handler of signalr_client.py shows as the
    changes of a patch are exactly its entries whose value is not
    None. *)
Theorem merge_preserves_absent_fields :
  (forall (target target' : CarPosition.t) (patch : dict) (i : nat),
     Reconciler.merge target patch = Ok target' ->
     Reconciler.patch_field patch i = None ->
     nth_error (Schema.CarPosition_fields target') i =
     nth_error (Schema.CarPosition_fields target) i) /\
  (forall (target target' : CarPosition.t) (patch : dict) (i : nat)
          (v : value),
     Reconciler.merge target patch = Ok target' ->
     i < 51 ->
     Reconciler.patch_field patch i = Some v ->
     exists f : Schema.field,
       Reconciler.present_field i v target = Ok f /\
       nth_error (Schema.CarPosition_fields target') i = Some f /\
       (~ In i [38; 39; 41; 43; 46] -> f = Schema.FValue v)) /\
  (forall target : CarPosition.t,
     CarPosition.overall_position target = VInt 3 ->
     CarPosition.number target = VStr "60" ->
     exists target' : CarPosition.t,
       Reconciler.merge target scenario_patch = Ok target' /\
       CarPosition.overall_position target' = VInt 5 /\
       CarPosition.number target' = VStr "60") /\
  (forall (car_dict : dict) (k : key) (v : value),
     In (k, v) (Hub.changes car_dict) <->
     In (k, v) car_dict /\ v <> VNone).
Proof.
  split; [|split; [|split]]; [| | |exact changes_not_none].
  - intros target target' patch i H Habs.
    eapply merge_indices_frame; [exact H|].
    intros k _. destruct (Nat.eq_dec k i) as [->|Hk];
      [right; exact Habs | left; exact Hk].
  - intros target target' patch i v H Hi Hv.
    assert (Hin : In i (seq 0 (Schema.field_count Schema.TCarPosition)))
      by (apply in_seq; cbn [Schema.field_count]; lia).
    destruct (@merge_indices_present patch _ i v Hi Hv target target'
                (seq_NoDup _ _) Hin H)
      as (t0 & f & Hf & Hn & Hvid).
    rewrite (@present_field_ext i v t0 target Hvid) in Hf.
    exists f. split; [exact Hf|]. split; [exact Hn|].
    intros Hs. rewrite (@present_field_scalar i v target Hs) in Hf.
    injection Hf as <-. reflexivity.
  - intros target Hpos Hnum.
    exists (Reconciler.set_field 20 (Schema.FValue (VInt 5)) target).
    split; [apply scenario_patch_merge|].
    split; [reflexivity | exact Hnum].
Qed.
(* ================================================================== *)
(** ** Further properties of the decoders *)

(** *** Positions beyond the schema *)

Lemma nth_firstn_lt {A : Type} (n i : nat) (l : list A) (d : A) :
  i < n -> nth i (firstn n l) d = nth i l d.
Proof.
  intros H. rewrite nth_firstn.
  destruct (Nat.ltb_spec i n); [reflexivity | lia].
Qed.

Lemma item_with_firstn {A : Type} (n i : nat) (l : list value)
    (conv : value -> result A) (d : A) :
  i < n ->
  item_with (VList (firstn n l)) i conv d = item_with (VList l) i conv d.
Proof.
  intros H. rewrite !item_with_list, nth_error_firstn.
  destruct (Nat.ltb_spec i n); [reflexivity | lia].
Qed.

Lemma item_if_truthy_firstn {A : Type} (n i : nat) (l : list value)
    (conv : value -> result A) (d : A) :
  i < n ->
  item_if_truthy (VList (firstn n l)) i conv d =
  item_if_truthy (VList l) i conv d.
Proof.
  intros H. rewrite !item_if_truthy_list, nth_error_firstn.
  destruct (Nat.ltb_spec i n); [reflexivity | lia].
Qed.

Lemma CarPosition_of_array_firstn (l : list value) (tf lf : Flags.t)
    (cs : list CompletedSection.t) (lt : option time)
    (icv : option VideoStatus.t) :
  Schema.CarPosition_of_array (firstn 51 l) tf lf cs lt icv =
  Schema.CarPosition_of_array l tf lf cs lt icv.
Proof.
  unfold Schema.CarPosition_of_array.
  rewrite !nth_firstn_lt by lia. reflexivity.
Qed.

(** Step over equal heads of two bind chains. *)
Ltac same_heads :=
  repeat match goal with
         | |- bind ?r _ = bind ?r _ =>
             destruct r;
             [ rewrite !bind_Ok_l | rewrite !bind_Raise_l; reflexivity ]
         end.

Lemma CarPosition_firstn (l : list value) :
  CarPosition.from_msgpack (VList (firstn 51 l)) =
  CarPosition.from_msgpack (VList l).
Proof.
  rewrite !CarPosition_from_list.
  rewrite !item_with_firstn, !item_if_truthy_firstn by lia.
  same_heads. rewrite CarPosition_of_array_firstn. reflexivity.
Qed.

(** X1: positions beyond the schema are ignored.  Every array-form
    decoder reads only the first N positions of its input, N the number
    of fields of the entity: an array and its first N positions decode
    to the same result, be it an entity or an exception. *)
Theorem trailing_positions_ignored (ty : Schema.entity) (l : list value) :
  Schema.from_msgpack ty (VList l) =
  Schema.from_msgpack ty (VList (firstn (Schema.field_count ty) l)).
Proof.
  symmetry.
  destruct ty; cbn [Schema.from_msgpack Schema.field_count].
  - rewrite !VideoDestination_from_list.
    rewrite item_with_firstn, !nth_firstn_lt by lia. reflexivity.
  - unfold VideoStatus.from_msgpack.
    rewrite item_with_firstn, item_if_truthy_firstn by lia. reflexivity.
  - rewrite !CompletedSection_from_list.
    rewrite !nth_firstn_lt by lia. reflexivity.
  - rewrite !EventEntry_from_list.
    rewrite !nth_firstn_lt by lia. reflexivity.
  - apply CarPosition_firstn.
  - unfold FlagDuration.from_msgpack.
    rewrite !item_with_firstn by lia. reflexivity.
  - rewrite !Section_from_list.
    rewrite !nth_firstn_lt by lia. reflexivity.
  - rewrite !Announcement_from_list.
    rewrite item_with_firstn, !nth_firstn_lt by lia. reflexivity.
Qed.

(** *** Maps given to the array-form decoders *)

Lemma length_enumerate_from (start : nat) (l : list value) :
  List.length (enumerate_from start l) = List.length l.
Proof.
  revert start. induction l as [|v l IH]; intros start;
    cbn [enumerate_from List.length]; [reflexivity|].
  rewrite IH. reflexivity.
Qed.

Lemma item_with_enumerate {A : Type} (l : list value) (i : nat)
    (conv : value -> result A) (d : A) :
  item_with (VDict (enumerate_dict l)) i conv d =
  item_with (VList l) i conv d.
Proof.
  unfold item_with. cbn [py_len py_getitem]. unfold enumerate_dict at 1.
  rewrite length_enumerate_from, !bind_Ok_l.
  destruct (Nat.ltb_spec i (List.length l)) as [Hlt|Hge]; [|reflexivity].
  rewrite dict_get_enumerate_dict.
  destruct (nth_error l i) as [x|] eqn:Hn; [reflexivity|].
  apply nth_error_None in Hn. lia.
Qed.

Lemma item_enumerate (l : list value) (i : nat) (d : value) :
  item (VDict (enumerate_dict l)) i d = item (VList l) i d.
Proof. apply item_with_enumerate. Qed.

Lemma item_if_truthy_enumerate {A : Type} (l : list value) (i : nat)
    (conv : value -> result A) (d : A) :
  item_if_truthy (VDict (enumerate_dict l)) i conv d =
  item_if_truthy (VList l) i conv d.
Proof.
  unfold item_if_truthy. cbn [py_len py_getitem]. unfold enumerate_dict at 1.
  rewrite length_enumerate_from, !bind_Ok_l.
  destruct (Nat.ltb_spec i (List.length l)) as [Hlt|Hge]; [|reflexivity].
  rewrite dict_get_enumerate_dict.
  destruct (nth_error l i) as [x|] eqn:Hn; [reflexivity|].
  apply nth_error_None in Hn. lia.
Qed.

Ltac enumerate_items :=
  rewrite ?item_enumerate, ?item_with_enumerate, ?item_if_truthy_enumerate.

(** X2: the array-form decoders accept the integer-keyed map of an
    array.  Given the map [{i: l[i]}] in place of the array [l], every
    decoder returns what it returns for [l]. *)
Theorem enumerated_map_decodes_as_array (ty : Schema.entity)
    (l : list value) :
  Schema.from_msgpack ty (VDict (enumerate_dict l)) =
  Schema.from_msgpack ty (VList l).
Proof.
  destruct ty; cbn [Schema.from_msgpack].
  - unfold VideoDestination.from_msgpack. enumerate_items. reflexivity.
  - unfold VideoStatus.from_msgpack. enumerate_items. reflexivity.
  - unfold CompletedSection.from_msgpack. enumerate_items. reflexivity.
  - unfold EventEntry.from_msgpack. enumerate_items. reflexivity.
  - unfold CarPosition.from_msgpack. enumerate_items. reflexivity.
  - unfold FlagDuration.from_msgpack. enumerate_items. reflexivity.
  - unfold Section_.from_msgpack. enumerate_items. reflexivity.
  - unfold Announcement.from_msgpack. enumerate_items. reflexivity.
Qed.

Lemma length_pos_ltb {A : Type} (d : list A) :
  d <> [] -> (0 <? List.length d) = true.
Proof.
  destruct d; [contradiction|]. intros _. reflexivity.
Qed.

Lemma item_with_sparse {A : Type} (d : dict) (conv : value -> result A)
    (default : A) :
  d <> [] -> dict_get (KInt 0) d = None ->
  item_with (VDict d) 0 conv default = Raise KeyError.
Proof.
  intros Hd H0. unfold item_with. cbn [py_len py_getitem Z.of_nat].
  rewrite bind_Ok_l, (length_pos_ltb Hd), H0. reflexivity.
Qed.

(** X3: a sparse map is not decoded by position.  The array-form
    decoders index their input from 0 up to its length, so a non-empty
    map without key 0 (a patch such as [{20: 5}]) raises [KeyError] in
    every one of them. *)
Theorem sparse_map_raises_KeyError (ty : Schema.entity) (d : dict) :
  d <> [] -> dict_get (KInt 0) d = None ->
  Schema.from_msgpack ty (VDict d) = Raise KeyError.
Proof.
  intros Hd H0.
  destruct ty; cbn [Schema.from_msgpack].
  - unfold VideoDestination.from_msgpack.
    rewrite (item_with_sparse _ _ Hd H0). reflexivity.
  - unfold VideoStatus.from_msgpack.
    rewrite (item_with_sparse _ _ Hd H0). reflexivity.
  - unfold CompletedSection.from_msgpack, item.
    rewrite (item_with_sparse _ _ Hd H0). reflexivity.
  - unfold EventEntry.from_msgpack, item.
    rewrite (item_with_sparse _ _ Hd H0). reflexivity.
  - unfold CarPosition.from_msgpack, item.
    rewrite (item_with_sparse _ _ Hd H0). reflexivity.
  - unfold FlagDuration.from_msgpack.
    rewrite (item_with_sparse _ _ Hd H0). reflexivity.
  - unfold Section_.from_msgpack, item.
    rewrite (item_with_sparse _ _ Hd H0). reflexivity.
  - unfold Announcement.from_msgpack.
    rewrite (item_with_sparse _ _ Hd H0). reflexivity.
Qed.

(** *** Keys a session map is read at *)

Lemma from_msgpack_dict_ext (d1 d2 : dict) :
  (forall k : Z, (0 <= k <= 28)%Z ->
                 dict_get (KInt k) d1 = dict_get (KInt k) d2) ->
  SessionState.from_msgpack_dict d1 = SessionState.from_msgpack_dict d2.
Proof.
  intros H. unfold SessionState.from_msgpack_dict. cbv zeta. unfold get.
  rewrite (H 0%Z), (H 1%Z), (H 2%Z), (H 3%Z), (H 4%Z), (H 5%Z), (H 6%Z),
    (H 7%Z), (H 8%Z), (H 9%Z), (H 10%Z), (H 11%Z), (H 12%Z), (H 13%Z),
    (H 14%Z), (H 15%Z), (H 16%Z), (H 17%Z), (H 18%Z), (H 19%Z), (H 20%Z),
    (H 21%Z), (H 22%Z), (H 23%Z), (H 24%Z), (H 25%Z), (H 26%Z), (H 27%Z),
    (H 28%Z) by lia.
  reflexivity.
Qed.

Lemma only_string_keys_get (d : dict) (k : Z) :
  only_string_keys d = true -> dict_get (KInt k) d = None.
Proof.
  unfold only_string_keys.
  induction d as [|[k' v] d IH]; cbn [forallb dict_get fst]; intros H;
    [reflexivity|].
  apply andb_true_iff in H as [Hk Hd].
  destruct k' as [z|s]; [discriminate Hk|].
  cbn [key_eqb]. apply IH, Hd.
Qed.

Lemma from_msgpack_dict_empty :
  SessionState.from_msgpack_dict [] = Ok SessionState.new.
Proof. reflexivity. Qed.

(** X4: a session map is read at the integer keys 0 to 28 only.  Two
    maps that agree on those keys decode to the same result, whatever
    else they hold and in whatever order; in particular a map keyed by
    field names only (the camelCase shape of a patch) decodes, without
    an error, to the [SessionState] built from the declared defaults. *)
Theorem session_map_read_at_integer_keys :
  (forall d1 d2 : dict,
     (forall k : Z, (0 <= k <= 28)%Z ->
                    dict_get (KInt k) d1 = dict_get (KInt k) d2) ->
     SessionState.from_msgpack_dict d1 =
     SessionState.from_msgpack_dict d2) /\
  (forall d : dict,
     only_string_keys d = true ->
     SessionState.from_msgpack_dict d = Ok SessionState.new).
Proof.
  split.
  - exact from_msgpack_dict_ext.
  - intros d Hd. rewrite <- from_msgpack_dict_empty.
    apply from_msgpack_dict_ext. intros k _.
    rewrite (only_string_keys_get d k Hd). reflexivity.
Qed.

(** *** Elements of the sequences of a session *)

Lemma mapM_Forall2 {A B : Type} (f : A -> result B) (xs : list A)
    (ys : list B) :
  mapM f xs = Ok ys -> Forall2 (fun x y => f x = Ok y) xs ys.
Proof.
  revert ys. induction xs as [|x xs IH]; intros ys H; cbn [mapM] in H.
  - injection H as <-. constructor.
  - apply bind_ok in H as (y & Hy & H).
    apply bind_ok in H as (ys' & Hys & H).
    injection H as <-. constructor; [exact Hy | exact (IH _ Hys)].
Qed.

Lemma decode_each_list_Forall2 {A : Type} (decode : value -> result A)
    (v : value) (xs : list value) (ys : list A) :
  SessionState.decode_each decode v = Ok ys -> v = VList xs ->
  Forall2 (fun x y => decode x = Ok y) xs ys.
Proof.
  intros H ->. unfold SessionState.decode_each in H. cbn [py_iter] in H.
  rewrite bind_Ok_l in H. exact (mapM_Forall2 decode xs H).
Qed.

Lemma SessionState_decoded_sequences (d : dict) (s : SessionState.t) :
  SessionState.from_msgpack_dict d = Ok s ->
  SessionState.decode_each EventEntry.from_msgpack (get d 13 (VList []))
    = Ok (SessionState.event_entries s) /\
  SessionState.decode_each CarPosition.from_msgpack (get d 14 (VList []))
    = Ok (SessionState.car_positions s) /\
  SessionState.decode_each FlagDuration.from_msgpack (get d 16 (VList []))
    = Ok (SessionState.flag_durations s) /\
  SessionState.decode_each Section_.from_msgpack (get d 25 (VList []))
    = Ok (SessionState.sections s) /\
  SessionState.decode_each Announcement.from_msgpack (get d 27 (VList []))
    = Ok (SessionState.announcements s).
Proof.
  unfold SessionState.from_msgpack_dict. cbv zeta. intros H.
  apply bind_ok in H as (t9 & _ & H).
  apply bind_ok in H as (t10 & _ & H).
  apply bind_ok in H as (ee & Hee & H).
  apply bind_ok in H as (cp & Hcp & H).
  apply bind_ok in H as (cf & _ & H).
  apply bind_ok in H as (fd & Hfd & H).
  apply bind_ok in H as (sec & Hsec & H).
  apply bind_ok in H as (ann & Hann & H).
  apply bind_ok in H as (t28 & _ & H).
  injection H as <-. unfold SessionState.init.
  cbn [SessionState.event_entries SessionState.car_positions
       SessionState.flag_durations SessionState.sections
       SessionState.announcements].
  rewrite !or_empty_Some. repeat split; assumption.
Qed.

(** X5: the sequences of a decoded session follow the wire.  When
    [from_msgpack_dict] returns a session and key 13, 14, 16, 25 or 27
    holds an array, the decoded list has one entity per element of that
    array, in the same order, each the decoding of its element. *)
Theorem session_sequences_follow_wire (d : dict) (s : SessionState.t) :
  SessionState.from_msgpack_dict d = Ok s ->
  (forall xs, get d 13 (VList []) = VList xs ->
     Forall2 (fun x e => EventEntry.from_msgpack x = Ok e) xs
       (SessionState.event_entries s)) /\
  (forall xs, get d 14 (VList []) = VList xs ->
     Forall2 (fun x c => CarPosition.from_msgpack x = Ok c) xs
       (SessionState.car_positions s)) /\
  (forall xs, get d 16 (VList []) = VList xs ->
     Forall2 (fun x f => FlagDuration.from_msgpack x = Ok f) xs
       (SessionState.flag_durations s)) /\
  (forall xs, get d 25 (VList []) = VList xs ->
     Forall2 (fun x c => Section_.from_msgpack x = Ok c) xs
       (SessionState.sections s)) /\
  (forall xs, get d 27 (VList []) = VList xs ->
     Forall2 (fun x a => Announcement.from_msgpack x = Ok a) xs
       (SessionState.announcements s)).
Proof.
  intros H.
  destruct (SessionState_decoded_sequences d H)
    as (H13 & H14 & H16 & H25 & H27).
  repeat split; intros xs Hxs.
  - exact (decode_each_list_Forall2 _ H13 Hxs).
  - exact (decode_each_list_Forall2 _ H14 Hxs).
  - exact (decode_each_list_Forall2 _ H16 Hxs).
  - exact (decode_each_list_Forall2 _ H25 Hxs).
  - exact (decode_each_list_Forall2 _ H27 Hxs).
Qed.

Lemma unsized_raises_TypeError (ty : Schema.entity) (v : value) :
  py_len v = Raise TypeError ->
  Schema.from_msgpack ty v = Raise TypeError.
Proof.
  intros H.
  destruct ty; cbn [Schema.from_msgpack];
    [ unfold VideoDestination.from_msgpack
    | unfold VideoStatus.from_msgpack
    | unfold CompletedSection.from_msgpack
    | unfold EventEntry.from_msgpack
    | unfold CarPosition.from_msgpack
    | unfold FlagDuration.from_msgpack
    | unfold Section_.from_msgpack
    | unfold Announcement.from_msgpack ];
    unfold item, item_with; rewrite H, !bind_Raise_l; reflexivity.
Qed.

Lemma decode_each_raises {A : Type} (decode : value -> result A)
    (xs : list value) (x : value) :
  In x xs -> raises (decode x) ->
  raises (SessionState.decode_each decode (VList xs)).
Proof.
  intros Hin Hx. unfold SessionState.decode_each. cbn [py_iter].
  rewrite bind_Ok_l. exact (@mapM_raises _ _ decode xs x Hin Hx).
Qed.

(** X6: one element without a length fails the snapshot.  If the array
    at key 13, 14, 16, 25 or 27 of a session map holds an element that
    has no length (null, a boolean or a number), [from_msgpack_dict]
    raises an exception and returns no session. *)
Theorem unsized_element_fails_session (d : dict) (k : Z)
    (xs : list value) (x : value) :
  In k [13; 14; 16; 25; 27]%Z ->
  get d k (VList []) = VList xs ->
  In x xs ->
  py_len x = Raise TypeError ->
  raises (SessionState.from_msgpack_dict d).
Proof.
  intros Hk Hg Hin Hx. cbn [In] in Hk.
  unfold SessionState.from_msgpack_dict. cbv zeta.
  destruct Hk as [<-|[<-|[<-|[<-|[<-|[]]]]]]; rewrite Hg.
  - destruct (@decode_each_raises _ EventEntry.from_msgpack xs x Hin)
      as [e He];
      [exists TypeError;
       exact (unsized_raises_TypeError Schema.TEventEntry x Hx)|].
    rewrite He. raise_walk.
  - destruct (@decode_each_raises _ CarPosition.from_msgpack xs x Hin)
      as [e He];
      [exists TypeError;
       exact (unsized_raises_TypeError Schema.TCarPosition x Hx)|].
    rewrite He. raise_walk.
  - destruct (@decode_each_raises _ FlagDuration.from_msgpack xs x Hin)
      as [e He];
      [exists TypeError;
       exact (unsized_raises_TypeError Schema.TFlagDuration x Hx)|].
    rewrite He. raise_walk.
  - destruct (@decode_each_raises _ Section_.from_msgpack xs x Hin)
      as [e He];
      [exists TypeError;
       exact (unsized_raises_TypeError Schema.TSection x Hx)|].
    rewrite He. raise_walk.
  - destruct (@decode_each_raises _ Announcement.from_msgpack xs x Hin)
      as [e He];
      [exists TypeError;
       exact (unsized_raises_TypeError Schema.TAnnouncement x Hx)|].
    rewrite He. raise_walk.
Qed.

(** *** Supplied positions *)

Lemma CarPosition_stored_verbatim (l : list value) (c : CarPosition.t)
    (i : nat) (v : value) :
  CarPosition.from_msgpack (VList l) = Ok c ->
  Schema.stored_as_is Schema.TCarPosition i = true ->
  nth_error l i = Some v ->
  nth_error (Schema.CarPosition_fields c) i = Some (Schema.FValue v).
Proof.
  intros Hc Hs Hn.
  apply CarPosition_decoded in Hc
    as (tf & lf & cs & lt & icv & _ & _ & _ & _ & _ & ->).
  unfold Schema.CarPosition_of_array. rewrite CarPosition_fields_init.
  do 51 (destruct i as [|i];
         [ first [ discriminate Hs
                 | cbn [nth_error]; do 2 f_equal;
                   apply nth_error_nth; exact Hn ] |]).
  discriminate Hs.
Qed.

(** X7: supplied positions are stored as they are.  At every position
    that a decoder does not convert, the decoded entity holds exactly
    the value the array supplies there, whatever its type: the decoders
    neither validate nor coerce these values. *)
Theorem supplied_positions_stored_verbatim (ty : Schema.entity)
    (l : list value) (e : Schema.carrier ty) (i : nat) (v : value) :
  Schema.from_msgpack ty (VList l) = Ok e ->
  Schema.stored_as_is ty i = true ->
  nth_error l i = Some v ->
  nth_error (Schema.fields ty e) i = Some (Schema.FValue v).
Proof.
  destruct ty;
    cbn [Schema.from_msgpack Schema.fields Schema.carrier
         Schema.stored_as_is] in *;
    intros He Hs Hn; try discriminate Hs.
  - rewrite VideoDestination_from_list in He.
    apply bind_ok in He as (ty & _ & He). injection He as <-.
    do 5 (destruct i as [|i];
          [ first [ discriminate Hs
                  | cbn; do 2 f_equal; apply nth_error_nth; exact Hn ] |]).
    discriminate Hs.
  - rewrite CompletedSection_from_list in He. injection He as <-.
    do 5 (destruct i as [|i];
          [ cbn; do 2 f_equal; apply nth_error_nth; exact Hn |]).
    discriminate Hs.
  - rewrite EventEntry_from_list in He. injection He as <-.
    do 4 (destruct i as [|i];
          [ cbn; do 2 f_equal; apply nth_error_nth; exact Hn |]).
    discriminate Hs.
  - exact (CarPosition_stored_verbatim l i He Hs Hn).
  - rewrite Section_from_list in He. injection He as <-.
    do 4 (destruct i as [|i];
          [ cbn; do 2 f_equal; apply nth_error_nth; exact Hn |]).
    discriminate Hs.
  - rewrite Announcement_from_list in He.
    apply bind_ok in He as (ts & _ & He). injection He as <-.
    do 3 (destruct i as [|i];
          [ first [ discriminate Hs
                  | cbn; do 2 f_equal; apply nth_error_nth; exact Hn ] |]).
    discriminate Hs.
Qed.

(** *** Guarded positions *)

Lemma py_iter_truthy (v : value) (xs : list value) :
  truthy v = true -> py_iter v = Ok xs -> xs <> [].
Proof.
  destruct v as [| b | z | f | s | l | d]; cbn [py_iter];
    intros Ht H; try discriminate H; injection H as <-.
  - destruct s; [discriminate Ht | discriminate].
  - destruct l; [discriminate Ht | discriminate].
  - destruct d; [discriminate Ht | discriminate].
Qed.

Lemma mapM_not_nil {A B : Type} (f : A -> result B) (xs : list A)
    (ys : list B) :
  mapM f xs = Ok ys -> xs <> [] -> ys <> [].
Proof.
  intros H Hxs. apply mapM_Forall2 in H.
  destruct H; [contradiction | discriminate].
Qed.

(** X8: what makes a guarded position empty.  When a [CarPosition]
    array decodes, [in_car_video] is None exactly when index 46 is not
    supplied or holds a value that is false in a condition (null, False,
    0, 0.0, "", [] or {}), and [completed_sections] is the empty list
    exactly when index 41 is not supplied or holds such a value. *)
Theorem guarded_positions_empty_iff_falsy (l : list value)
    (c : CarPosition.t) :
  CarPosition.from_msgpack (VList l) = Ok c ->
  (CarPosition.in_car_video c = None <->
   nth_error l 46 = None \/
   exists v, nth_error l 46 = Some v /\ truthy v = false) /\
  (CarPosition.completed_sections c = [] <->
   nth_error l 41 = None \/
   exists v, nth_error l 41 = Some v /\ truthy v = false).
Proof.
  intros Hc.
  apply CarPosition_decoded in Hc
    as (tf & lf & cs & lt & icv & _ & _ & E41 & _ & E46 & ->).
  unfold Schema.CarPosition_of_array, CarPosition.init.
  cbn [CarPosition.in_car_video CarPosition.completed_sections].
  rewrite or_empty_Some.
  rewrite item_if_truthy_list in E41. rewrite item_if_truthy_list in E46.
  split.
  - destruct (nth_error l 46) as [v|].
    + destruct (truthy v) eqn:Ht.
      * apply bind_ok in E46 as (vs & _ & E46). injection E46 as <-.
        split; [discriminate|].
        intros [H|(w & Hw & Hf)]; [discriminate H|].
        injection Hw as <-. rewrite Ht in Hf. discriminate Hf.
      * injection E46 as <-. split; [|reflexivity].
        intros _. right. exists v. split; [reflexivity | exact Ht].
    + injection E46 as <-. split; [|reflexivity]. intros _. left.
      reflexivity.
  - destruct (nth_error l 41) as [v|].
    + destruct (truthy v) eqn:Ht.
      * apply bind_ok in E41 as (xs & Hxs & E41).
        pose proof (@mapM_not_nil _ _ _ xs cs E41
                      (@py_iter_truthy v xs Ht Hxs)) as Hne.
        split; [intros H; contradiction|].
        intros [H|(w & Hw & Hf)]; [discriminate H|].
        injection Hw as <-. rewrite Ht in Hf. discriminate Hf.
      * injection E41 as <-. split; [|reflexivity].
        intros _. right. exists v. split; [reflexivity | exact Ht].
    + injection E41 as <-. split; [|reflexivity]. intros _. left.
      reflexivity.
Qed.

(* ================================================================== *)
(** ** The handlers of signalr_client.py *)

(** *** Filtering None values *)

Lemma filter_none_dict (d : dict) :
  Hub._filter_none_values (VDict d) =
  VDict (map (fun kv => (fst kv, Hub._filter_none_values (snd kv)))
           (Hub.changes d)).
Proof.
  induction d as [|[k v] d IH]; [reflexivity|].
  cbn [Hub._filter_none_values] in *. injection IH as IH.
  unfold Hub.changes in *. cbn [filter snd].
  destruct (Hub.is_not_none v); cbn [map fst snd]; rewrite IH; reflexivity.
Qed.

Lemma filter_none_list (l : list value) :
  Hub._filter_none_values (VList l) =
  VList (map Hub._filter_none_values (filter Hub.is_not_none l)).
Proof.
  induction l as [|x l IH]; [reflexivity|].
  cbn [Hub._filter_none_values] in *. injection IH as IH.
  cbn [filter].
  destruct (Hub.is_not_none x); cbn [map]; rewrite IH; reflexivity.
Qed.

Lemma filter_none_is_not_none (obj : value) :
  Hub.is_not_none (Hub._filter_none_values obj) = Hub.is_not_none obj.
Proof. destruct obj; reflexivity. Qed.

Lemma filter_none_none_free (obj : value) :
  Hub.none_free (Hub._filter_none_values obj) = true.
Proof.
  induction obj as [| b | z | f | s | l IH | d IH] using value_nested_ind;
    try reflexivity.
  - rewrite filter_none_list. cbn [Hub.none_free].
    induction IH as [|x l Hx _ IHl]; [reflexivity|].
    cbn [filter]. destruct (Hub.is_not_none x) eqn:Hn; [|exact IHl].
    cbn [map forallb].
    rewrite filter_none_is_not_none, Hn, Hx, IHl. reflexivity.
  - rewrite filter_none_dict. cbn [Hub.none_free].
    induction IH as [|[k x] d Hx _ IHd]; [reflexivity|].
    unfold Hub.changes in *. cbn [filter snd] in *.
    destruct (Hub.is_not_none x) eqn:Hn; [|exact IHd].
    cbn [map forallb fst snd].
    rewrite filter_none_is_not_none, Hn, Hx, IHd. reflexivity.
Qed.

Lemma filter_none_fixed (obj : value) :
  Hub.none_free obj = true -> Hub._filter_none_values obj = obj.
Proof.
  induction obj as [| b | z | f | s | l IH | d IH] using value_nested_ind;
    try reflexivity.
  - rewrite filter_none_list. cbn [Hub.none_free]. intros H. f_equal.
    induction IH as [|x l Hx _ IHl]; [reflexivity|].
    cbn [forallb] in H. apply andb_true_iff in H as [Hx' Hl].
    apply andb_true_iff in Hx' as [Hn Hf].
    cbn [filter]. rewrite Hn. cbn [map].
    rewrite (Hx Hf), (IHl Hl). reflexivity.
  - rewrite filter_none_dict. cbn [Hub.none_free]. intros H. f_equal.
    induction IH as [|[k x] d Hx _ IHd]; [reflexivity|].
    cbn [forallb snd] in H. apply andb_true_iff in H as [Hx' Hd].
    apply andb_true_iff in Hx' as [Hn Hf].
    unfold Hub.changes in *. cbn [filter snd] in *. rewrite Hn.
    cbn [map fst snd]. rewrite (Hx Hf), (IHd Hd). reflexivity.
Qed.

(** X9: [_filter_none_values] cleans a value through and through.  Its
    result has no None among the items of its lists and the values of
    its dicts, at any depth; a value that has none already is returned
    unchanged; filtering twice is filtering once; and the entries left
    at the top of a dict are those the handler shows as changes, each
    with its value filtered. *)
Theorem filter_none_values_cleans (obj : value) :
  Hub.none_free (Hub._filter_none_values obj) = true /\
  (Hub.none_free obj = true -> Hub._filter_none_values obj = obj) /\
  Hub._filter_none_values (Hub._filter_none_values obj) =
    Hub._filter_none_values obj /\
  (forall d : dict,
     obj = VDict d ->
     Hub._filter_none_values obj =
     VDict (map (fun kv => (fst kv, Hub._filter_none_values (snd kv)))
              (Hub.changes d))).
Proof.
  split; [apply filter_none_none_free|].
  split; [apply filter_none_fixed|].
  split.
  - apply filter_none_fixed, filter_none_none_free.
  - intros d ->. apply filter_none_dict.
Qed.

(** *** Field names *)

Lemma lower_char_not_upper (c : ascii) :
  Hub.is_upper (Hub.lower_char c) = false.
Proof.
  destruct c as [[] [] [] [] [] [] [] []]; vm_compute; reflexivity.
Qed.

Lemma lower_char_fixed (c : ascii) :
  Hub.is_upper c = false -> Hub.lower_char c = c.
Proof. unfold Hub.lower_char. intros ->. reflexivity. Qed.

Lemma lower_no_capital (s : string) : Hub.no_capital (Hub.lower s) = true.
Proof.
  unfold Hub.no_capital. induction s as [|c s IH]; [reflexivity|].
  cbn [Hub.lower list_ascii_of_string forallb].
  rewrite lower_char_not_upper, IH. reflexivity.
Qed.

Lemma lower_fixed (s : string) :
  Hub.no_capital s = true -> Hub.lower s = s.
Proof.
  unfold Hub.no_capital. induction s as [|c s IH]; [reflexivity|].
  cbn [Hub.lower list_ascii_of_string forallb]. intros H.
  apply andb_true_iff in H as [Hc Hs].
  apply negb_true_iff in Hc.
  rewrite (lower_char_fixed c Hc), (IH Hs). reflexivity.
Qed.

Lemma lower_length (s : string) :
  String.length (Hub.lower s) = String.length s.
Proof.
  induction s as [|c s IH]; [reflexivity|].
  cbn [Hub.lower String.length]. rewrite IH. reflexivity.
Qed.

Lemma underscore_capitals_fixed (s : string) :
  Hub.no_capital s = true -> Hub.underscore_capitals s = s.
Proof.
  unfold Hub.no_capital. induction s as [|c s IH]; [reflexivity|].
  cbn [Hub.underscore_capitals list_ascii_of_string forallb]. intros H.
  apply andb_true_iff in H as [Hc Hs].
  apply negb_true_iff in Hc. rewrite Hc, (IH Hs). reflexivity.
Qed.

Lemma underscore_capitals_length (s : string) :
  String.length (Hub.underscore_capitals s) =
  String.length s +
  List.length (filter Hub.is_upper (list_ascii_of_string s)).
Proof.
  induction s as [|c s IH]; [reflexivity|].
  cbn [Hub.underscore_capitals list_ascii_of_string filter].
  destruct (Hub.is_upper c); cbn [String.length List.length];
    rewrite IH; lia.
Qed.

Lemma snake_case_fixed (key : string) :
  Hub.no_capital key = true -> Hub.snake_case key = key.
Proof.
  intros H. unfold Hub.snake_case.
  assert (Hu : Hub.underscore_inner_capitals key = key).
  { destruct key as [|c s]; [reflexivity|].
    cbn [Hub.underscore_inner_capitals]. f_equal.
    apply underscore_capitals_fixed.
    unfold Hub.no_capital in *. cbn [list_ascii_of_string forallb] in H.
    apply andb_true_iff in H as [_ Hs]. exact Hs. }
  rewrite Hu. apply lower_fixed, H.
Qed.

(** X10: the snake_case name of a key.  For a key of ASCII characters
    the name the handlers display has no capital letter, is longer than
    the key by one underscore for every capital after its first
    character, is the key itself when the key has no capital, and is
    left unchanged by a second conversion. *)
Theorem snake_case_name (key : string) :
  Hub.ascii_only key = true ->
  Hub.no_capital (Hub.snake_case key) = true /\
  String.length (Hub.snake_case key) =
    String.length key +
    List.length (filter Hub.is_upper (tl (list_ascii_of_string key))) /\
  (Hub.no_capital key = true -> Hub.snake_case key = key) /\
  Hub.snake_case (Hub.snake_case key) = Hub.snake_case key.
Proof.
  intros _.
  split; [apply lower_no_capital|]. split; [|split].
  - unfold Hub.snake_case. rewrite lower_length.
    destruct key as [|c s]; [reflexivity|].
    cbn [Hub.underscore_inner_capitals String.length list_ascii_of_string
         tl].
    rewrite underscore_capitals_length. lia.
  - apply snake_case_fixed.
  - apply snake_case_fixed. apply lower_no_capital.
Qed.

(** *** Counting changes *)

Lemma changes_nil_iff (d : dict) :
  Hub.changes d = [] <-> Forall (fun kv => snd kv = VNone) d.
Proof.
  unfold Hub.changes. induction d as [|[k v] d IH]; cbn [filter snd].
  - split; [constructor | reflexivity].
  - destruct v; cbn [Hub.is_not_none];
      try (split; [discriminate | intros H; inversion H; discriminate]).
    rewrite IH. split.
    + intros H. constructor; [reflexivity | exact H].
    + intros H. inversion H. assumption.
Qed.

Lemma filtered_dict_truthy (d : dict) :
  truthy (Hub._filter_none_values (VDict d)) = false <->
  Forall (fun kv => snd kv = VNone) d.
Proof.
  rewrite filter_none_dict, <- changes_nil_iff.
  destruct (Hub.changes d); cbn [map truthy]; split;
    first [reflexivity | discriminate].
Qed.

Ltac split_ifs :=
  repeat match goal with
         | |- context [if ?b then _ else _] => destruct b eqn:?
         end.

Lemma car_count_step_acc (n : nat) (kv : key * value) :
  Hub.car_count_step n kv = n + Hub.car_count_step 0 kv.
Proof.
  destruct kv as [k v]. unfold Hub.car_count_step. split_ifs; lia.
Qed.

Lemma session_count_step_acc (n : nat) (kv : key * value) :
  Hub.session_count_step n kv = n + Hub.session_count_step 0 kv.
Proof.
  destruct kv as [k v]. unfold Hub.session_count_step. split_ifs; lia.
Qed.

Lemma car_change_count_cons (kv : key * value) (d : dict) :
  Hub.car_change_count (kv :: d) =
  Hub.car_count_step 0 kv + Hub.car_change_count d.
Proof.
  unfold Hub.car_change_count. cbn [fold_left].
  generalize (Hub.car_count_step 0 kv). intros n.
  revert n. induction d as [|x d IH]; intros n; cbn [fold_left]; [lia|].
  rewrite (IH (Hub.car_count_step n x)), (IH (Hub.car_count_step 0 x)).
  rewrite (car_count_step_acc n x). lia.
Qed.

Lemma session_change_count_cons (kv : key * value) (d : dict) :
  Hub.session_change_count (kv :: d) =
  Hub.session_count_step 0 kv + Hub.session_change_count d.
Proof.
  unfold Hub.session_change_count. cbn [fold_left].
  generalize (Hub.session_count_step 0 kv). intros n.
  revert n. induction d as [|x d IH]; intros n; cbn [fold_left]; [lia|].
  rewrite (IH (Hub.session_count_step n x)),
    (IH (Hub.session_count_step 0 x)).
  rewrite (session_count_step_acc n x). lia.
Qed.

Lemma count_steps_bounds (kv : key * value) :
  Hub.car_count_step 0 kv <= Hub.session_count_step 0 kv /\
  Hub.session_count_step 0 kv <=
    (if Hub.is_not_none (snd kv) then 1 else 0).
Proof.
  destruct kv as [k v].
  unfold Hub.car_count_step, Hub.session_count_step. cbn [snd].
  destruct v; cbn [Hub.is_not_none Schema.is_list Schema.is_dict];
    rewrite ?andb_false_r, ?andb_true_r; split; split_ifs; lia.
Qed.

Lemma count_steps_no_dict (kv : key * value) :
  Schema.is_dict (snd kv) = false ->
  Hub.car_count_step 0 kv = (if Hub.is_not_none (snd kv) then 1 else 0) /\
  Hub.session_count_step 0 kv =
    (if Hub.is_not_none (snd kv) then 1 else 0).
Proof.
  destruct kv as [k v]. cbn [snd]. intros Hd.
  unfold Hub.car_count_step, Hub.session_count_step. rewrite Hd.
  split; split_ifs; lia.
Qed.

Lemma changes_length_cons (kv : key * value) (d : dict) :
  List.length (Hub.changes (kv :: d)) =
  (if Hub.is_not_none (snd kv) then 1 else 0) + List.length (Hub.changes d).
Proof.
  unfold Hub.changes. cbn [filter].
  destruct (Hub.is_not_none (snd kv)); reflexivity.
Qed.

Lemma car_count_step_zero_iff (k : key) (v : value) :
  Hub.car_count_step 0 (k, v) = 0 <->
  v = VNone \/
  exists d', v = VDict d' /\ Forall (fun kv' => snd kv' = VNone) d'.
Proof.
  unfold Hub.car_count_step.
  destruct v as [| b | z | f | s | l | d'];
    cbn [Hub.is_not_none Schema.is_list Schema.is_dict];
    rewrite ?andb_false_r, ?andb_true_r.
  - split; [left; reflexivity | reflexivity].
  - split; [discriminate | intros [H|(d' & H & _)]; discriminate H].
  - split; [discriminate | intros [H|(d' & H & _)]; discriminate H].
  - split; [discriminate | intros [H|(d' & H & _)]; discriminate H].
  - split; [discriminate | intros [H|(d' & H & _)]; discriminate H].
  - split.
    + split_ifs; discriminate.
    + intros [H|(d' & H & _)]; discriminate H.
  - destruct (truthy (Hub._filter_none_values (VDict d'))) eqn:Ht.
    + split; [discriminate|].
      intros [H|(d'' & H & Hall)]; [discriminate H|].
      injection H as <-. apply filtered_dict_truthy in Hall.
      rewrite Ht in Hall. discriminate Hall.
    + split; [|reflexivity]. intros _. right. exists d'.
      split; [reflexivity|]. apply filtered_dict_truthy, Ht.
Qed.

(** X11: what the handlers count as a change.  The count of the car
    handler is at most the count of the session handler, which is at
    most the number of entries whose value is not None; both equal that
    number when no value is a dict; and the car handler counts nothing
    (and prints "(No changes)") exactly when every value is None or a
    dict whose values are all None. *)
Theorem change_counts (d : dict) :
  Hub.car_change_count d <= Hub.session_change_count d /\
  Hub.session_change_count d <= List.length (Hub.changes d) /\
  ((forall kv, In kv d -> Schema.is_dict (snd kv) = false) ->
   Hub.car_change_count d = List.length (Hub.changes d) /\
   Hub.session_change_count d = List.length (Hub.changes d)) /\
  (Hub.car_change_count d = 0 <->
   Forall (fun kv =>
             snd kv = VNone \/
             exists d', snd kv = VDict d' /\
                        Forall (fun kv' => snd kv' = VNone) d') d).
Proof.
  induction d as [|kv d (IH1 & IH2 & IH3 & IH4)].
  - repeat split; try reflexivity; try constructor.
  - rewrite car_change_count_cons, session_change_count_cons,
      changes_length_cons.
    destruct (count_steps_bounds kv) as [B1 B2].
    split; [lia|]. split; [lia|]. split.
    + intros Hno.
      destruct (count_steps_no_dict kv (Hno kv (or_introl eq_refl)))
        as [E1 E2].
      destruct (IH3 (fun x Hx => Hno x (or_intror Hx))) as [E3 E4].
      rewrite E1, E2, E3, E4. split; reflexivity.
    + destruct kv as [k v]. split.
      * intros H.
        assert (Hk : Hub.car_count_step 0 (k, v) = 0) by lia.
        assert (Hd : Hub.car_change_count d = 0) by lia.
        constructor; [|apply IH4, Hd].
        cbn [snd]. apply (proj1 (car_count_step_zero_iff k v) Hk).
      * intros H. inversion H as [|x l Hx Hl]; subst.
        cbn [snd] in Hx.
        apply (proj2 (car_count_step_zero_iff k v)) in Hx.
        apply IH4 in Hl.
        rewrite Hx, Hl. reflexivity.
Qed.

(** *** Identifying the car of a patch *)

Lemma dict_get_str_enumerate_from (name : string) (start : nat)
    (l : list value) :
  dict_get (KStr name) (enumerate_from start l) = None.
Proof.
  revert start. induction l as [|v l IH]; intros start; [reflexivity|].
  cbn [enumerate_from dict_get key_eqb]. apply IH.
Qed.

Lemma nth_not_default {A : Type} (l : list A) (i : nat) (d x : A) :
  nth i l d = x -> x <> d -> nth_error l i = Some x.
Proof.
  intros Hn Hx. destruct (nth_error l i) as [y|] eqn:E.
  - rewrite (nth_error_nth l i d E) in Hn. rewrite Hn. reflexivity.
  - apply nth_error_None in E. rewrite nth_overflow in Hn by exact E.
    congruence.
Qed.

Lemma top_level_enumerate (l : list value) (name : string) (i : nat) :
  Hub.top_level (enumerate_dict l) name (Z.of_nat i) =
  match nth_error l i with
  | Some v =>
      if Hub.is_not_none v && negb (Schema.is_dict v) then v else VNone
  | None => VNone
  end.
Proof.
  unfold Hub.top_level, enumerate_dict.
  rewrite dict_get_str_enumerate_from.
  exact (f_equal
           (fun o : option value =>
              match o with
              | Some v =>
                  if Hub.is_not_none v && negb (Schema.is_dict v)
                  then v else VNone
              | None => VNone
              end) (dict_get_enumerate_dict l i)).
Qed.

Lemma top_level_falsy (l : list value) (name : string) (i : nat)
    (d : value) :
  truthy (nth i l d) = false -> truthy d = false ->
  truthy (Hub.top_level (enumerate_dict l) name (Z.of_nat i)) = false.
Proof.
  intros Hn Hd. rewrite top_level_enumerate.
  destruct (nth_error l i) as [v|] eqn:E; [|reflexivity].
  rewrite (nth_error_nth l i d E) in Hn.
  destruct (Hub.is_not_none v && negb (Schema.is_dict v));
    [exact Hn | reflexivity].
Qed.

Lemma length_le_ltb (s : string) :
  String.length s <= 50 -> (50 <? String.length s) = false.
Proof. intros H. apply Nat.ltb_ge. exact H. Qed.

(** X12: an array-form car patch is identified by what the decoder
    stores.  When the array decodes to a car whose [number] is a
    non-empty string of at most 50 characters, the handler's [car_id]
    for the array is that string; when [number] is false in a condition
    (None, "" or 0) and [driver_name] is a non-empty string,
    [car_id] is "Driver: " followed by it.  [str] is assumed to return
    a string unchanged. *)
Theorem array_patch_identified (py_str : value -> string)
    (l : list value) (c : CarPosition.t) (s : string) :
  (forall t : string, py_str (VStr t) = t) ->
  CarPosition.from_msgpack (VList l) = Ok c ->
  s <> EmptyString ->
  (CarPosition.number c = VStr s ->
   String.length s <= 50 ->
   Hub.car_id py_str (enumerate_dict l) = s) /\
  (truthy (CarPosition.number c) = false ->
   CarPosition.driver_name c = VStr s ->
   String.length ("Driver: " ++ s) <= 50 ->
   Hub.car_id py_str (enumerate_dict l) = ("Driver: " ++ s)%string).
Proof.
  intros Hstr Hc Hs.
  apply CarPosition_decoded in Hc
    as (tf & lf & cs & lt & icv & _ & _ & _ & _ & _ & ->).
  unfold Schema.CarPosition_of_array, CarPosition.init.
  cbn [CarPosition.number CarPosition.driver_name].
  assert (Hts : truthy (VStr s) = true)
    by (destruct s; [contradiction | reflexivity]).
  split.
  - intros Hnum Hlen.
    assert (H2 : nth_error l 2 = Some (VStr s))
      by (apply (@nth_not_default _ l 2 VNone (VStr s) Hnum); discriminate).
    unfold Hub.car_id, Hub.identity.
    change 2%Z with (Z.of_nat 2).
    rewrite (top_level_enumerate l "number" 2), H2.
    cbn [Hub.is_not_none Schema.is_dict negb andb].
    rewrite Hts. cbn [negb andb].
    rewrite Hts, Hstr, (@length_le_ltb s Hlen). reflexivity.
  - intros Hnum Hdrv Hlen.
    assert (H44 : nth_error l 44 = Some (VStr s)).
    { apply (@nth_not_default _ l 44 (VStr "") (VStr s) Hdrv).
      intros E. injection E as E. exact (Hs E). }
    pose proof (@top_level_falsy l "number" 2 VNone Hnum eq_refl) as Hf.
    unfold Hub.car_id, Hub.identity.
    change 2%Z with (Z.of_nat 2) in *. change 44%Z with (Z.of_nat 44).
    rewrite (top_level_enumerate l "driverName" 44), H44.
    cbn [Hub.is_not_none Schema.is_dict negb andb].
    rewrite Hf, Hts. cbn [negb andb].
    rewrite Hf, Hts, Hstr, (@length_le_ltb _ Hlen). reflexivity.
Qed.

Lemma nested_search_no_dict (car_dict : dict) (keys : list Z)
    (car_number driver_name : value) :
  (forall z v, dict_get (KInt z) car_dict = Some v ->
               Schema.is_dict v = false) ->
  Hub.nested_search car_dict keys car_number driver_name =
  (car_number, driver_name).
Proof.
  intros Hno. induction keys as [|key rest IH]; [reflexivity|].
  cbn [Hub.nested_search].
  destruct (dict_get (KInt key) car_dict) as [v|] eqn:E; [|exact IH].
  pose proof (Hno key v E) as Hv.
  destruct v; try exact IH. discriminate Hv.
Qed.

(** X13: the car identifier is short, and "Unknown" when nothing
    identifies the car.  Whatever the patch and whatever [str] returns,
    [car_id] has at most 50 characters; it is "Unknown" when neither a
    number nor a driver name that is true in a condition is found at
    the top level and no integer key holds a dict; and a ["number"] key
    that is present with value None hides the number at index 2. *)
Theorem car_id_short_or_unknown (py_str : value -> string)
    (car_dict : dict) :
  String.length (Hub.car_id py_str car_dict) <= 50 /\
  (truthy (Hub.top_level car_dict "number" 2) = false ->
   truthy (Hub.top_level car_dict "driverName" 44) = false ->
   (forall z v, dict_get (KInt z) car_dict = Some v ->
                Schema.is_dict v = false) ->
   Hub.car_id py_str car_dict = "Unknown"%string) /\
  (dict_get (KStr "number") car_dict = Some VNone ->
   Hub.top_level car_dict "number" 2 = VNone).
Proof.
  split; [|split].
  - unfold Hub.car_id. destruct (Hub.identity car_dict) as [n dn].
    match goal with
    | |- context [50 <? String.length ?x] =>
        destruct (Nat.ltb_spec 50 (String.length x)) as [H|H]
    end; [cbn; lia | exact H].
  - intros Hn Hd Hno. unfold Hub.car_id, Hub.identity.
    rewrite Hn, Hd. cbn [negb andb].
    rewrite (@nested_search_no_dict car_dict _ _ _ Hno).
    rewrite Hn, Hd. reflexivity.
  - intros H. unfold Hub.top_level. rewrite H. reflexivity.
Qed.


(** *** A session array at the decode boundary *)

Lemma nth_error_firstn_lt (l : list value) (n i : nat) :
  i < n -> nth_error (firstn n l) i = nth_error l i.
Proof.
  revert n i. induction l as [|v l IH]; intros n i H.
  - rewrite firstn_nil. reflexivity.
  - destruct n as [|n]; [lia|]. destruct i as [|i]; [reflexivity|].
    cbn [firstn nth_error]. apply IH. lia.
Qed.

(** X14: a session array is read up to position 28.  The decoding step of
    [get_current_session_state] turns an array into a map keyed by
    position, so an array and its first 29 positions decode to the same
    result, whatever follows them, and the empty array decodes to the
    [SessionState] built from the declared defaults. *)
Theorem session_array_read_to_28 (l : list value) :
  Main.decode_session_state (VList l) =
    Main.decode_session_state (VList (firstn 29 l)) /\
  Main.decode_session_state (VList []) = Ok SessionState.new.
Proof.
  split; [|reflexivity].
  cbn [Main.decode_session_state]. cbv zeta.
  apply from_msgpack_dict_ext. intros k Hk.
  rewrite <- (Z2Nat.id k) by lia.
  rewrite !dict_get_enumerate_dict.
  symmetry. apply nth_error_firstn_lt. lia.
Qed.

End Properties.

(* ================================================================== *)
(** * Concrete runs *)

Lemma TextClock_laws : DateTimeLaws TextClock.
Proof.
  split; intros [c s]; reflexivity.
Defined.

(** The theorem of C1 at the scenario car and patch. *)
Lemma merge_preserves_absent_fields_witness :
  (Reconciler.merge scenario_car scenario_patch =
     Ok (Reconciler.set_field 20 (Schema.FValue (VInt 5)) scenario_car) /\
   Reconciler.patch_field scenario_patch 2 = None /\
   Reconciler.patch_field scenario_patch 20 = Some (VInt 5) /\
   CarPosition.overall_position scenario_car = VInt 3 /\
   CarPosition.number scenario_car = VStr "60") /\
  nth_error
    (Schema.CarPosition_fields
       (Reconciler.set_field 20 (Schema.FValue (VInt 5)) scenario_car)) 2 =
  nth_error (Schema.CarPosition_fields scenario_car) 2 /\
  (exists f : Schema.field,
     Reconciler.present_field 20 (VInt 5) scenario_car = Ok f /\
     nth_error
       (Schema.CarPosition_fields
          (Reconciler.set_field 20 (Schema.FValue (VInt 5)) scenario_car))
       20 = Some f /\
     (~ In 20 [38; 39; 41; 43; 46] -> f = Schema.FValue (VInt 5))) /\
  (exists target' : CarPosition.t,
     Reconciler.merge scenario_car scenario_patch = Ok target' /\
     CarPosition.overall_position target' = VInt 5 /\
     CarPosition.number target' = VStr "60").
Proof.
  destruct (@merge_preserves_absent_fields TextClock)
    as (Ha & Hb & Hc & _).
  split; [repeat split|]. split; [|split].
  - apply (Ha scenario_car _ scenario_patch 2); reflexivity.
  - apply (Hb scenario_car _ scenario_patch 20 (VInt 5));
      [reflexivity | lia | reflexivity].
  - apply (Hc scenario_car); reflexivity.
Defined.

(** The theorem of C2 at the fully populated session and its car. *)
Lemma encode_decode_roundtrip_witness :
  Schema.is_dict (SessionState.class_colors scenario_full_session) = true /\
  SessionState.from_msgpack_dict
    (SessionState.to_msgpack_dict scenario_full_session) =
    Ok scenario_full_session /\
  CarPosition.from_msgpack (CarPosition.to_msgpack scenario_car) =
    Ok scenario_car.
Proof.
  destruct (@encode_decode_roundtrip TextClock TextClock_laws) as (He & Hs).
  split; [reflexivity|]. split.
  - apply Hs. reflexivity.
  - exact (He Schema.TCarPosition scenario_car).
Defined.

(** The theorem of C3 at a car array truncated after the number. *)
Lemma default_fill_on_truncation_witness :
  Schema.well_typed (L := TextClock) Schema.TCarPosition truncated_car
    = true /\
  Schema.default_filled (L := TextClock) Schema.TCarPosition truncated_car.
Proof.
  split; [reflexivity|].
  apply (proj1 (@default_fill_on_truncation TextClock) Schema.TCarPosition
           truncated_car).
  reflexivity.
Defined.



(** C5 as stated fails: a null destination, and a destination that is
    not supplied, decode to the destination built from the defaults. *)
Lemma null_destination_is_default_record :
  VideoStatus.from_msgpack (VList video_status_null_destination) =
    Ok (VideoStatus.mk VideoSystemType.GENERIC VideoDestination.new) /\
  VideoStatus.from_msgpack (VList video_status_no_destination) =
    Ok (VideoStatus.mk VideoSystemType.GENERIC VideoDestination.new) /\
  VideoDestination.new =
    VideoDestination.mk VideoDestinationType.NONE (VStr "") (VStr "")
      (VInt 0) (VStr "").
Proof. repeat split. Qed.

(** The amended theorem of C5 at a truncated car and at a video status
    with a null destination. *)
Lemma null_nested_record_decoding_witness :
  (Schema.well_typed_CarPosition (L := TextClock) truncated_car = true /\
   nth_error truncated_car 46 = None /\
   Schema.well_typed_VideoStatus video_status_null_destination = true /\
   nth_error video_status_null_destination 1 = Some VNone) /\
  (exists c,
     CarPosition.from_msgpack (L := TextClock) (VList truncated_car) = Ok c /\
     CarPosition.in_car_video c = None) /\
  (exists s,
     VideoStatus.from_msgpack (VList video_status_null_destination) = Ok s /\
     VideoStatus.video_destination s = VideoDestination.new).
Proof.
  destruct (@null_nested_record_decoding TextClock) as (Hcar & Hvid & _).
  split; [repeat split|]. split.
  - apply (Hcar truncated_car); [reflexivity | left; reflexivity].
  - apply (Hvid video_status_null_destination);
      [reflexivity | right; reflexivity].
Defined.

(** The theorem of C6 at a truncated car and at cars with explicit
    zeros. *)
Lemma positions_gained_sentinel_witness :
  (List.length truncated_car <= 23 /\
   Schema.well_typed_CarPosition (L := TextClock) car_with_zero_gained
     = true /\
   nth_error car_with_zero_gained 23 = Some (VInt 0) /\
   List.length truncated_car <= 25 /\
   Schema.well_typed_CarPosition (L := TextClock)
     car_with_zero_class_gained = true /\
   nth_error car_with_zero_class_gained 25 = Some (VInt 0)) /\
  (exists c,
     CarPosition.from_msgpack (L := TextClock) (VList truncated_car) = Ok c /\
     CarPosition.overall_positions_gained c = VInt (-999)) /\
  (exists c,
     CarPosition.from_msgpack (L := TextClock) (VList car_with_zero_gained)
       = Ok c /\
     CarPosition.overall_positions_gained c = VInt 0) /\
  (exists c,
     CarPosition.from_msgpack (L := TextClock) (VList truncated_car) = Ok c /\
     CarPosition.in_class_positions_gained c = VInt (-999)) /\
  (exists c,
     CarPosition.from_msgpack (L := TextClock)
       (VList car_with_zero_class_gained) = Ok c /\
     CarPosition.in_class_positions_gained c = VInt 0).
Proof.
  destruct (@positions_gained_sentinel TextClock)
    as (H23 & H23z & H25 & H25z & _).
  split; [repeat split; cbn; lia|]. split; [|split; [|split]].
  - apply (H23 truncated_car). cbn. lia.
  - apply (H23z car_with_zero_gained); reflexivity.
  - apply (H25 truncated_car). cbn. lia.
  - apply (H25z car_with_zero_class_gained); reflexivity.
Defined.

(** C9 as stated fails: [class_colors] need not be a dict.  The
    session map [{26: 5}] decodes, and the decoded [class_colors] is the
    integer 5; the constructor called with 5 for [class_colors] stores 5
    as well. *)
Lemma class_colors_need_not_be_a_dict :
  dict_get (KInt 26) session_with_numeric_class_colors = Some (VInt 5) /\
  (exists s : SessionState.t,
     SessionState.from_msgpack_dict (L := TextClock)
       session_with_numeric_class_colors = Ok s /\
     SessionState.class_colors s = VInt 5 /\
     Schema.is_dict (SessionState.class_colors s) = false) /\
  SessionState.class_colors
    (SessionState.init (L := TextClock) (VInt 0) (VStr "") (VInt 0)
       (VStr "") (VInt 0) (VStr "") (VStr "") (VStr "") (VBool false)
       None None SessionState.float_zero (VBool false) None None
       Flags.UNKNOWN None VNone VNone VNone VNone VNone VNone VNone VNone
       None (VInt 5) None None) = VInt 5.
Proof.
  split; [reflexivity|]. split; [|reflexivity].
  eexists. split; [reflexivity|]. split; reflexivity.
Qed.

(** The amended theorem of C9 at the scenario session map and at a
    truncated car. *)
Lemma collections_are_never_none_witness :
  (SessionState.from_msgpack_dict (L := TextClock) scenario_session
     = Ok (SessionState.init (L := TextClock) (VInt 2) (VStr "Test Race")
             (VInt 0) (VStr "")
             (VInt 0) (VStr "") (VStr "") (VStr "") (VBool false) None None
             SessionState.float_zero (VBool false) None None Flags.GREEN
             None VNone VNone VNone VNone VNone VNone VNone VNone None
             VNone None None) /\
   absent_at scenario_session 26 /\
   CarPosition.from_msgpack (L := TextClock) (VList truncated_car)
     = Ok (Schema.CarPosition_of_array (L := TextClock) truncated_car
             Flags.UNKNOWN Flags.UNKNOWN [] None None) /\
   nth_error truncated_car 41 = None) /\
  (SessionState.class_colors
     (SessionState.init (L := TextClock) (VInt 2) (VStr "Test Race")
        (VInt 0) (VStr "")
        (VInt 0) (VStr "") (VStr "") (VStr "") (VBool false) None None
        SessionState.float_zero (VBool false) None None Flags.GREEN
        None VNone VNone VNone VNone VNone VNone VNone VNone None
        VNone None None) <> VNone) /\
  CarPosition.completed_sections
    (Schema.CarPosition_of_array (L := TextClock) truncated_car
       Flags.UNKNOWN Flags.UNKNOWN [] None None) = [].
Proof.
  destruct (@collections_are_never_none TextClock)
    as (_ & _ & Hdec & Hcar).
  split; [repeat split|]. split.
  - exact (proj1 (Hdec scenario_session _ eq_refl)).
  - apply (Hcar truncated_car); [reflexivity | left; reflexivity].
Defined.

(** The theorem of C10 at a session map whose key 15 is null and at the
    empty map. *)
Lemma null_key_is_not_absent_key_witness :
  (null_at session_with_null_flag 15 /\
   absent_at [] 15 /\ absent_at [] 13 /\ absent_at [] 14 /\
   absent_at [] 16 /\ absent_at [] 25 /\ absent_at [] 27 /\
   succeeds (_parse_datetime (L := TextClock) (get [] 9 VNone)) /\
   succeeds (_parse_datetime (L := TextClock) (get [] 10 VNone)) /\
   succeeds (_parse_datetime (L := TextClock) (get [] 28 VNone))) /\
  raises
    (SessionState.from_msgpack_dict (L := TextClock)
       session_with_null_flag) /\
  (exists s : SessionState.t,
     SessionState.from_msgpack_dict (L := TextClock) [] = Ok s /\
     SessionState.current_flag s = Flags.UNKNOWN /\
     SessionState.event_entries s = [] /\
     SessionState.car_positions s = [] /\
     SessionState.flag_durations s = [] /\
     SessionState.sections s = [] /\
     SessionState.announcements s = []).
Proof.
  split; [|split].
  - repeat split; exists None; reflexivity.
  - apply (proj1 (@null_key_is_not_absent_key TextClock
                    session_with_null_flag)).
    left. reflexivity.
  - apply (proj2 (@null_key_is_not_absent_key TextClock []));
      first [reflexivity | exists None; reflexivity].
Defined.

(** The theorem of X3 at the car patch [{20: 5}]. *)
Lemma sparse_map_raises_KeyError_witness :
  (scenario_patch <> [] /\ dict_get (KInt 0) scenario_patch = None) /\
  CarPosition.from_msgpack (L := TextClock) (VDict scenario_patch)
    = Raise KeyError.
Proof.
  split; [split; [discriminate | reflexivity]|].
  apply (@sparse_map_raises_KeyError TextClock Schema.TCarPosition
           scenario_patch); [discriminate | reflexivity].
Defined.

(** The theorem of X4 at a session map keyed by field names. *)
Lemma session_map_read_at_integer_keys_witness :
  only_string_keys session_keyed_by_name = true /\
  SessionState.from_msgpack_dict (L := TextClock) session_keyed_by_name
    = Ok SessionState.new /\
  SessionState.from_msgpack_dict (L := TextClock)
    (session_keyed_by_name ++ scenario_session)
    = SessionState.from_msgpack_dict (L := TextClock) scenario_session.
Proof.
  destruct (@session_map_read_at_integer_keys TextClock) as (Hext & Hstr).
  split; [reflexivity|]. split.
  - apply Hstr. reflexivity.
  - apply Hext. intros k _. reflexivity.
Defined.

(** The theorem of X5 at the encoding of the fully populated session. *)
Lemma session_sequences_follow_wire_witness :
  SessionState.from_msgpack_dict
    (SessionState.to_msgpack_dict scenario_full_session)
    = Ok scenario_full_session /\
  Forall2 (fun x c => CarPosition.from_msgpack (L := TextClock) x = Ok c)
    [CarPosition.to_msgpack scenario_car]
    (SessionState.car_positions scenario_full_session).
Proof.
  assert (H : SessionState.from_msgpack_dict
                (SessionState.to_msgpack_dict scenario_full_session)
              = Ok scenario_full_session) by reflexivity.
  split; [exact H|].
  destruct (@session_sequences_follow_wire TextClock _ _ H)
    as (_ & Hcars & _).
  apply Hcars. reflexivity.
Defined.

(** The theorem of X6 at a session map with a null car. *)
Lemma unsized_element_fails_session_witness :
  (In 14%Z [13; 14; 16; 25; 27]%Z /\
   get session_with_null_car 14 (VList []) = VList [VNone] /\
   In VNone [VNone] /\
   py_len VNone = Raise TypeError) /\
  raises
    (SessionState.from_msgpack_dict (L := TextClock) session_with_null_car).
Proof.
  split.
  - repeat split; cbn [In]; tauto.
  - apply (@unsized_element_fails_session TextClock session_with_null_car
             14%Z [VNone] VNone).
    + cbn [In]. tauto.
    + reflexivity.
    + left. reflexivity.
    + reflexivity.
Defined.

(** The theorem of X7 at the number of a truncated car array. *)
Lemma supplied_positions_stored_verbatim_witness :
  (CarPosition.from_msgpack (L := TextClock) (VList truncated_car)
     = Ok (Schema.CarPosition_of_array (L := TextClock) truncated_car
             Flags.UNKNOWN Flags.UNKNOWN [] None None) /\
   Schema.stored_as_is Schema.TCarPosition 2 = true /\
   nth_error truncated_car 2 = Some (VStr "60")) /\
  nth_error
    (Schema.CarPosition_fields
       (Schema.CarPosition_of_array (L := TextClock) truncated_car
          Flags.UNKNOWN Flags.UNKNOWN [] None None)) 2
    = Some (Schema.FValue (VStr "60")).
Proof.
  split; [repeat split|].
  apply (@supplied_positions_stored_verbatim TextClock Schema.TCarPosition
           truncated_car _ 2 (VStr "60")); reflexivity.
Defined.

(** The theorem of X8 at a car array with false values at indices 41
    and 46. *)
Lemma guarded_positions_empty_iff_falsy_witness :
  CarPosition.from_msgpack (L := TextClock) (VList car_with_falsy_guarded)
    = Ok (Schema.CarPosition_of_array (L := TextClock)
            car_with_falsy_guarded Flags.GREEN Flags.YELLOW [] None
            None) /\
  (CarPosition.in_car_video
     (Schema.CarPosition_of_array (L := TextClock) car_with_falsy_guarded
        Flags.GREEN Flags.YELLOW [] None None) = None <->
   nth_error car_with_falsy_guarded 46 = None \/
   exists v, nth_error car_with_falsy_guarded 46 = Some v /\
             truthy v = false) /\
  (CarPosition.completed_sections
     (Schema.CarPosition_of_array (L := TextClock) car_with_falsy_guarded
        Flags.GREEN Flags.YELLOW [] None None) = [] <->
   nth_error car_with_falsy_guarded 41 = None \/
   exists v, nth_error car_with_falsy_guarded 41 = Some v /\
             truthy v = false).
Proof.
  split; [reflexivity|].
  apply (@guarded_positions_empty_iff_falsy TextClock
           car_with_falsy_guarded).
  reflexivity.
Defined.

(** The theorem of X9 at a value with None at two depths. *)
Lemma filter_none_values_cleans_witness :
  Hub.none_free (Hub._filter_none_values nested_with_nulls) = true /\
  Hub._filter_none_values nested_with_nulls =
    VDict [ (KInt 1, VList [VInt 3; VDict []]) ]%Z /\
  Hub._filter_none_values (Hub._filter_none_values nested_with_nulls) =
    Hub._filter_none_values nested_with_nulls.
Proof.
  destruct (@filter_none_values_cleans nested_with_nulls)
    as (Hfree & _ & Hidem & Hdict).
  split; [exact Hfree|]. split; [|exact Hidem].
  rewrite (Hdict _ eq_refl). reflexivity.
Defined.

(** The theorem of X10 at the key [driverName]. *)
Lemma snake_case_name_witness :
  Hub.ascii_only "driverName" = true /\
  Hub.snake_case "driverName" = "driver_name"%string /\
  Hub.no_capital (Hub.snake_case "driverName") = true /\
  String.length (Hub.snake_case "driverName") =
    String.length "driverName" +
    List.length
      (filter Hub.is_upper (tl (list_ascii_of_string "driverName"))).
Proof.
  destruct (@snake_case_name "driverName" eq_refl) as (Hno & Hlen & _ & _).
  split; [reflexivity|]. split; [reflexivity|].
  split; [exact Hno | exact Hlen].
Defined.

(** The theorem of X11 at a car patch with a null and a dict of nulls. *)
Lemma change_counts_witness :
  (Hub.car_change_count patch_with_nulls = 2 /\
   Hub.session_change_count patch_with_nulls = 2 /\
   List.length (Hub.changes patch_with_nulls) = 3) /\
  Hub.car_change_count patch_with_nulls <=
    Hub.session_change_count patch_with_nulls /\
  Hub.session_change_count patch_with_nulls <=
    List.length (Hub.changes patch_with_nulls) /\
  Hub.car_change_count scenario_patch =
    List.length (Hub.changes scenario_patch).
Proof.
  destruct (@change_counts patch_with_nulls) as (H1 & H2 & _ & _).
  destruct (@change_counts scenario_patch) as (_ & _ & H3 & _).
  split; [repeat split|]. split; [exact H1|]. split; [exact H2|].
  apply H3. intros kv [<-|[]]. reflexivity.
Defined.

(** The theorem of X12 at a truncated car array and at a car array with
    a driver name only. *)
Lemma array_patch_identified_witness :
  ((forall t : string, plain_str (VStr t) = t) /\
   CarPosition.from_msgpack (L := TextClock) (VList truncated_car)
     = Ok (Schema.CarPosition_of_array (L := TextClock) truncated_car
             Flags.UNKNOWN Flags.UNKNOWN [] None None) /\
   CarPosition.from_msgpack (L := TextClock) (VList car_with_driver_only)
     = Ok (Schema.CarPosition_of_array (L := TextClock)
             car_with_driver_only Flags.GREEN Flags.GREEN [] None
             None)) /\
  Hub.car_id plain_str (enumerate_dict truncated_car) = "60"%string /\
  Hub.car_id plain_str (enumerate_dict car_with_driver_only)
    = "Driver: A. Driver"%string.
Proof.
  split; [repeat split|]. split.
  - apply (proj1 (@array_patch_identified TextClock plain_str
                    truncated_car _ "60" (fun t => eq_refl) eq_refl
                    ltac:(discriminate)));
      [reflexivity | cbn; lia].
  - apply (proj2 (@array_patch_identified TextClock plain_str
                    car_with_driver_only _ "A. Driver"
                    (fun t => eq_refl) eq_refl ltac:(discriminate)));
      [reflexivity | reflexivity | cbn; lia].
Defined.

(** The theorem of X13 at the car patch [{20: 5}]. *)
Lemma car_id_short_or_unknown_witness :
  (truthy (Hub.top_level scenario_patch "number" 2) = false /\
   truthy (Hub.top_level scenario_patch "driverName" 44) = false) /\
  String.length (Hub.car_id plain_str scenario_patch) <= 50 /\
  Hub.car_id plain_str scenario_patch = "Unknown"%string.
Proof.
  destruct (@car_id_short_or_unknown plain_str scenario_patch)
    as (Hlen & Hunk & _).
  split; [split; reflexivity|]. split; [exact Hlen|].
  apply Hunk; [reflexivity | reflexivity |].
  intros z v H. cbn [scenario_patch dict_get key_eqb] in H.
  destruct (Z.eqb z 20); [|discriminate H].
  injection H as <-. reflexivity.
Defined.
